(** * SurfaceFlinger composition display and refresh-rate scheduler

    A shallow embedding of [compositionengine::impl::Display],
    the parts of [compositionengine::impl::Output] it calls into, and of
    [android::Scheduler], followed by the properties proved about them.

    Conventions.
    - Fixed-width integers are carried by [Z] or [N]; where the source relies
      on a width it is written out.
    - C++ [float] is IEEE binary32, taken from the Standard Library's
      [SpecFloat] with precision 24 and maximal exponent 128.
    - A call on a collaborator (hardware composer, render surface, DispSync,
      event-control thread, event threads, the change callback) is appended to
      a log in program order; what the collaborator answers is an argument of
      the operation or a field of an oracle record.
    - Dereferencing an empty [std::optional], an end iterator, or hitting a
      fatal log is undefined or aborts: such operations return [option] and
      yield [None] there. *)

From Stdlib Require Import ZArith List Bool Lia String.
From Stdlib Require Import Floats.SpecFloat.
From stdpp Require Import gmap.
Import ListNotations.

Local Open Scope Z_scope.

(** ** IEEE binary32 arithmetic used by the scheduler *)

Module Float32.

Definition prec : Z := 24.
Definition emax : Z := 128.

Definition float := spec_float.

(** Conversion of an unsigned integer to [float] (round to nearest even). *)
Definition of_uint (n : N) : float := binary_normalize prec emax (Z.of_N n) 0 false.

Definition sub (x y : float) : float := SFsub prec emax x y.
Definition div (x y : float) : float := SFdiv prec emax x y.
Definition abs (x : float) : float := SFabs x.
Definition eqb (x y : float) : bool := SFeqb x y.
Definition ltb (x y : float) : bool := SFltb x y.
Definition leb (x y : float) : bool := SFleb x y.
Definition gtb (x y : float) : bool := SFltb y x.

(** [std::round]: nearest integer, halfway cases away from zero; zeros,
    infinities and NaN are returned as they are. *)
Definition round (x : float) : float :=
  match x with
  | S754_finite s m e =>
      if 0 <=? e then x
      else
        let d := 2 ^ (- e) in
        let q := (2 * Z.pos m + d) / (2 * d) in
        binary_normalize prec emax (cond_Zopp s q) 0 s
  | _ => x
  end.

(** The literal [0.05f]: 13421773 * 2^-28. *)
Definition lit_0_05 : float := S754_finite false 13421773 (-28).

Definition two : float := S754_finite false 8388608 (-22).

(** Conversion of a [float] to [uint32_t]: the value is truncated toward
    zero; the conversion is undefined when the truncated value is not a
    [uint32_t], and for infinities and NaN. *)
Definition to_uint32 (x : float) : option N :=
  match x with
  | S754_zero _ => Some 0%N
  | S754_finite s m e =>
      let t := if 0 <=? e then Z.pos m * 2 ^ e else Z.pos m / 2 ^ (- e) in
      if s then (if t =? 0 then Some 0%N else None)
      else if t <? 2 ^ 32 then Some (Z.to_N t) else None
  | _ => None
  end.

End Float32.

(** ** Types shared with the hardware composer *)

Definition DisplayId := N.            (* uint64_t *)
Definition status_t := Z.             (* int32_t *)
Definition NO_ERROR : status_t := 0.
Definition nsecs_t := Z.              (* int64_t *)

(** A non-null [HWC2::Layer*]. *)
Definition HwcLayerPtr := positive.

(** Values of [Hwc2::IComposerClient::Composition] and [LayerRequest], as the
    integers the [static_cast]s carry. *)
Definition Composition := Z.
Definition LayerRequest := Z.
Definition Composition_CLIENT : Composition := 1.
Definition Composition_DEVICE : Composition := 2.
Definition LayerRequest_CLEAR_CLIENT_TARGET : LayerRequest := 1.

(** Bit of [HWC2::DisplayRequest::FlipClientTarget] in the display-request
    mask (1 << 0 in the hardware composer's header). *)
Definition DisplayRequest_FlipClientTarget : Z := 1.

Definition ColorMode := Z.
Definition Dataspace := Z.
Definition RenderIntent := Z.

(** [mat4]: sixteen floats, compared element by element. *)
Definition mat4 := list Float32.float.

Fixpoint mat4_eqb (a b : mat4) : bool :=
  match a, b with
  | [], [] => true
  | x :: a', y :: b' => Float32.eqb x y && mat4_eqb a' b'
  | _, _ => false
  end.

Record Rect := { left : Z; top : Z; right : Z; bottom : Z }.
Definition Region := list Rect.

(** A fence, by identity; [NO_FENCE] is [None]. *)
Definition Fence := option N.
Definition NO_FENCE : Fence := None.

(** [HWComposer::DeviceRequestedChanges]. *)
Record DeviceRequestedChanges := {
  changedTypes : gmap HwcLayerPtr Composition;
  displayRequests : Z;
  layerRequests : gmap HwcLayerPtr LayerRequest
}.

(** What the hardware composer answers. [getDeviceCompositionChanges] returns
    its status together with the value it leaves in the optional out
    parameter. *)
Record HWComposer := {
  getDeviceCompositionChanges :
    DisplayId -> bool -> status_t * option DeviceRequestedChanges;
  hwcSetColorTransform : DisplayId -> mat4 -> status_t;
  getPresentFence : DisplayId -> Fence;
  getLayerReleaseFence : DisplayId -> HwcLayerPtr -> Fence;
  hasDisplayCapability_SkipClientColorTransform : DisplayId -> bool
}.

(** What the display colour profile and the render surface answer. *)
Record Collaborators := {
  getTargetDataspace : ColorMode -> Dataspace -> Dataspace -> Dataspace;
  getClientTargetAcquireFence : Fence
}.

(** Calls made on the collaborators of an output. *)
Inductive OutputCall :=
| Hwc_disconnectDisplay (id : DisplayId)
| Hwc_setColorTransform (id : DisplayId) (m : mat4)
| Hwc_setActiveColorMode (id : DisplayId) (mode : ColorMode) (intent : RenderIntent)
| Hwc_getDeviceCompositionChanges (id : DisplayId) (needsClient : bool)
| Hwc_presentAndGetReleaseFences (id : DisplayId)
| Hwc_getPresentFence (id : DisplayId)
| Hwc_getLayerReleaseFence (id : DisplayId) (l : HwcLayerPtr)
| Hwc_clearReleaseFences (id : DisplayId)
| RenderSurface_setBufferDataspace (d : Dataspace)
| Log_error (st : status_t).

(** ** The output-layer interface

    [compositionengine::OutputLayer] is an abstract class; the display only
    uses these five methods of it. *)

Class OutputLayerOps (L : Type) := {
  getHwcLayer : L -> option HwcLayerPtr;
  requiresClientComposition : L -> bool;
  applyDeviceCompositionTypeChange : Composition -> L -> L;
  prepareForDeviceLayerRequests : L -> L;
  applyDeviceLayerRequest : LayerRequest -> L -> L
}.

(** A plain implementation of the interface, used to run the display on
    concrete layer lists: a layer needs client composition when it has no
    hardware-composer layer or its composition type is CLIENT. *)
Record SimpleLayer := {
  sl_hwcLayer : option HwcLayerPtr;
  sl_compositionType : Composition;
  sl_clearClientTarget : bool
}.

#[export] Instance SimpleLayer_ops : OutputLayerOps SimpleLayer := {|
  getHwcLayer l := sl_hwcLayer l;
  requiresClientComposition l :=
    match sl_hwcLayer l with
    | None => true
    | Some _ => sl_compositionType l =? Composition_CLIENT
    end;
  applyDeviceCompositionTypeChange c l :=
    {| sl_hwcLayer := sl_hwcLayer l; sl_compositionType := c;
       sl_clearClientTarget := sl_clearClientTarget l |};
  prepareForDeviceLayerRequests l :=
    {| sl_hwcLayer := sl_hwcLayer l; sl_compositionType := sl_compositionType l;
       sl_clearClientTarget := false |};
  applyDeviceLayerRequest r l :=
    {| sl_hwcLayer := sl_hwcLayer l; sl_compositionType := sl_compositionType l;
       sl_clearClientTarget :=
         if r =? LayerRequest_CLEAR_CLIENT_TARGET then true
         else sl_clearClientTarget l |}
|}.

(** ** [impl::Output]: the base the display extends *)

Module Output.

(** [OutputCompositionState], the fields the modelled operations touch. *)
Record OutputCompositionState := {
  isEnabled : bool;
  isSecure : bool;
  bounds : Rect;
  colorMode : ColorMode;
  dataspace : Dataspace;
  renderIntent : RenderIntent;
  targetDataspace : Dataspace;
  colorTransformMatrix : mat4;
  dirtyRegion : Region;
  usesClientComposition : bool;
  usesDeviceComposition : bool;
  flipClientTarget : bool
}.

Record t (L : Type) := {
  mState : OutputCompositionState;
  mOutputLayersOrderedByZ : list L;
  calls : list OutputCall
}.
Arguments mState {L} _.
Arguments mOutputLayersOrderedByZ {L} _.
Arguments calls {L} _.

Record FrameFences := {
  presentFence : Fence;
  clientTargetAcquireFence : Fence;
  layerFences : gmap HwcLayerPtr Fence
}.

Section Ops.
Context {L : Type}.

Definition editState (f : OutputCompositionState -> OutputCompositionState)
    (o : t L) : t L :=
  {| mState := f (mState o);
     mOutputLayersOrderedByZ := mOutputLayersOrderedByZ o;
     calls := calls o |}.

Definition editLayers (f : list L -> list L) (o : t L) : t L :=
  {| mState := mState o;
     mOutputLayersOrderedByZ := f (mOutputLayersOrderedByZ o);
     calls := calls o |}.

Definition call (c : OutputCall) (o : t L) : t L :=
  {| mState := mState o;
     mOutputLayersOrderedByZ := mOutputLayersOrderedByZ o;
     calls := calls o ++ [c] |}.

Definition getOutputLayersOrderedByZ (o : t L) : list L :=
  mOutputLayersOrderedByZ o.

Definition set_dirtyRegion (r : Region) (s : OutputCompositionState) :=
  {| isEnabled := isEnabled s; isSecure := isSecure s; bounds := bounds s;
     colorMode := colorMode s; dataspace := dataspace s;
     renderIntent := renderIntent s; targetDataspace := targetDataspace s;
     colorTransformMatrix := colorTransformMatrix s; dirtyRegion := r;
     usesClientComposition := usesClientComposition s;
     usesDeviceComposition := usesDeviceComposition s;
     flipClientTarget := flipClientTarget s |}.

Definition set_colorTransformMatrix (m : mat4) (s : OutputCompositionState) :=
  {| isEnabled := isEnabled s; isSecure := isSecure s; bounds := bounds s;
     colorMode := colorMode s; dataspace := dataspace s;
     renderIntent := renderIntent s; targetDataspace := targetDataspace s;
     colorTransformMatrix := m; dirtyRegion := dirtyRegion s;
     usesClientComposition := usesClientComposition s;
     usesDeviceComposition := usesDeviceComposition s;
     flipClientTarget := flipClientTarget s |}.

Definition set_colorProfile (mode : ColorMode) (ds : Dataspace)
    (ri : RenderIntent) (tds : Dataspace) (s : OutputCompositionState) :=
  {| isEnabled := isEnabled s; isSecure := isSecure s; bounds := bounds s;
     colorMode := mode; dataspace := ds;
     renderIntent := ri; targetDataspace := tds;
     colorTransformMatrix := colorTransformMatrix s;
     dirtyRegion := dirtyRegion s;
     usesClientComposition := usesClientComposition s;
     usesDeviceComposition := usesDeviceComposition s;
     flipClientTarget := flipClientTarget s |}.

Definition set_uses (client device : bool) (s : OutputCompositionState) :=
  {| isEnabled := isEnabled s; isSecure := isSecure s; bounds := bounds s;
     colorMode := colorMode s; dataspace := dataspace s;
     renderIntent := renderIntent s; targetDataspace := targetDataspace s;
     colorTransformMatrix := colorTransformMatrix s;
     dirtyRegion := dirtyRegion s;
     usesClientComposition := client;
     usesDeviceComposition := device;
     flipClientTarget := flipClientTarget s |}.

Definition set_flipClientTarget (b : bool) (s : OutputCompositionState) :=
  {| isEnabled := isEnabled s; isSecure := isSecure s; bounds := bounds s;
     colorMode := colorMode s; dataspace := dataspace s;
     renderIntent := renderIntent s; targetDataspace := targetDataspace s;
     colorTransformMatrix := colorTransformMatrix s;
     dirtyRegion := dirtyRegion s;
     usesClientComposition := usesClientComposition s;
     usesDeviceComposition := usesDeviceComposition s;
     flipClientTarget := b |}.

(** [mState.dirtyRegion.set(mState.bounds)] *)
Definition dirtyEntireOutput (o : t L) : t L :=
  editState (fun s => set_dirtyRegion [bounds s] s) o.

(** [Output::setColorTransform]: the matrix arrives as the optional
    [colorTransformMatrix] of the refresh arguments. *)
Definition setColorTransform (m : option mat4) (o : t L) : t L :=
  match m with
  | None => o
  | Some m' =>
      if mat4_eqb (colorTransformMatrix (mState o)) m' then o
      else dirtyEntireOutput (editState (set_colorTransformMatrix m') o)
  end.

(** [Output::setColorProfile], which the display reaches as
    [Output::setColorMode]. *)
Definition setColorProfile (env : Collaborators) (mode : ColorMode)
    (ds : Dataspace) (ri : RenderIntent) (agnostic : Dataspace)
    (o : t L) : t L :=
  let tds := getTargetDataspace env mode ds agnostic in
  let s := mState o in
  if (colorMode s =? mode) && (dataspace s =? ds) &&
     (renderIntent s =? ri) && (targetDataspace s =? tds)
  then o
  else
    dirtyEntireOutput
      (call (RenderSurface_setBufferDataspace ds)
         (editState (set_colorProfile mode ds ri tds) o)).

(** The base output can only do client composition. *)
Definition chooseCompositionStrategy (o : t L) : t L :=
  editState (set_uses true false) o.

Definition presentAndGetFrameFences (env : Collaborators) (o : t L)
    : FrameFences :=
  {| presentFence := NO_FENCE;
     clientTargetAcquireFence :=
       if usesClientComposition (mState o)
       then getClientTargetAcquireFence env else NO_FENCE;
     layerFences := ∅ |}.

End Ops.

End Output.

(** ** [impl::Display] *)

Module Display.

Record t (L : Type) := {
  base : Output.t L;
  mIsVirtual : bool;
  mId : option DisplayId
}.
Arguments base {L} _.
Arguments mIsVirtual {L} _.
Arguments mId {L} _.

Section Ops.
Context {L : Type} `{OutputLayerOps L}.
Variable hwc : HWComposer.
Variable env : Collaborators.

Definition onBase (f : Output.t L -> Output.t L) (d : t L) : t L :=
  {| base := f (base d); mIsVirtual := mIsVirtual d; mId := mId d |}.

Definition getId (d : t L) : option DisplayId := mId d.
Definition isVirtual (d : t L) : bool := mIsVirtual d.
Definition getState (d : t L) := Output.mState (base d).
Definition getOutputLayersOrderedByZ (d : t L) : list L :=
  Output.getOutputLayersOrderedByZ (base d).

Definition disconnect (d : t L) : t L :=
  match mId d with
  | None => d
  | Some id =>
      {| base := Output.call (Hwc_disconnectDisplay id) (base d);
         mIsVirtual := mIsVirtual d;
         mId := None |}
  end.

(** [*mId] on an empty optional is undefined: [None]. *)
Definition setColorTransform (transform : mat4) (d : t L) : option (t L) :=
  let d1 := onBase (Output.setColorTransform (Some transform)) d in
  match mId d1 with
  | None => None
  | Some id =>
      let result := hwcSetColorTransform hwc id transform in
      let d2 := onBase (Output.call (Hwc_setColorTransform id transform)) d1 in
      Some (if result =? NO_ERROR then d2
            else onBase (Output.call (Log_error result)) d2)
  end.

Definition setColorMode (mode : ColorMode) (ds : Dataspace)
    (ri : RenderIntent) (agnostic : Dataspace) (d : t L) : option (t L) :=
  let tds := getTargetDataspace env mode ds agnostic in
  let s := getState d in
  if (mode =? Output.colorMode s) && (ds =? Output.dataspace s) &&
     (ri =? Output.renderIntent s) && (tds =? Output.targetDataspace s)
  then Some d
  else if mIsVirtual d then Some d
  else
    let d1 := onBase (Output.setColorProfile env mode ds ri agnostic) d in
    match mId d1 with
    | None => None
    | Some id => Some (onBase (Output.call (Hwc_setActiveColorMode id mode ri)) d1)
    end.

Definition anyLayersRequireClientComposition (d : t L) : bool :=
  existsb requiresClientComposition (getOutputLayersOrderedByZ d).

Definition allLayersRequireClientComposition (d : t L) : bool :=
  forallb requiresClientComposition (getOutputLayersOrderedByZ d).

Definition applyChangedTypesToLayers
    (changed : gmap HwcLayerPtr Composition) (d : t L) : t L :=
  if bool_decide (changed = ∅) then d
  else
    onBase (Output.editLayers (map (fun layer =>
      match getHwcLayer layer with
      | None => layer
      | Some hwcLayer =>
          match changed !! hwcLayer with
          | Some ty => applyDeviceCompositionTypeChange ty layer
          | None => layer
          end
      end))) d.

Definition applyDisplayRequests (requests : Z) (d : t L) : t L :=
  onBase (Output.editState (Output.set_flipClientTarget
    (negb (Z.land (requests mod 2 ^ 32) DisplayRequest_FlipClientTarget =? 0)))) d.

Definition applyLayerRequestsToLayers
    (requests : gmap HwcLayerPtr LayerRequest) (d : t L) : t L :=
  onBase (Output.editLayers (map (fun layer =>
    let layer := prepareForDeviceLayerRequests layer in
    match getHwcLayer layer with
    | None => layer
    | Some hwcLayer =>
        match requests !! hwcLayer with
        | Some r => applyDeviceLayerRequest r layer
        | None => layer
        end
    end))) d.

Definition applyChanges (changes : option DeviceRequestedChanges) (d : t L)
    : t L :=
  match changes with
  | None => d
  | Some c =>
      applyLayerRequestsToLayers (layerRequests c)
        (applyDisplayRequests (displayRequests c)
           (applyChangedTypesToLayers (changedTypes c) d))
  end.

Definition chooseCompositionStrategy (d : t L) : t L :=
  (* Default to the base settings -- client composition only. *)
  let d0 := onBase Output.chooseCompositionStrategy d in
  match mId d0 with
  | None => d0
  | Some id =>
      let needsClient := anyLayersRequireClientComposition d0 in
      let '(result, changes) := getDeviceCompositionChanges hwc id needsClient in
      let d1 := onBase (Output.call (Hwc_getDeviceCompositionChanges id needsClient)) d0 in
      if negb (result =? NO_ERROR) then
        onBase (Output.call (Log_error result)) d1
      else
        let d2 := applyChanges changes d1 in
        onBase (Output.editState (Output.set_uses
                  (anyLayersRequireClientComposition d2)
                  (negb (allLayersRequireClientComposition d2)))) d2
  end.

Definition getSkipColorTransform (d : t L) : bool :=
  match mId d with
  | None => false
  | Some id => hasDisplayCapability_SkipClientColorTransform hwc id
  end.

Definition presentAndGetFrameFences (d : t L) : Output.FrameFences * t L :=
  let result := Output.presentAndGetFrameFences env (base d) in
  match mId d with
  | None => (result, d)
  | Some id =>
      let d1 := onBase (Output.call (Hwc_presentAndGetReleaseFences id)) d in
      let d2 := onBase (Output.call (Hwc_getPresentFence id)) d1 in
      let step (acc : gmap HwcLayerPtr Fence * t L) (layer : L) :=
        match getHwcLayer layer with
        | None => acc
        | Some hwcLayer =>
            (* emplace keeps an entry that is already there *)
            (match fst acc !! hwcLayer with
             | Some _ => fst acc
             | None => <[hwcLayer := getLayerReleaseFence hwc id hwcLayer]> (fst acc)
             end,
             onBase (Output.call (Hwc_getLayerReleaseFence id hwcLayer)) (snd acc))
        end in
      let '(fences, d3) :=
        fold_left step (getOutputLayersOrderedByZ d2)
                  (Output.layerFences result, d2) in
      ({| Output.presentFence := getPresentFence hwc id;
          Output.clientTargetAcquireFence := Output.clientTargetAcquireFence result;
          Output.layerFences := fences |},
       onBase (Output.call (Hwc_clearReleaseFences id)) d3)
  end.

End Ops.

End Display.

(** ** [scheduler::RefreshRateConfigs] *)

Module ConfigEvent.
(** [RefreshRateConfigEvent] *)
Inductive t := None | Changed.
End ConfigEvent.

Module RefreshRateConfigs.

Inductive RefreshRateType := DEFAULT | PERFORMANCE.

Definition RefreshRateType_eqb (a b : RefreshRateType) : bool :=
  match a, b with
  | DEFAULT, DEFAULT | PERFORMANCE, PERFORMANCE => true
  | _, _ => false
  end.

Record RefreshRate := {
  configId : Z;
  name : string;
  fps : N;                 (* uint32_t *)
  vsyncPeriod : nsecs_t;
  hwcId : N
}.

(** [std::map<RefreshRateType, RefreshRate>]: at most one entry per key,
    iterated in key order, DEFAULT before PERFORMANCE. *)
Record RefreshRateMap := {
  atDEFAULT : option RefreshRate;
  atPERFORMANCE : option RefreshRate
}.

Definition entries (m : RefreshRateMap) : list (RefreshRateType * RefreshRate) :=
  match atDEFAULT m with Some r => [(DEFAULT, r)] | None => [] end ++
  match atPERFORMANCE m with Some r => [(PERFORMANCE, r)] | None => [] end.

Definition find (m : RefreshRateMap) (ty : RefreshRateType) : option RefreshRate :=
  match ty with
  | DEFAULT => atDEFAULT m
  | PERFORMANCE => atPERFORMANCE m
  end.

Record t := {
  mRefreshRateSwitchingSupported : bool;
  mRefreshRateMap : RefreshRateMap
}.

Definition refreshRateSwitchingSupported (c : t) : bool :=
  mRefreshRateSwitchingSupported c.

Definition getRefreshRateMap (c : t) : list (RefreshRateType * RefreshRate) :=
  entries (mRefreshRateMap c).

(** Modelled from the spec: the body of
    [RefreshRateConfigs::getRefreshRateFromType] is not among the sources,
    only its declaration. The scheduler reaches it with switching supported
    and reads the [fps] of "the refresh rate in the rate map" for the type
    it picked, so it is the map's entry for that type; a type without an
    entry has no refresh rate to return. *)
Definition getRefreshRateFromType (c : t) (ty : RefreshRateType)
    : option RefreshRate :=
  find (mRefreshRateMap c) ty.

End RefreshRateConfigs.

(** [std::min_element] over a list, as the position of the first smallest
    element; on the empty range it returns the end, position 0. *)
Fixpoint min_element_from {A : Type} (comp : A -> A -> bool)
    (smallest : nat) (smallestv : A) (i : nat) (l : list A) : nat :=
  match l with
  | [] => smallest
  | x :: l' =>
      if comp x smallestv then min_element_from comp i x (S i) l'
      else min_element_from comp smallest smallestv (S i) l'
  end.

Definition min_element {A : Type} (comp : A -> A -> bool) (l : list A) : nat :=
  match l with
  | [] => 0%nat
  | x :: l' => min_element_from comp 0%nat x 1%nat l'
  end.

(** ** [Scheduler] *)

Module Scheduler.
Import RefreshRateConfigs.

Inductive TimerState := Reset | Expired.
Inductive TouchState := Inactive | Active.
Inductive ContentDetectionState := Off | On.
(** [ISurfaceComposer::ConfigChanged] *)
Inductive ConfigChanged := eConfigChangedSuppress | eConfigChangedDispatch.

Definition TimerState_eqb (a b : TimerState) : bool :=
  match a, b with
  | Reset, Reset | Expired, Expired => true
  | _, _ => false
  end.

Definition TouchState_eqb (a b : TouchState) : bool :=
  match a, b with
  | Inactive, Inactive | Active, Active => true
  | _, _ => false
  end.

Definition ContentDetectionState_eqb (a b : ContentDetectionState) : bool :=
  match a, b with
  | Off, Off | On, On => true
  | _, _ => false
  end.

(** [mFeatures] *)
Record Features := {
  contentDetection : ContentDetectionState;
  idleTimer : TimerState;
  touch : TouchState;
  displayPowerTimer : TimerState;
  refreshRateType : RefreshRateType;
  contentRefreshRate : N;        (* uint32_t *)
  isHDRContent : bool;
  isDisplayPowerStateNormal : bool
}.

(** Non-null pointers to event threads and to their connections. *)
Definition EventThreadPtr := positive.
Definition EventThreadConnectionPtr := positive.

Record Connection := {
  connection : EventThreadConnectionPtr;
  thread : EventThreadPtr
}.

Inductive EventThreadCall :=
| ET_createEventConnection (configChanged : ConfigChanged)
| ET_onHotplugReceived (displayId : N) (connected : bool)
| ET_onScreenAcquired
| ET_onScreenReleased
| ET_onConfigChanged (displayId : N) (configId : Z)
| ET_dump
| ET_setPhaseOffset (phaseOffset : nsecs_t).

(** What the scheduler does to the outside, in program order. The entry of
    [resyncToHardwareVsync] is recorded as well, so that its invocations can
    be counted. *)
Inductive Call :=
| DispSync_beginResync
| DispSync_endResync
| DispSync_setPeriod (period : nsecs_t)
| DispSync_addResyncSample (timestamp : nsecs_t)
| DispSync_addPresentFence (fenceTime : N)
| EventControlThread_setVsyncEnabled (enabled : bool)
| EventThread_call (thread : EventThreadPtr) (c : EventThreadCall)
| Callback_changeRefreshRate (ty : RefreshRateType) (event : ConfigEvent.t)
| Enter_resyncToHardwareVsync (makeAvailable : bool) (period : nsecs_t)
| Log_invalidHandle (id : N).

Record t := {
  mRefreshRateConfigs : RefreshRateConfigs.t;
  mForceHDRContentToDefaultRefreshRate : bool;
  mFeatures : Features;
  (** whether [mChangeRefreshRateCallback] holds a callback *)
  mChangeRefreshRateCallback : bool;
  mPrimaryHWVsyncEnabled : bool;
  mHWVsyncAvailable : bool;
  mLastResyncTime : nsecs_t;
  mConnections : gmap N Connection;
  mNextConnectionHandleId : N;      (* uintptr_t *)
  calls : list Call
}.

Definition editFeatures (f : Features -> Features) (s : t) : t :=
  {| mRefreshRateConfigs := mRefreshRateConfigs s;
     mForceHDRContentToDefaultRefreshRate := mForceHDRContentToDefaultRefreshRate s;
     mFeatures := f (mFeatures s);
     mChangeRefreshRateCallback := mChangeRefreshRateCallback s;
     mPrimaryHWVsyncEnabled := mPrimaryHWVsyncEnabled s;
     mHWVsyncAvailable := mHWVsyncAvailable s;
     mLastResyncTime := mLastResyncTime s;
     mConnections := mConnections s;
     mNextConnectionHandleId := mNextConnectionHandleId s;
     calls := calls s |}.

Definition set_mPrimaryHWVsyncEnabled (b : bool) (s : t) : t :=
  {| mRefreshRateConfigs := mRefreshRateConfigs s;
     mForceHDRContentToDefaultRefreshRate := mForceHDRContentToDefaultRefreshRate s;
     mFeatures := mFeatures s;
     mChangeRefreshRateCallback := mChangeRefreshRateCallback s;
     mPrimaryHWVsyncEnabled := b;
     mHWVsyncAvailable := mHWVsyncAvailable s;
     mLastResyncTime := mLastResyncTime s;
     mConnections := mConnections s;
     mNextConnectionHandleId := mNextConnectionHandleId s;
     calls := calls s |}.

Definition set_mHWVsyncAvailable (b : bool) (s : t) : t :=
  {| mRefreshRateConfigs := mRefreshRateConfigs s;
     mForceHDRContentToDefaultRefreshRate := mForceHDRContentToDefaultRefreshRate s;
     mFeatures := mFeatures s;
     mChangeRefreshRateCallback := mChangeRefreshRateCallback s;
     mPrimaryHWVsyncEnabled := mPrimaryHWVsyncEnabled s;
     mHWVsyncAvailable := b;
     mLastResyncTime := mLastResyncTime s;
     mConnections := mConnections s;
     mNextConnectionHandleId := mNextConnectionHandleId s;
     calls := calls s |}.

Definition set_mLastResyncTime (now : nsecs_t) (s : t) : t :=
  {| mRefreshRateConfigs := mRefreshRateConfigs s;
     mForceHDRContentToDefaultRefreshRate := mForceHDRContentToDefaultRefreshRate s;
     mFeatures := mFeatures s;
     mChangeRefreshRateCallback := mChangeRefreshRateCallback s;
     mPrimaryHWVsyncEnabled := mPrimaryHWVsyncEnabled s;
     mHWVsyncAvailable := mHWVsyncAvailable s;
     mLastResyncTime := now;
     mConnections := mConnections s;
     mNextConnectionHandleId := mNextConnectionHandleId s;
     calls := calls s |}.

Definition set_connections (m : gmap N Connection) (next : N) (s : t) : t :=
  {| mRefreshRateConfigs := mRefreshRateConfigs s;
     mForceHDRContentToDefaultRefreshRate := mForceHDRContentToDefaultRefreshRate s;
     mFeatures := mFeatures s;
     mChangeRefreshRateCallback := mChangeRefreshRateCallback s;
     mPrimaryHWVsyncEnabled := mPrimaryHWVsyncEnabled s;
     mHWVsyncAvailable := mHWVsyncAvailable s;
     mLastResyncTime := mLastResyncTime s;
     mConnections := m;
     mNextConnectionHandleId := next;
     calls := calls s |}.

Definition call (c : Call) (s : t) : t :=
  {| mRefreshRateConfigs := mRefreshRateConfigs s;
     mForceHDRContentToDefaultRefreshRate := mForceHDRContentToDefaultRefreshRate s;
     mFeatures := mFeatures s;
     mChangeRefreshRateCallback := mChangeRefreshRateCallback s;
     mPrimaryHWVsyncEnabled := mPrimaryHWVsyncEnabled s;
     mHWVsyncAvailable := mHWVsyncAvailable s;
     mLastResyncTime := mLastResyncTime s;
     mConnections := mConnections s;
     mNextConnectionHandleId := mNextConnectionHandleId s;
     calls := calls s ++ [c] |}.

(** *** Connection registry *)

(** [createConnection(std::unique_ptr<EventThread>)]: [created] is the
    connection the new thread's [createEventConnection] returns. *)
Definition createConnection (eventThread : EventThreadPtr)
    (created : EventThreadConnectionPtr) (s : t) : N * t :=
  let handle := mNextConnectionHandleId s in
  let s1 := set_connections (mConnections s)
              ((mNextConnectionHandleId s + 1) mod 2 ^ 64)%N s in
  let s2 := call (EventThread_call eventThread
                    (ET_createEventConnection eConfigChangedSuppress)) s1 in
  (handle,
   set_connections
     (match mConnections s2 !! handle with
      | Some _ => mConnections s2          (* emplace keeps an existing entry *)
      | None => <[handle := {| connection := created; thread := eventThread |}]>
                  (mConnections s2)
      end)
     (mNextConnectionHandleId s2) s2).

(** [RETURN_IF_INVALID_HANDLE] followed by the body [k], which receives the
    entry [mConnections[handle]]. *)
Definition withValidHandle {R : Type} (handle : N) (dflt : R)
    (k : Connection -> R * t) (s : t) : R * t :=
  match mConnections s !! handle with
  | None => (dflt, call (Log_invalidHandle handle) s)
  | Some c => k c
  end.

Definition createDisplayEventConnection (handle : N)
    (configChanged : ConfigChanged) (created : EventThreadConnectionPtr)
    (s : t) : option EventThreadConnectionPtr * t :=
  withValidHandle handle None (fun c =>
    (Some created,
     call (EventThread_call (thread c) (ET_createEventConnection configChanged)) s)) s.

Definition getEventThread (handle : N) (s : t) : option EventThreadPtr * t :=
  withValidHandle handle None (fun c => (Some (thread c), s)) s.

Definition getEventConnection (handle : N) (s : t)
    : option EventThreadConnectionPtr * t :=
  withValidHandle handle None (fun c => (Some (connection c), s)) s.

Definition onHotplugReceived (handle : N) (displayId : N) (connected : bool)
    (s : t) : unit * t :=
  withValidHandle handle tt (fun c =>
    (tt, call (EventThread_call (thread c)
                 (ET_onHotplugReceived displayId connected)) s)) s.

Definition onScreenAcquired (handle : N) (s : t) : unit * t :=
  withValidHandle handle tt (fun c =>
    (tt, call (EventThread_call (thread c) ET_onScreenAcquired) s)) s.

Definition onScreenReleased (handle : N) (s : t) : unit * t :=
  withValidHandle handle tt (fun c =>
    (tt, call (EventThread_call (thread c) ET_onScreenReleased) s)) s.

Definition onConfigChanged (handle : N) (displayId : N) (configId : Z)
    (s : t) : unit * t :=
  withValidHandle handle tt (fun c =>
    (tt, call (EventThread_call (thread c)
                 (ET_onConfigChanged displayId configId)) s)) s.

(** [dump(handle, result)]: [written] is what the thread appends to
    [result]; the string in the first component is [result] afterwards. *)
Definition dump (handle : N) (result : string) (written : string) (s : t)
    : string * t :=
  withValidHandle handle result (fun c =>
    ((result ++ written)%string,
     call (EventThread_call (thread c) ET_dump) s)) s.

Definition setPhaseOffset (handle : N) (phaseOffset : nsecs_t) (s : t)
    : unit * t :=
  withValidHandle handle tt (fun c =>
    (tt, call (EventThread_call (thread c) (ET_setPhaseOffset phaseOffset)) s)) s.

(** *** Hardware vsync *)

Definition enableHardwareVsync (s : t) : t :=
  if negb (mPrimaryHWVsyncEnabled s) && mHWVsyncAvailable s then
    set_mPrimaryHWVsyncEnabled true
      (call (EventControlThread_setVsyncEnabled true)
         (call DispSync_beginResync s))
  else s.

Definition disableHardwareVsync (makeUnavailable : bool) (s : t) : t :=
  let s1 :=
    if mPrimaryHWVsyncEnabled s then
      set_mPrimaryHWVsyncEnabled false
        (call DispSync_endResync
           (call (EventControlThread_setVsyncEnabled false) s))
    else s in
  if makeUnavailable then set_mHWVsyncAvailable false s1 else s1.

Definition setVsyncPeriod (period : nsecs_t) (s : t) : t :=
  let s1 := call (DispSync_setPeriod period) s in
  if negb (mPrimaryHWVsyncEnabled s1) then
    set_mPrimaryHWVsyncEnabled true
      (call (EventControlThread_setVsyncEnabled true)
         (call DispSync_beginResync s1))
  else s1.

Definition resyncToHardwareVsync (makeAvailable : bool) (period : nsecs_t)
    (s : t) : t :=
  let s0 := call (Enter_resyncToHardwareVsync makeAvailable period) s in
  if makeAvailable then
    let s1 := set_mHWVsyncAvailable makeAvailable s0 in
    if period <=? 0 then s1 else setVsyncPeriod period s1
  else if negb (mHWVsyncAvailable s0) then
    (* Hardware vsync is not currently available, so abort the resync
       attempt for now *)
    s0
  else
    if period <=? 0 then s0 else setVsyncPeriod period s0.

(** 64-bit two's complement wrap-around of [nsecs_t] arithmetic. *)
Definition wrap64 (z : Z) : Z := (z + 2 ^ 63) mod 2 ^ 64 - 2 ^ 63.

Definition ms2ns (ms : Z) : nsecs_t := ms * 1000000.
Definition kIgnoreDelay : nsecs_t := ms2ns 750.

(** [resync()]: [now] is what [systemTime()] returns and [currentPeriod]
    the [vsyncPeriod] of [getCurrentRefreshRate()] at the time of the call. *)
Definition resync (now : nsecs_t) (currentPeriod : nsecs_t) (s : t) : t :=
  let last := mLastResyncTime s in
  let s1 := set_mLastResyncTime now s in
  if wrap64 (now - last) >? kIgnoreDelay then
    resyncToHardwareVsync false currentPeriod s1
  else s1.

(** [addResyncSample(timestamp, periodFlushed)]: [(needs, flushed)] is what
    DispSync's [addResyncSample] returns and stores in [*periodFlushed] if
    it is called. The first component is [*periodFlushed] afterwards. *)
Definition addResyncSample (timestamp : nsecs_t) (needs flushed : bool)
    (s : t) : bool * t :=
  let '(needsHwVsync, periodFlushed, s1) :=
    if mPrimaryHWVsyncEnabled s
    then (needs, flushed, call (DispSync_addResyncSample timestamp) s)
    else (false, false, s) in
  (periodFlushed,
   if needsHwVsync then enableHardwareVsync s1
   else disableHardwareVsync false s1).

(** [addPresentFence(fenceTime)]: [needs] is what DispSync's
    [addPresentFence] returns. *)
Definition addPresentFence (fenceTime : N) (needs : bool) (s : t) : t :=
  let s1 := call (DispSync_addPresentFence fenceTime) s in
  if needs then enableHardwareVsync s1 else disableHardwareVsync false s1.

(** *** Refresh-rate selection *)

Definition MARGIN : Float32.float := Float32.lit_0_05.

(** Distance of [ratio] to the nearest integer:
    [std::abs(std::round(ratio) - ratio)]. *)
Definition roundingError (ratio : Float32.float) : Float32.float :=
  Float32.abs (Float32.sub (Float32.round ratio) ratio).

(** The [while] loop of [calculateRefreshRateType], from [iter] to the end
    of the map. *)
Fixpoint scan (rate : Float32.float)
    (rest : list (RefreshRateType * RefreshRate))
    (currRefreshRateType : RefreshRateType) : RefreshRateType :=
  match rest with
  | [] => currRefreshRateType
  | e :: rest' =>
      let ratio := Float32.div (Float32.of_uint (fps (snd e))) rate in
      if Float32.leb (roundingError ratio) MARGIN then fst e
      else scan rate rest' currRefreshRateType
  end.

Definition closer (rate : Float32.float)
    (lhs rhs : RefreshRateType * RefreshRate) : bool :=
  Float32.ltb (Float32.abs (Float32.sub (Float32.of_uint (fps (snd lhs))) rate))
              (Float32.abs (Float32.sub (Float32.of_uint (fps (snd rhs))) rate)).

Definition calculateRefreshRateType (s : t) : option RefreshRateType :=
  let cfg := mRefreshRateConfigs s in
  let f := mFeatures s in
  if negb (refreshRateSwitchingSupported cfg) then Some DEFAULT
  (* HDR content is not supported on PERFORMANCE mode *)
  else if mForceHDRContentToDefaultRefreshRate s && isHDRContent f then Some DEFAULT
  (* If Display Power is not in normal operation we want to be in performance mode. *)
  else if negb (isDisplayPowerStateNormal f) ||
          TimerState_eqb (displayPowerTimer f) Reset then Some PERFORMANCE
  (* As long as touch is active we want to be in performance mode *)
  else if TouchState_eqb (touch f) Active then Some PERFORMANCE
  (* If timer has expired as it means there is no new content on the screen *)
  else if TimerState_eqb (idleTimer f) Expired then Some DEFAULT
  (* If content detection is off we choose performance *)
  else if ContentDetectionState_eqb (contentDetection f) Off then Some PERFORMANCE
  else
    let rate := Float32.of_uint (contentRefreshRate f) in
    let rateMap := getRefreshRateMap cfg in
    let iter := min_element (closer rate) rateMap in
    match rateMap !! iter with
    | None => None                       (* [iter] is the end of an empty map *)
    | Some e =>
        let currRefreshRateType := fst e in
        match getRefreshRateFromType cfg currRefreshRateType with
        | None => None
        | Some rr =>
            let ratio := Float32.div (Float32.of_uint (fps rr)) rate in
            if Float32.gtb (roundingError ratio) MARGIN
            then Some (scan rate (drop iter rateMap) currRefreshRateType)
            else Some currRefreshRateType
        end
    end.

Definition getPreferredRefreshRateType (s : t) : RefreshRateType :=
  refreshRateType (mFeatures s).

Definition changeRefreshRate (ty : RefreshRateType) (event : ConfigEvent.t)
    (s : t) : t :=
  if mChangeRefreshRateCallback s
  then call (Callback_changeRefreshRate ty event) s
  else s.

Definition set_refreshRateType (ty : RefreshRateType) (f : Features) : Features :=
  {| contentDetection := contentDetection f; idleTimer := idleTimer f;
     touch := touch f; displayPowerTimer := displayPowerTimer f;
     refreshRateType := ty; contentRefreshRate := contentRefreshRate f;
     isHDRContent := isHDRContent f;
     isDisplayPowerStateNormal := isDisplayPowerStateNormal f |}.

Definition set_idleTimer (v : TimerState) (f : Features) : Features :=
  {| contentDetection := contentDetection f; idleTimer := v;
     touch := touch f; displayPowerTimer := displayPowerTimer f;
     refreshRateType := refreshRateType f;
     contentRefreshRate := contentRefreshRate f;
     isHDRContent := isHDRContent f;
     isDisplayPowerStateNormal := isDisplayPowerStateNormal f |}.

Definition set_touch (v : TouchState) (f : Features) : Features :=
  {| contentDetection := contentDetection f; idleTimer := idleTimer f;
     touch := v; displayPowerTimer := displayPowerTimer f;
     refreshRateType := refreshRateType f;
     contentRefreshRate := contentRefreshRate f;
     isHDRContent := isHDRContent f;
     isDisplayPowerStateNormal := isDisplayPowerStateNormal f |}.

Definition set_displayPowerTimer (v : TimerState) (f : Features) : Features :=
  {| contentDetection := contentDetection f; idleTimer := idleTimer f;
     touch := touch f; displayPowerTimer := v;
     refreshRateType := refreshRateType f;
     contentRefreshRate := contentRefreshRate f;
     isHDRContent := isHDRContent f;
     isDisplayPowerStateNormal := isDisplayPowerStateNormal f |}.

(** A pointer to one of the fields of [mFeatures], with the equality of
    its type: what [handleTimerStateChanged<T>] is instantiated with. *)
Record FeatureField (T : Type) := {
  readField : Features -> T;
  writeField : T -> Features -> Features;
  sameState : T -> T -> bool
}.
Arguments readField {T} _ _.
Arguments writeField {T} _ _ _.
Arguments sameState {T} _ _ _.

Definition field_idleTimer : FeatureField TimerState :=
  {| readField := idleTimer; writeField := set_idleTimer;
     sameState := TimerState_eqb |}.
Definition field_touch : FeatureField TouchState :=
  {| readField := touch; writeField := set_touch;
     sameState := TouchState_eqb |}.
Definition field_displayPowerTimer : FeatureField TimerState :=
  {| readField := displayPowerTimer; writeField := set_displayPowerTimer;
     sameState := TimerState_eqb |}.

Definition handleTimerStateChanged {T : Type} (currentState : FeatureField T)
    (newState : T) (eventOnContentDetection : bool) (s : t) : option t :=
  if sameState currentState (readField currentState (mFeatures s)) newState
  then Some s
  else
    let s1 := editFeatures (writeField currentState newState) s in
    match calculateRefreshRateType s1 with
    | None => None
    | Some newRefreshRateType =>
        if RefreshRateType_eqb (refreshRateType (mFeatures s1)) newRefreshRateType
        then Some s1
        else
          let s2 := editFeatures (set_refreshRateType newRefreshRateType) s1 in
          let event :=
            if eventOnContentDetection &&
               ContentDetectionState_eqb (contentDetection (mFeatures s2)) On
            then ConfigEvent.Changed else ConfigEvent.None in
          Some (changeRefreshRate newRefreshRateType event s2)
    end.

Definition idleTimerCallback (state : TimerState) (s : t) : option t :=
  handleTimerStateChanged field_idleTimer state false s.

Definition touchTimerCallback (state : TimerState) (s : t) : option t :=
  let touch := if TimerState_eqb state Reset then Active else Inactive in
  handleTimerStateChanged field_touch touch true s.

Definition displayPowerTimerCallback (state : TimerState) (s : t) : option t :=
  handleTimerStateChanged field_displayPowerTimer state true s.

(** *** Operations as data

    The timers, the handle-taking operations and the hardware-vsync
    operations, each with the arguments of a call, so that statements can
    range over all of them and over sequences of them. *)

Inductive Timer := IdleTimer | TouchTimer | DisplayPowerTimer.

Definition timerCallback (k : Timer) : TimerState -> t -> option t :=
  match k with
  | IdleTimer => idleTimerCallback
  | TouchTimer => touchTimerCallback
  | DisplayPowerTimer => displayPowerTimerCallback
  end.

Inductive HandleOp :=
| OpCreateDisplayEventConnection (configChanged : ConfigChanged)
    (created : EventThreadConnectionPtr)
| OpGetEventThread
| OpGetEventConnection
| OpOnHotplugReceived (displayId : N) (connected : bool)
| OpOnScreenAcquired
| OpOnScreenReleased
| OpOnConfigChanged (displayId : N) (configId : Z)
| OpDump (result written : string)
| OpSetPhaseOffset (phaseOffset : nsecs_t).

(** What a handle-taking operation returns: a connection pointer, a thread
    pointer (null is [None]), nothing, or the dump string. *)
Inductive HandleResult :=
| ResConnection (c : option EventThreadConnectionPtr)
| ResThread (th : option EventThreadPtr)
| ResVoid
| ResDump (result : string).

Definition runHandleOp (handle : N) (op : HandleOp) (s : t) : HandleResult * t :=
  match op with
  | OpCreateDisplayEventConnection cc created =>
      let r := createDisplayEventConnection handle cc created s in
      (ResConnection (fst r), snd r)
  | OpGetEventThread =>
      let r := getEventThread handle s in (ResThread (fst r), snd r)
  | OpGetEventConnection =>
      let r := getEventConnection handle s in (ResConnection (fst r), snd r)
  | OpOnHotplugReceived d c =>
      (ResVoid, snd (onHotplugReceived handle d c s))
  | OpOnScreenAcquired => (ResVoid, snd (onScreenAcquired handle s))
  | OpOnScreenReleased => (ResVoid, snd (onScreenReleased handle s))
  | OpOnConfigChanged d c => (ResVoid, snd (onConfigChanged handle d c s))
  | OpDump result written =>
      let r := dump handle result written s in (ResDump (fst r), snd r)
  | OpSetPhaseOffset p => (ResVoid, snd (setPhaseOffset handle p s))
  end.

Inductive VsyncOp :=
| OpEnableHardwareVsync
| OpDisableHardwareVsync (makeUnavailable : bool)
| OpResyncToHardwareVsync (makeAvailable : bool) (period : nsecs_t)
| OpResync (now currentPeriod : nsecs_t)
| OpAddResyncSample (timestamp : nsecs_t) (needs flushed : bool)
| OpAddPresentFence (fenceTime : N) (needs : bool).

Definition runVsyncOp (s : t) (op : VsyncOp) : t :=
  match op with
  | OpEnableHardwareVsync => enableHardwareVsync s
  | OpDisableHardwareVsync mu => disableHardwareVsync mu s
  | OpResyncToHardwareVsync ma p => resyncToHardwareVsync ma p s
  | OpResync now p => resync now p s
  | OpAddResyncSample ts needs flushed => snd (addResyncSample ts needs flushed s)
  | OpAddPresentFence f needs => addPresentFence f needs s
  end.

Definition runVsyncOps (ops : list VsyncOp) (s : t) : t :=
  fold_left runVsyncOp ops s.

(** The invocations of [resyncToHardwareVsync] recorded in a log, with
    their arguments, oldest first. *)
Definition resyncRequests (l : list Call) : list (bool * nsecs_t) :=
  flat_map (fun c => match c with
                     | Enter_resyncToHardwareVsync m p => [(m, p)]
                     | _ => []
                     end) l.

(** *** Kernel idle timer and content updates *)

(** [kernelIdleTimerCallback(state)]: [current] and [period] are the type
    and the [vsyncPeriod] that [getCurrentRefreshRate()] returns. *)
Definition kernelIdleTimerCallback (state : TimerState)
    (current : RefreshRateType) (period : nsecs_t) (s : t) : t :=
  if TimerState_eqb state Reset && RefreshRateType_eqb current PERFORMANCE then
    (* If we're not in performance mode then the kernel timer shouldn't do
       anything, as the refresh rate during DPU power collapse will be the
       same. *)
    resyncToHardwareVsync true period s
  else if TimerState_eqb state Expired &&
          negb (RefreshRateType_eqb current PERFORMANCE) then
    (* Disable HW VSYNC if the timer expired, as we don't need it enabled if
       we're not pushing frames *)
    disableHardwareVsync false s
  else s.

Definition set_content (rate : N) (hdr : bool) (detection : ContentDetectionState)
    (f : Features) : Features :=
  {| contentDetection := detection; idleTimer := idleTimer f;
     touch := touch f; displayPowerTimer := displayPowerTimer f;
     refreshRateType := refreshRateType f;
     contentRefreshRate := rate;
     isHDRContent := hdr;
     isDisplayPowerStateNormal := isDisplayPowerStateNormal f |}.

(** [updateFpsBasedOnContent()]: [(refreshRate, isHDR)] is what the layer
    history's [getDesiredRefreshRateAndHDR()] returns. *)
Definition updateFpsBasedOnContent (refreshRate : Float32.float) (isHDR : bool)
    (s : t) : option t :=
  match Float32.to_uint32 (Float32.round refreshRate) with
  | None => None
  | Some refreshRateRound =>
      let f := mFeatures s in
      if (contentRefreshRate f =? refreshRateRound)%N &&
         Bool.eqb (isHDRContent f) isHDR
      then Some s
      else
        let s1 := editFeatures
                    (set_content refreshRateRound isHDR
                       (if (0 <? refreshRateRound)%N then On else Off)) s in
        match calculateRefreshRateType s1 with
        | None => None
        | Some newRefreshRateType =>
            if RefreshRateType_eqb (refreshRateType (mFeatures s1)) newRefreshRateType
            then Some s1
            else
              Some (changeRefreshRate newRefreshRateType ConfigEvent.Changed
                      (editFeatures (set_refreshRateType newRefreshRateType) s1))
        end
  end.

(** The events that reach the feature state: a timer firing, or a new
    content estimate. *)
Inductive FeatureEvent :=
| EvTimer (k : Timer) (state : TimerState)
| EvContent (refreshRate : Float32.float) (isHDR : bool).

Definition runFeatureEvent (s : t) (e : FeatureEvent) : option t :=
  match e with
  | EvTimer k state => timerCallback k state s
  | EvContent refreshRate isHDR => updateFpsBasedOnContent refreshRate isHDR s
  end.

Fixpoint runFeatureEvents (es : list FeatureEvent) (s : t) : option t :=
  match es with
  | [] => Some s
  | e :: es' =>
      match runFeatureEvent s e with
      | None => None
      | Some s' => runFeatureEvents es' s'
      end
  end.

(** *** Reading the log *)

(** The values passed to [EventControlThread::setVsyncEnabled], oldest
    first. *)
Definition vsyncRequests (l : list Call) : list bool :=
  flat_map (fun c => match c with
                     | EventControlThread_setVsyncEnabled b => [b]
                     | _ => []
                     end) l.

(** DispSync's [beginResync] ([true]) and [endResync] ([false]) calls,
    oldest first. *)
Definition resyncBrackets (l : list Call) : list bool :=
  flat_map (fun c => match c with
                     | DispSync_beginResync => [true]
                     | DispSync_endResync => [false]
                     | _ => []
                     end) l.

(** The refresh-rate types handed to the change callback, oldest first. *)
Definition callbackTypes (l : list Call) : list RefreshRateType :=
  flat_map (fun c => match c with
                     | Callback_changeRefreshRate ty _ => [ty]
                     | _ => []
                     end) l.

(** The events handed to the change callback, oldest first. *)
Definition callbackEvents (l : list Call) : list ConfigEvent.t :=
  flat_map (fun c => match c with
                     | Callback_changeRefreshRate _ ev => [ev]
                     | _ => []
                     end) l.

(** The calls made on event threads, oldest first. *)
Definition eventThreadCalls (l : list Call) : list (EventThreadPtr * EventThreadCall) :=
  flat_map (fun c => match c with
                     | EventThread_call th c' => [(th, c')]
                     | _ => []
                     end) l.

End Scheduler.

(** No two neighbours of a list are equal. *)
Fixpoint adjacentDistinct {A : Type} (l : list A) : Prop :=
  match l with
  | a :: (b :: _) as rest => a <> b /\ adjacentDistinct rest
  | _ => True
  end.

(** ** [impl::Output]: the per-frame phases

    The phases below read the region library, the layers' front-end state
    and the render engine, none of which is part of the sources. Regions
    are an abstract type with the operations used; what a phase reads from
    a layer is an interface; values computed by collaborators are
    arguments. *)

Module ui.
(** The values of [ui::Dataspace] that [getBestDataspace] tells apart;
    [Other] is any other value. *)
Inductive Dataspace :=
| UNKNOWN | V0_SRGB | V0_SCRGB | V0_SCRGB_LINEAR
| BT2020 | BT2020_ITU | BT2020_LINEAR | DISPLAY_BT2020 | DISPLAY_P3
| BT2020_PQ | BT2020_ITU_PQ | BT2020_HLG | BT2020_ITU_HLG
| Other (raw : Z).
End ui.

(** The operations of [Region] the phases use. *)
Class RegionOps (R : Type) := {
  region_intersect : R -> R -> R;
  region_isEmpty : R -> bool
}.

(** What the phases read from an output-layer, from its state and from the
    front-end state of its layer. *)
Class OutputLayerView (L R : Type) := {
  (** [getLayer().getFEState().dataspace] *)
  layerDataspace : L -> ui.Dataspace;
  (** [getLayer().getFEState().forceClientComposition] *)
  layerForceClientComposition : L -> bool;
  (** [getLayer().getFEState().isOpaque] *)
  layerIsOpaque : L -> bool;
  (** [getState().visibleRegion] *)
  layerVisibleRegion : L -> R;
  (** [getState().clearClientTarget] *)
  layerClearClientTarget : L -> bool;
  (** [needsFiltering()] *)
  layerNeedsFiltering : L -> bool;
  (** [getLayerFE()], by identity *)
  layerFrontEnd : L -> positive
}.

Module Frame.

Section Phases.
Context {L R LS : Type} `{OutputLayerOps L} `{RegionOps R} `{OutputLayerView L R}.

(** [Output::setCompositionEnabled] *)
Definition setCompositionEnabled (enabled : bool) (o : Output.t L) : Output.t L :=
  if Bool.eqb (Output.isEnabled (Output.mState o)) enabled then o
  else
    Output.dirtyEntireOutput
      (Output.editState (fun s =>
         {| Output.isEnabled := enabled;
            Output.isSecure := Output.isSecure s;
            Output.bounds := Output.bounds s;
            Output.colorMode := Output.colorMode s;
            Output.dataspace := Output.dataspace s;
            Output.renderIntent := Output.renderIntent s;
            Output.targetDataspace := Output.targetDataspace s;
            Output.colorTransformMatrix := Output.colorTransformMatrix s;
            Output.dirtyRegion := Output.dirtyRegion s;
            Output.usesClientComposition := Output.usesClientComposition s;
            Output.usesDeviceComposition := Output.usesDeviceComposition s;
            Output.flipClientTarget := Output.flipClientTarget s |}) o).

(** [Output::beginFrame]. [dirtyRegionEmpty] is
    [getDirtyRegion(false).isEmpty()] and [last] the stored
    [lastCompositionHadVisibleLayers]. The result is the [mustRecompose]
    handed to the render surface's [beginFrame], and
    [lastCompositionHadVisibleLayers] afterwards. *)
Definition beginFrame (dirtyRegionEmpty : bool) (layers : list L) (last : bool)
    : bool * bool :=
  let dirty := negb dirtyRegionEmpty in
  let empty := match layers with [] => true | _ => false end in
  let wasEmpty := negb last in
  (* If nothing has changed (!dirty), don't recompose.
     If something changed, but we don't currently have any visible layers,
     and didn't when we last did a composition, then skip it this time. *)
  let mustRecompose := dirty && negb (empty && wasEmpty) in
  (mustRecompose, if mustRecompose then negb empty else last).

(** [beginFrame] over successive frames, each given by the emptiness of
    its dirty region and its output-layers: the [mustRecompose] of every
    frame, and [lastCompositionHadVisibleLayers] at the end. *)
Fixpoint beginFrames (frames : list (bool * list L)) (last : bool)
    : list bool * bool :=
  match frames with
  | [] => ([], last)
  | (dirtyRegionEmpty, layers) :: frames' =>
      let r := beginFrame dirtyRegionEmpty layers last in
      let rs := beginFrames frames' (snd r) in
      (fst r :: fst rs, snd rs)
  end.

(** One iteration of the loop of [Output::getBestDataspace] on
    [(bestDataSpace, *outHdrDataSpace, *outIsHdrClientComposition)]. *)
Definition bestDataspaceStep (acc : ui.Dataspace * ui.Dataspace * bool) (layer : L)
    : ui.Dataspace * ui.Dataspace * bool :=
  let '(best, hdr, isHdrClient) := acc in
  match layerDataspace layer with
  | ui.V0_SCRGB | ui.V0_SCRGB_LINEAR | ui.BT2020 | ui.BT2020_ITU
  | ui.BT2020_LINEAR | ui.DISPLAY_BT2020 =>
      (ui.DISPLAY_BT2020, hdr, isHdrClient)
  | ui.DISPLAY_P3 => (ui.DISPLAY_P3, hdr, isHdrClient)
  | ui.BT2020_PQ | ui.BT2020_ITU_PQ =>
      (ui.DISPLAY_P3, ui.BT2020_PQ, layerForceClientComposition layer)
  | ui.BT2020_HLG | ui.BT2020_ITU_HLG =>
      (* When there's mixed PQ content and HLG content, we set the HDR
         data space to be BT2020_PQ and convert HLG to PQ. *)
      (ui.DISPLAY_P3,
       match hdr with ui.UNKNOWN => ui.BT2020_HLG | _ => hdr end,
       isHdrClient)
  | _ => acc
  end.

(** [Output::getBestDataspace]: the returned data space, [*outHdrDataSpace]
    and [*outIsHdrClientComposition] afterwards; [isHdrClient0] is what the
    caller left in [*outIsHdrClientComposition]. *)
Definition getBestDataspace (layers : list L) (isHdrClient0 : bool)
    : ui.Dataspace * ui.Dataspace * bool :=
  fold_left bestDataspaceStep layers (ui.V0_SRGB, ui.UNKNOWN, isHdrClient0).

(** [LayerFE::ClientCompositionTargetSettings]; [clearRegion] is the region
    the front end may add to, passed by reference. *)
Record ClientCompositionTargetSettings := {
  clip : R;
  useIdentityTransform : bool;
  needsFiltering : bool;
  targetIsSecure : bool;
  supportsProtectedContent : bool;
  clearRegion : R
}.

(** What the front end and the render engine's settings type provide:
    [prepareClientComposition] returns the optional layer settings and the
    clear region as the front end leaves it; [asClear] is the effect of
    the four assignments that turn settings into a clear request (no
    buffer, black, alpha 0, blending disabled). *)
Record FrontEnd := {
  prepareClientComposition : L -> ClientCompositionTargetSettings -> option LS * R;
  asClear : LS -> LS
}.

(** The state of the loop of [generateClientCompositionRequests]. *)
Record RequestLoop := {
  clientCompositionLayers : list LS;
  firstLayer : bool;
  outClearRegion : R;
  dummyRegion : R
}.

Definition requestStep (fe : FrontEnd) (viewportRegion : R)
    (outputNeedsFiltering outputIsSecure supportsProtected : bool)
    (st : RequestLoop) (layer : L) : RequestLoop :=
  let clip := region_intersect viewportRegion (layerVisibleRegion layer) in
  if region_isEmpty clip then
    {| clientCompositionLayers := clientCompositionLayers st;
       firstLayer := false;
       outClearRegion := outClearRegion st;
       dummyRegion := dummyRegion st |}
  else
    let clientComposition := requiresClientComposition layer in
    (* We clear the client target for non-client composed layers if
       requested by the HWC. We skip this if the layer is not an opaque
       rectangle. We also skip the first layer as the buffer target is
       guaranteed to start out cleared. *)
    let clearClientComposition :=
      layerClearClientTarget layer && layerIsOpaque layer && negb (firstLayer st) in
    if clientComposition || clearClientComposition then
      let targetSettings :=
        {| clip := clip;
           useIdentityTransform := false;
           needsFiltering := layerNeedsFiltering layer || outputNeedsFiltering;
           targetIsSecure := outputIsSecure;
           supportsProtectedContent := supportsProtected;
           clearRegion := if clientComposition then outClearRegion st
                          else dummyRegion st |} in
      let '(result, region) := prepareClientComposition fe layer targetSettings in
      {| clientCompositionLayers :=
           match result with
           | Some settings =>
               clientCompositionLayers st ++
               [if clientComposition then settings else asClear fe settings]
           | None => clientCompositionLayers st
           end;
         firstLayer := false;
         outClearRegion := if clientComposition then region else outClearRegion st;
         dummyRegion := if clientComposition then dummyRegion st else region |}
    else
      {| clientCompositionLayers := clientCompositionLayers st;
         firstLayer := false;
         outClearRegion := outClearRegion st;
         dummyRegion := dummyRegion st |}.

(** [Output::generateClientCompositionRequests]: the requests and the
    clear region afterwards. [emptyRegion] is a default-constructed
    [Region]. *)
Definition generateClientCompositionRequests (fe : FrontEnd) (viewportRegion : R)
    (outputNeedsFiltering outputIsSecure supportsProtected : bool)
    (emptyRegion : R) (layers : list L) (clearRegion0 : R) : list LS * R :=
  let st := fold_left
              (requestStep fe viewportRegion outputNeedsFiltering outputIsSecure
                 supportsProtected)
              layers
              {| clientCompositionLayers := [];
                 firstLayer := true;
                 outClearRegion := clearRegion0;
                 dummyRegion := emptyRegion |} in
  (clientCompositionLayers st, outClearRegion st).

(** Calls made on the render surface and on layer front ends. *)
Inductive FrameEvent :=
| RenderSurface_flip
| RenderSurface_onPresentDisplayCompleted
| LayerFE_onLayerDisplayed (fe : positive) (fence : Fence).

(** [Output::postFramebuffer] on a display, whose
    [presentAndGetFrameFences] is the display's. [mergeFence] is
    [Fence::merge]; [releasedLayers] is [mReleasedLayers], each weak
    reference given by what [promote()] returns. The calls on the
    hardware composer go to the display's log; the result holds the calls
    on the render surface and the front ends in order, [mReleasedLayers]
    afterwards, and the display. *)
Definition postFramebuffer (hwc : HWComposer) (env : Collaborators)
    (mergeFence : Fence -> Fence -> Fence)
    (releasedLayers : list (option positive)) (d : Display.t L)
    : list FrameEvent * list (option positive) * Display.t L :=
  if negb (Output.isEnabled (Display.getState d)) then ([], releasedLayers, d)
  else
    let d1 := Display.onBase (Output.editState (Output.set_dirtyRegion [])) d in
    let frame := fst (Display.presentAndGetFrameFences hwc env d1) in
    let d2 := snd (Display.presentAndGetFrameFences hwc env d1) in
    let displayed (layer : L) :=
      (* The layer buffer from the previous frame (if any) is released
         by HWC only when the release fence from this frame (if any) is
         signaled.  Always get the release fence from HWC first. *)
      let releaseFence :=
        match getHwcLayer layer with
        | Some hwcLayer =>
            match Output.layerFences frame !! hwcLayer with
            | Some f => f
            | None => NO_FENCE
            end
        | None => NO_FENCE
        end in
      (* always merge with the current client target acquire fence when it
         is available *)
      let releaseFence :=
        if Output.usesClientComposition (Display.getState d2)
        then mergeFence releaseFence (Output.clientTargetAcquireFence frame)
        else releaseFence in
      LayerFE_onLayerDisplayed (layerFrontEnd layer) releaseFence in
    let released (weakLayer : option positive) :=
      match weakLayer with
      | Some layer => [LayerFE_onLayerDisplayed layer (Output.presentFence frame)]
      | None => []
      end in
    ([RenderSurface_flip; RenderSurface_onPresentDisplayCompleted] ++
     map displayed (Display.getOutputLayersOrderedByZ d2) ++
     flat_map released releasedLayers,
     [],
     d2).

End Phases.

End Frame.

(** ** [impl::Output]: the visibility pass

    [rebuildLayerStacks], [collectVisibleLayers] and
    [getOutputLayerIfVisible], over an abstract region algebra and abstract
    transforms. Layers are shared objects: the pass works on a store of
    layer objects addressed by pointer, and latching a layer's state
    updates the store. *)

(** The operations of [Region] the pass uses beyond [RegionOps]. *)
Class RegionAlgebra (R : Type) := {
  region_base :: RegionOps R;
  (** a default-constructed or cleared region *)
  region_empty : R;
  (** [Region(Rect)], [set(Rect)] *)
  region_ofRect : Rect -> R;
  (** [orSelf], [operator|] *)
  region_union : R -> R -> R;
  (** [subtractSelf], [subtract], [operator-] *)
  region_subtract : R -> R -> R
}.

(** The operations of [ui::Transform] the pass uses; [FR] is [FloatRect]. *)
Class TransformOps (T FR R : Type) := {
  (** [Rect(tr.transform(floatRect))] *)
  transformBounds : T -> FR -> Rect;
  (** [tr.transform(region)] *)
  transformRegion : T -> R -> R;
  preserveRects : T -> bool;
  (** [(tr.getOrientation() & ui::Transform::ROT_INVALID) == 0] *)
  orientationValid : T -> bool
}.

Module Visibility.

Section Pass.
Context {T FR R X : Type} `{RegionAlgebra R} `{TransformOps T FR R}.

(** [LayerFECompositionState], the fields the pass reads. *)
Record LayerFEState := {
  isVisible : bool;
  isOpaque : bool;
  layerStackId : option N;          (* std::optional<uint32_t> *)
  internalOnly : bool;
  geomLayerTransform : T;
  geomLayerBounds : FR;
  transparentRegionHint : R;
  contentDirty : bool
}.

(** A [compositionengine::Layer]: what [getLayerFE()] returns (the weak
    reference may fail to promote) and its front-end state. *)
Record LayerObj := {
  getLayerFE : option positive;
  getFEState : LayerFEState
}.

(** [OutputLayerCompositionState], the fields the pass writes. *)
Record OutputLayerState := {
  z : N;                            (* uint32_t *)
  visibleRegion : R;
  visibleNonTransparentRegion : R;
  coveredRegion : R;
  outputSpaceVisibleRegion : R
}.

(** An [impl::OutputLayer]: its layer and front end by pointer, the state
    above, and the rest of it, which the pass leaves alone. *)
Record OutputLayer := {
  getLayer : positive;
  getLayerFrontEnd : positive;
  getState : OutputLayerState;
  rest : X
}.

(** The fields of [OutputCompositionState] the pass uses, with
    [mOutputLayersOrderedByZ]; an entry of the vector is null once its
    output-layer has been taken. *)
Record OutputView := {
  isEnabled : bool;
  outLayerStackId : N;
  layerStackInternal : bool;
  transform : T;
  bounds : Rect;
  viewport : Rect;
  dirtyRegion : R;
  undefinedRegion : R;
  mOutputLayersOrderedByZ : list (option OutputLayer)
}.

(** [Output::CoverageState] *)
Record CoverageState := {
  aboveCoveredLayers : R;
  aboveOpaqueLayers : R;
  coverageDirtyRegion : R;
  latchedLayers : gset positive
}.

(** What the pass works on: the layer objects, the coverage and the
    output's vector of output-layers. *)
Record World := {
  layerStore : positive -> LayerObj;
  coverage : CoverageState;
  outputLayers : list (option OutputLayer)
}.

(** What the front ends and the output-layer factory provide:
    [latchBasicGeometry fe state] is the state after
    [latchCompositionState(state, BasicGeometry)] on front end [fe];
    [newRest] is the part of a new output-layer the pass does not set. *)
Record PassEnv := {
  latchBasicGeometry : positive -> LayerFEState -> LayerFEState;
  newRest : positive -> positive -> X
}.

Definition belongsInOutput (out : OutputView) (stack : option N)
    (internal : bool) : bool :=
  (* The layerStackId's must match, and also the layer must not be internal
     only when not on an internal output. *)
  match stack with
  | Some id => (id =? outLayerStackId out)%N && (negb internal || layerStackInternal out)
  | None => false
  end.

(** [Output::getOutputLayerForLayer] *)
Fixpoint getOutputLayerForLayer (layer : positive)
    (layers : list (option OutputLayer)) : option OutputLayer :=
  match layers with
  | [] => None
  | Some ol :: layers' =>
      if Pos.eqb (getLayer ol) layer then Some ol
      else getOutputLayerForLayer layer layers'
  | None :: layers' => getOutputLayerForLayer layer layers'
  end.

(** [Output::takeOutputLayerForLayer]: the output-layer found, and the
    vector with its entry moved from. *)
Fixpoint takeOutputLayerForLayer (layer : positive)
    (layers : list (option OutputLayer))
    : option OutputLayer * list (option OutputLayer) :=
  match layers with
  | [] => (None, [])
  | Some ol :: layers' =>
      if Pos.eqb (getLayer ol) layer then (Some ol, None :: layers')
      else let r := takeOutputLayerForLayer layer layers' in
           (fst r, Some ol :: snd r)
  | None :: layers' =>
      let r := takeOutputLayerForLayer layer layers' in
      (fst r, None :: snd r)
  end.

(** Modelled from the spec: [impl::createOutputLayer] is not among the
    sources. The spec's data model says an output-layer holds a
    back-reference to its input layer and a handle to its front end; the
    regions and [z] of the new output-layer are set by the pass right
    after. *)
Definition createOutputLayer (env : PassEnv) (layer layerFE : positive)
    : OutputLayer :=
  {| getLayer := layer;
     getLayerFrontEnd := layerFE;
     getState := {| z := 0; visibleRegion := region_empty;
                    visibleNonTransparentRegion := region_empty;
                    coveredRegion := region_empty;
                    outputSpaceVisibleRegion := region_empty |};
     rest := newRest env layer layerFE |}.

Definition setLayerFEState (layer : positive) (st : LayerFEState)
    (store : positive -> LayerObj) : positive -> LayerObj :=
  fun p => if Pos.eqb p layer
           then {| getLayerFE := getLayerFE (store p); getFEState := st |}
           else store p.

Definition getOutputLayerIfVisible (env : PassEnv) (out : OutputView)
    (layer : positive) (w : World) : option OutputLayer * World :=
  match getLayerFE (layerStore w layer) with
  | None => (None, w)
  | Some layerFE =>
      (* Ensure we have a snapshot of the basic geometry layer state. Limit
         the snapshots to once per frame for each candidate layer. *)
      let w1 :=
        if bool_decide (layerFE ∈ latchedLayers (coverage w)) then w
        else
          {| layerStore :=
               setLayerFEState layer
                 (latchBasicGeometry env layerFE (getFEState (layerStore w layer)))
                 (layerStore w);
             coverage :=
               {| aboveCoveredLayers := aboveCoveredLayers (coverage w);
                  aboveOpaqueLayers := aboveOpaqueLayers (coverage w);
                  coverageDirtyRegion := coverageDirtyRegion (coverage w);
                  latchedLayers := {[layerFE]} ∪ latchedLayers (coverage w) |};
             outputLayers := outputLayers w |} in
      let layerFEState := getFEState (layerStore w1 layer) in
      (* Only consider the layers on the given layer stack *)
      if negb (belongsInOutput out (layerStackId layerFEState)
                 (internalOnly layerFEState)) then (None, w1)
      (* handle hidden surfaces by setting the visible region to empty *)
      else if negb (isVisible layerFEState) then (None, w1)
      else
        let tr := geomLayerTransform layerFEState in
        let visible0 :=
          region_ofRect (transformBounds tr (geomLayerBounds layerFEState)) in
        if region_isEmpty visible0 then (None, w1)
        else
          (* Remove the transparent area from the visible region *)
          let transparentRegion :=
            if negb (isOpaque layerFEState) then
              if preserveRects tr
              then transformRegion tr (transparentRegionHint layerFEState)
              else region_empty
            else region_empty in
          (* compute the opaque region *)
          let opaqueRegion :=
            if isOpaque layerFEState && orientationValid tr then visible0
            else region_empty in
          let cov := coverage w1 in
          (* Clip the covered region to the visible region *)
          let covered := region_intersect (aboveCoveredLayers cov) visible0 in
          (* Update accumAboveCoveredLayers for next (lower) layer *)
          let aboveCovered' := region_union (aboveCoveredLayers cov) visible0 in
          (* subtract the opaque region covered by the layers above us *)
          let visible := region_subtract visible0 (aboveOpaqueLayers cov) in
          if region_isEmpty visible then
            (None,
             {| layerStore := layerStore w1;
                coverage :=
                  {| aboveCoveredLayers := aboveCovered';
                     aboveOpaqueLayers := aboveOpaqueLayers cov;
                     coverageDirtyRegion := coverageDirtyRegion cov;
                     latchedLayers := latchedLayers cov |};
                outputLayers := outputLayers w1 |})
          else
            (* Get coverage information for the layer as previously
               displayed, also taking over ownership *)
            let taken := takeOutputLayerForLayer layer (outputLayers w1) in
            let prevOutputLayer := fst taken in
            let oldVisible :=
              match prevOutputLayer with
              | Some prev => visibleRegion (getState prev)
              | None => region_empty
              end in
            let oldCovered :=
              match prevOutputLayer with
              | Some prev => coveredRegion (getState prev)
              | None => region_empty
              end in
            (* compute this layer's dirty region *)
            let dirty0 :=
              if contentDirty layerFEState then
                (* we need to invalidate the whole region, as well as the
                   old visible region *)
                region_union visible oldVisible
              else
                let newExposed := region_subtract visible covered in
                let oldExposed := region_subtract oldVisible oldCovered in
                region_union (region_intersect visible oldCovered)
                             (region_subtract newExposed oldExposed) in
            let dirty := region_subtract dirty0 (aboveOpaqueLayers cov) in
            let cov' :=
              {| aboveCoveredLayers := aboveCovered';
                 (* Update accumAboveOpaqueLayers for next (lower) layer *)
                 aboveOpaqueLayers := region_union (aboveOpaqueLayers cov) opaqueRegion;
                 (* accumulate to the screen dirty region *)
                 coverageDirtyRegion := region_union (coverageDirtyRegion cov) dirty;
                 latchedLayers := latchedLayers cov |} in
            let w3 := {| layerStore := layerStore w1;
                         coverage := cov';
                         outputLayers := snd taken |} in
            (* Compute the visible non-transparent region *)
            let visibleNonTransparent := region_subtract visible transparentRegion in
            (* Peform the final check to see if this layer is visible on
               this output *)
            let drawRegion :=
              region_intersect (transformRegion (transform out) visibleNonTransparent)
                               (region_ofRect (bounds out)) in
            if region_isEmpty drawRegion then (None, w3)
            else
              (* The layer is visible. Either reuse the existing outputLayer
                 if we have one, or create a new one if we do not. *)
              let result :=
                match prevOutputLayer with
                | Some prev => prev
                | None => createOutputLayer env layer layerFE
                end in
              (Some
                 {| getLayer := getLayer result;
                    getLayerFrontEnd := getLayerFrontEnd result;
                    getState :=
                      {| z := z (getState result);
                         visibleRegion := visible;
                         visibleNonTransparentRegion := visibleNonTransparent;
                         coveredRegion := covered;
                         outputSpaceVisibleRegion :=
                           transformRegion (transform out)
                             (region_intersect visible
                                (region_ofRect (viewport out))) |};
                    rest := rest result |},
               w3)
  end.

Definition setZ (zOrder : N) (ol : OutputLayer) : OutputLayer :=
  {| getLayer := getLayer ol;
     getLayerFrontEnd := getLayerFrontEnd ol;
     getState :=
       {| z := zOrder;
          visibleRegion := visibleRegion (getState ol);
          visibleNonTransparentRegion := visibleNonTransparentRegion (getState ol);
          coveredRegion := coveredRegion (getState ol);
          outputSpaceVisibleRegion := outputSpaceVisibleRegion (getState ol) |};
     rest := rest ol |}.

(** The assignment [outputLayer->editState().z = zOrder++] down a list,
    [zOrder] being a [uint32_t]. *)
Fixpoint assignZ (zOrder : N) (layers : list OutputLayer) : list OutputLayer :=
  match layers with
  | [] => []
  | ol :: layers' => setZ zOrder ol :: assignZ ((zOrder + 1) mod 2 ^ 32)%N layers'
  end.

(** The first loop of [collectVisibleLayers]: front to back over
    [layersFrontToBack], collecting the visible output-layers. *)
Definition visitStep (env : PassEnv) (out : OutputView)
    (acc : list OutputLayer * World) (layer : positive)
    : list OutputLayer * World :=
  let r := getOutputLayerIfVisible env out layer (snd acc) in
  (match fst r with
   | Some outputLayer => fst acc ++ [outputLayer]
   | None => fst acc
   end,
   snd r).

(** [Output::collectVisibleLayers]; [layers] is [refreshArgs.layers], back
    to front. *)
Definition collectVisibleLayers (env : PassEnv) (out : OutputView)
    (layers : list positive) (w : World) : World :=
  let visited := fold_left (visitStep env out) (rev layers) ([], w) in
  (* Since we walked the layers in reverse order, we need to reverse
     newLayersSortedByZ to get the back-to-front ordered list of layers. *)
  let newLayersSortedByZ := rev (fst visited) in
  {| layerStore := layerStore (snd visited);
     coverage := coverage (snd visited);
     outputLayers := map Some (assignZ 0 newLayersSortedByZ) |}.

(** [Output::rebuildLayerStacks]: the output, the layer objects and the
    set of latched front ends afterwards. [layerFESet] is the set shared
    by all outputs of the frame. *)
Definition rebuildLayerStacks (env : PassEnv)
    (updatingOutputGeometryThisFrame : bool) (layers : list positive)
    (out : OutputView) (store : positive -> LayerObj) (layerFESet : gset positive)
    : OutputView * (positive -> LayerObj) * gset positive :=
  (* Do nothing if this output is not enabled or there is no need to
     perform this update *)
  if negb (isEnabled out) || negb updatingOutputGeometryThisFrame
  then (out, store, layerFESet)
  else
    let w := collectVisibleLayers env out layers
               {| layerStore := store;
                  coverage := {| aboveCoveredLayers := region_empty;
                                 aboveOpaqueLayers := region_empty;
                                 coverageDirtyRegion := region_empty;
                                 latchedLayers := layerFESet |};
                  outputLayers := mOutputLayersOrderedByZ out |} in
    ({| isEnabled := isEnabled out;
        outLayerStackId := outLayerStackId out;
        layerStackInternal := layerStackInternal out;
        transform := transform out;
        bounds := bounds out;
        viewport := viewport out;
        dirtyRegion := region_union (dirtyRegion out)
                         (coverageDirtyRegion (coverage w));
        undefinedRegion :=
          region_subtract (region_ofRect (bounds out))
            (transformRegion (transform out) (aboveOpaqueLayers (coverage w)));
        mOutputLayersOrderedByZ := outputLayers w |},
     layerStore w,
     latchedLayers (coverage w)).

End Pass.

End Visibility.

(** The meaning of a region as a set of points, and the laws of the
    region operations with respect to it. *)
Class RegionLaws (R : Type) `{RegionAlgebra R} := {
  region_in : Z * Z -> R -> Prop;
  region_in_empty : forall p, ~ region_in p region_empty;
  region_in_union : forall p a b,
    region_in p (region_union a b) <-> region_in p a \/ region_in p b;
  region_in_intersect : forall p a b,
    region_in p (region_intersect a b) <-> region_in p a /\ region_in p b;
  region_in_subtract : forall p a b,
    region_in p (region_subtract a b) <-> region_in p a /\ ~ region_in p b;
  region_isEmpty_spec : forall a,
    region_isEmpty a = true <-> forall p, ~ region_in p a
}.

(** ** Sample data

    Concrete collaborators, layers, displays and schedulers on which the
    operations are run. *)

Module Samples.

(** The composer turns layer 1 into a CLIENT layer, asks to flip the client
    target and to clear the client target under layer 2. *)
Definition hwcOk : HWComposer := {|
  getDeviceCompositionChanges _ _ :=
    (NO_ERROR,
     Some {| changedTypes := {[ 1%positive := Composition_CLIENT ]};
             displayRequests := 1;
             layerRequests := {[ 2%positive := LayerRequest_CLEAR_CLIENT_TARGET ]} |});
  hwcSetColorTransform _ _ := NO_ERROR;
  getPresentFence _ := Some 1%N;
  getLayerReleaseFence _ _ := NO_FENCE;
  hasDisplayCapability_SkipClientColorTransform _ := false
|}.

(** The composer fails the query with BAD_VALUE (-22). *)
Definition hwcFailing : HWComposer := {|
  getDeviceCompositionChanges _ _ := (-22, None);
  hwcSetColorTransform _ _ := -22;
  getPresentFence _ := NO_FENCE;
  getLayerReleaseFence _ _ := NO_FENCE;
  hasDisplayCapability_SkipClientColorTransform _ := false
|}.

Definition env0 : Collaborators := {|
  getTargetDataspace _ ds _ := ds;
  getClientTargetAcquireFence := NO_FENCE
|}.

Definition state0 : Output.OutputCompositionState := {|
  Output.isEnabled := true;
  Output.isSecure := false;
  Output.bounds := {| left := 0; top := 0; right := 100; bottom := 100 |};
  Output.colorMode := 0;
  Output.dataspace := 0;
  Output.renderIntent := 0;
  Output.targetDataspace := 0;
  Output.colorTransformMatrix := [];
  Output.dirtyRegion := [];
  Output.usesClientComposition := false;
  Output.usesDeviceComposition := true;
  Output.flipClientTarget := false
|}.

Definition layerA : SimpleLayer :=
  {| sl_hwcLayer := Some 1%positive; sl_compositionType := Composition_DEVICE;
     sl_clearClientTarget := false |}.
Definition layerB : SimpleLayer :=
  {| sl_hwcLayer := Some 2%positive; sl_compositionType := Composition_DEVICE;
     sl_clearClientTarget := false |}.

(** A physical display bound to hardware-composer id 7, with two device
    layers. *)
Definition display0 : Display.t SimpleLayer := {|
  Display.base := {| Output.mState := state0;
                     Output.mOutputLayersOrderedByZ := [layerA; layerB];
                     Output.calls := [] |};
  Display.mIsVirtual := false;
  Display.mId := Some 7%N
|}.

(** The same display without a hardware-composer id. *)
Definition displayNoId : Display.t SimpleLayer := {|
  Display.base := Display.base display0;
  Display.mIsVirtual := false;
  Display.mId := None
|}.

Definition identity4 : mat4 :=
  let o := S754_finite false 8388608 (-23) in
  let z := S754_zero false in
  [o; z; z; z;  z; o; z; z;  z; z; o; z;  z; z; z; o].

Definition rate (f : N) (period : nsecs_t) (id : Z) : RefreshRateConfigs.RefreshRate :=
  {| RefreshRateConfigs.configId := id;
     RefreshRateConfigs.name := EmptyString;
     RefreshRateConfigs.fps := f;
     RefreshRateConfigs.vsyncPeriod := period;
     RefreshRateConfigs.hwcId := Z.to_N id |}.

(** Switching between 60 fps (DEFAULT) and 90 fps (PERFORMANCE). *)
Definition configs6090 : RefreshRateConfigs.t := {|
  RefreshRateConfigs.mRefreshRateSwitchingSupported := true;
  RefreshRateConfigs.mRefreshRateMap :=
    {| RefreshRateConfigs.atDEFAULT := Some (rate 60 16666667 0);
       RefreshRateConfigs.atPERFORMANCE := Some (rate 90 11111111 1) |}
|}.

(** Content detected at 45 fps, nothing else asking for a rate. *)
Definition features45 : Scheduler.Features := {|
  Scheduler.contentDetection := Scheduler.On;
  Scheduler.idleTimer := Scheduler.Reset;
  Scheduler.touch := Scheduler.Inactive;
  Scheduler.displayPowerTimer := Scheduler.Expired;
  Scheduler.refreshRateType := RefreshRateConfigs.DEFAULT;
  Scheduler.contentRefreshRate := 45;
  Scheduler.isHDRContent := false;
  Scheduler.isDisplayPowerStateNormal := true
|}.

(** Touch active on HDR content. *)
Definition featuresTouchHDR : Scheduler.Features := {|
  Scheduler.contentDetection := Scheduler.On;
  Scheduler.idleTimer := Scheduler.Expired;
  Scheduler.touch := Scheduler.Active;
  Scheduler.displayPowerTimer := Scheduler.Reset;
  Scheduler.refreshRateType := RefreshRateConfigs.PERFORMANCE;
  Scheduler.contentRefreshRate := 60;
  Scheduler.isHDRContent := true;
  Scheduler.isDisplayPowerStateNormal := false
|}.

(** Touch active, idle timer expired, 60 fps content. *)
Definition featuresTouchIdle : Scheduler.Features := {|
  Scheduler.contentDetection := Scheduler.On;
  Scheduler.idleTimer := Scheduler.Expired;
  Scheduler.touch := Scheduler.Active;
  Scheduler.displayPowerTimer := Scheduler.Expired;
  Scheduler.refreshRateType := RefreshRateConfigs.PERFORMANCE;
  Scheduler.contentRefreshRate := 60;
  Scheduler.isHDRContent := false;
  Scheduler.isDisplayPowerStateNormal := true
|}.

Definition schedulerWith (force : bool) (f : Scheduler.Features) : Scheduler.t := {|
  Scheduler.mRefreshRateConfigs := configs6090;
  Scheduler.mForceHDRContentToDefaultRefreshRate := force;
  Scheduler.mFeatures := f;
  Scheduler.mChangeRefreshRateCallback := true;
  Scheduler.mPrimaryHWVsyncEnabled := false;
  Scheduler.mHWVsyncAvailable := false;
  Scheduler.mLastResyncTime := 0;
  Scheduler.mConnections := ∅;
  Scheduler.mNextConnectionHandleId := 0;
  Scheduler.calls := []
|}.

Definition scheduler0 : Scheduler.t := schedulerWith false features45.

(** [scheduler0] after one [createConnection]: handle 0 maps to thread 3
    and its connection 5. *)
Definition schedulerConnected : Scheduler.t :=
  snd (Scheduler.createConnection 3%positive 5%positive scheduler0).

(** A device without refresh-rate switching: one 60 fps configuration. *)
Definition configsFixed : RefreshRateConfigs.t := {|
  RefreshRateConfigs.mRefreshRateSwitchingSupported := false;
  RefreshRateConfigs.mRefreshRateMap :=
    {| RefreshRateConfigs.atDEFAULT := Some (rate 60 16666667 0);
       RefreshRateConfigs.atPERFORMANCE := None |}
|}.

Definition schedulerFixed : Scheduler.t := {|
  Scheduler.mRefreshRateConfigs := configsFixed;
  Scheduler.mForceHDRContentToDefaultRefreshRate := false;
  Scheduler.mFeatures := features45;
  Scheduler.mChangeRefreshRateCallback := true;
  Scheduler.mPrimaryHWVsyncEnabled := false;
  Scheduler.mHWVsyncAvailable := false;
  Scheduler.mLastResyncTime := 0;
  Scheduler.mConnections := ∅;
  Scheduler.mNextConnectionHandleId := 0;
  Scheduler.calls := []
|}.

(** A scheduler whose stored type is the one its features call for: touch
    is active and the stored type is PERFORMANCE. *)
Definition schedulerTouch : Scheduler.t := schedulerWith false featuresTouchIdle.

(** Timer and content events: the touch timer expires, content is
    estimated at 45 fps, the idle timer is reset, content is estimated at
    60 fps with HDR. *)
Definition events0 : list Scheduler.FeatureEvent :=
  [Scheduler.EvTimer Scheduler.TouchTimer Scheduler.Expired;
   Scheduler.EvContent (Float32.of_uint 45) false;
   Scheduler.EvTimer Scheduler.IdleTimer Scheduler.Reset;
   Scheduler.EvContent (Float32.of_uint 60) true].

(** Regions as lists of rectangles: the intersection is taken rectangle
    by rectangle, and a region is empty when all its rectangles are. *)
Definition rect_isEmpty (r : Rect) : bool :=
  (right r <=? left r) || (bottom r <=? top r).

Definition rect_intersect (a b : Rect) : Rect :=
  {| left := Z.max (left a) (left b); top := Z.max (top a) (top b);
     right := Z.min (right a) (right b); bottom := Z.min (bottom a) (bottom b) |}.

#[global] Instance Region_ops : RegionOps Region := {|
  region_intersect a b :=
    List.filter (fun r => negb (rect_isEmpty r))
      (flat_map (fun x => map (rect_intersect x) b) a);
  region_isEmpty a := forallb rect_isEmpty a
|}.

(** An output-layer with the state the frame phases read. *)
Record FrameLayer := {
  fl_layer : SimpleLayer;
  fl_dataspace : ui.Dataspace;
  fl_forceClientComposition : bool;
  fl_isOpaque : bool;
  fl_visibleRegion : Region;
  fl_needsFiltering : bool;
  fl_frontEnd : positive
}.

Definition onLayer (f : SimpleLayer -> SimpleLayer) (l : FrameLayer) : FrameLayer :=
  {| fl_layer := f (fl_layer l);
     fl_dataspace := fl_dataspace l;
     fl_forceClientComposition := fl_forceClientComposition l;
     fl_isOpaque := fl_isOpaque l;
     fl_visibleRegion := fl_visibleRegion l;
     fl_needsFiltering := fl_needsFiltering l;
     fl_frontEnd := fl_frontEnd l |}.

#[global] Instance FrameLayer_ops : OutputLayerOps FrameLayer := {|
  getHwcLayer l := getHwcLayer (fl_layer l);
  requiresClientComposition l := requiresClientComposition (fl_layer l);
  applyDeviceCompositionTypeChange c := onLayer (applyDeviceCompositionTypeChange c);
  prepareForDeviceLayerRequests := onLayer prepareForDeviceLayerRequests;
  applyDeviceLayerRequest r := onLayer (applyDeviceLayerRequest r)
|}.

#[global] Instance FrameLayer_view : OutputLayerView FrameLayer Region := {|
  layerDataspace := fl_dataspace;
  layerForceClientComposition := fl_forceClientComposition;
  layerIsOpaque := fl_isOpaque;
  layerVisibleRegion := fl_visibleRegion;
  layerClearClientTarget l := sl_clearClientTarget (fl_layer l);
  layerNeedsFiltering := fl_needsFiltering;
  layerFrontEnd := fl_frontEnd
|}.

Definition frameLayer (l : SimpleLayer) (ds : ui.Dataspace) (fe : positive)
    : FrameLayer :=
  {| fl_layer := l; fl_dataspace := ds; fl_forceClientComposition := false;
     fl_isOpaque := true;
     fl_visibleRegion := [{| left := 0; top := 0; right := 50; bottom := 50 |}];
     fl_needsFiltering := false; fl_frontEnd := fe |}.

(** A device layer with sRGB content, one with BT2020 content, one with
    HLG content, and a device layer the composer asked to clear the client
    target under. *)
Definition frameSrgb : FrameLayer := frameLayer layerA ui.V0_SRGB 11.
Definition frameBt2020 : FrameLayer := frameLayer layerB ui.BT2020 12.
Definition frameHlg : FrameLayer := frameLayer layerB ui.BT2020_HLG 13.
Definition frameClear : FrameLayer :=
  frameLayer {| sl_hwcLayer := Some 3%positive;
                sl_compositionType := Composition_DEVICE;
                sl_clearClientTarget := true |} ui.V0_SRGB 14.

(** A front end that answers every request with the layer's own front-end
    id as settings and leaves the clear region alone; a clear request is
    marked by id 1. *)
Definition frontEnd0 : @Frame.FrontEnd FrameLayer Region positive := {|
  Frame.prepareClientComposition l ts := (Some (fl_frontEnd l), Frame.clearRegion ts);
  Frame.asClear _ := 1%positive
|}.

(** [display0] with the layers of the frame phases, client composition in
    use. *)
Definition displayFrame : Display.t FrameLayer := {|
  Display.base :=
    {| Output.mState := Output.set_uses true true state0;
       Output.mOutputLayersOrderedByZ :=
         [frameSrgb; frameBt2020;
          frameLayer {| sl_hwcLayer := None;
                        sl_compositionType := Composition_CLIENT;
                        sl_clearClientTarget := false |} ui.V0_SRGB 15];
       Output.calls := [] |};
  Display.mIsVirtual := false;
  Display.mId := Some 7%N
|}.

(** A composer that hands out the layer's own handle as release fence. *)
Definition hwcFences : HWComposer := {|
  getDeviceCompositionChanges _ _ := (NO_ERROR, None);
  hwcSetColorTransform _ _ := NO_ERROR;
  getPresentFence _ := Some 1%N;
  getLayerReleaseFence _ l := Some (Npos l);
  hasDisplayCapability_SkipClientColorTransform _ := true
|}.

(** The render surface's client target has acquire fence 100. *)
Definition envFence : Collaborators := {|
  getTargetDataspace _ ds _ := ds;
  getClientTargetAcquireFence := Some 100%N
|}.

(** [Fence::merge] on fences by identity: the merged fence of two fences
    is named by the sum of their ids, a missing fence giving way to the
    other. *)
Definition mergeFence0 (a b : Fence) : Fence :=
  match a, b with
  | Some x, Some y => Some (x + y)%N
  | Some x, None => Some x
  | None, _ => b
  end.

(** [display0] without output-layers. *)
Definition displayEmpty : Display.t SimpleLayer := {|
  Display.base := {| Output.mState := state0;
                     Output.mOutputLayersOrderedByZ := [];
                     Output.calls := [] |};
  Display.mIsVirtual := false;
  Display.mId := Some 7%N
|}.

End Samples.

(** * Properties *)

(** ** Composition strategy of a display *)

Section DisplayFacts.
Context {L : Type} `{OutputLayerOps L}.
Variable hwc : HWComposer.
Variable env : Collaborators.

Lemma layers_onBase_editState f (d : Display.t L) :
  Display.getOutputLayersOrderedByZ (Display.onBase (Output.editState f) d)
  = Display.getOutputLayersOrderedByZ d.
Proof. reflexivity. Qed.

Lemma layers_onBase_call c (d : Display.t L) :
  Display.getOutputLayersOrderedByZ (Display.onBase (Output.call c) d)
  = Display.getOutputLayersOrderedByZ d.
Proof. reflexivity. Qed.

(** The layers a set of device-requested changes produces depend on the
    layers alone, not on the rest of the display. *)
Lemma applyChanges_layers changes (d1 d2 : Display.t L) :
  Display.getOutputLayersOrderedByZ d1 = Display.getOutputLayersOrderedByZ d2 ->
  Display.getOutputLayersOrderedByZ (Display.applyChanges changes d1)
  = Display.getOutputLayersOrderedByZ (Display.applyChanges changes d2).
Proof.
  intros Heq. destruct changes as [c|]; simpl; [|exact Heq].
  unfold Display.applyLayerRequestsToLayers, Display.applyDisplayRequests,
    Display.applyChangedTypesToLayers.
  unfold Display.getOutputLayersOrderedByZ, Output.getOutputLayersOrderedByZ in *.
  destruct (bool_decide (changedTypes c = ∅)); simpl; rewrite Heq; reflexivity.
Qed.

Lemma applyChanges_mId changes (d : Display.t L) :
  Display.mId (Display.applyChanges changes d) = Display.mId d.
Proof.
  destruct changes as [c|]; simpl; [|reflexivity].
  unfold Display.applyChangedTypesToLayers.
  destruct (bool_decide (changedTypes c = ∅)); reflexivity.
Qed.

Lemma any_spec (d : Display.t L) :
  Display.anyLayersRequireClientComposition d = true <->
  exists l, In l (Display.getOutputLayersOrderedByZ d) /\
            requiresClientComposition l = true.
Proof. unfold Display.anyLayersRequireClientComposition. apply existsb_exists. Qed.

Lemma all_spec (d : Display.t L) :
  Display.allLayersRequireClientComposition d = true <->
  forall l, In l (Display.getOutputLayersOrderedByZ d) ->
            requiresClientComposition l = true.
Proof. unfold Display.allLayersRequireClientComposition. apply forallb_forall. Qed.

(** What [chooseCompositionStrategy] computes once the query has succeeded. *)
Lemma chooseCompositionStrategy_success (d : Display.t L) id changes :
  Display.mId d = Some id ->
  getDeviceCompositionChanges hwc id (Display.anyLayersRequireClientComposition d)
    = (NO_ERROR, changes) ->
  let d2 := Display.applyChanges changes
              (Display.onBase
                 (Output.call (Hwc_getDeviceCompositionChanges id
                    (Display.anyLayersRequireClientComposition d)))
                 (Display.onBase Output.chooseCompositionStrategy d)) in
  Display.chooseCompositionStrategy hwc d =
  Display.onBase (Output.editState (Output.set_uses
                    (Display.anyLayersRequireClientComposition d2)
                    (negb (Display.allLayersRequireClientComposition d2)))) d2.
Proof.
  intros Hid Hq. unfold Display.chooseCompositionStrategy. simpl.
  rewrite Hid.
  change (Display.anyLayersRequireClientComposition
            (Display.onBase Output.chooseCompositionStrategy d))
    with (Display.anyLayersRequireClientComposition d).
  rewrite Hq. reflexivity.
Qed.

(** C1. After [chooseCompositionStrategy] on a display with a bound
    hardware-composer id whose device-composition-changes query succeeds,
    the output-layers are those obtained by applying the returned changes,
    [usesClientComposition] says that some output-layer of that list
    requires client composition, and [usesDeviceComposition] says that not
    every one of them does. *)
Theorem chooseCompositionStrategy_final_flags (d : Display.t L) (id : DisplayId) :
  Display.mId d = Some id ->
  fst (getDeviceCompositionChanges hwc id
         (Display.anyLayersRequireClientComposition d)) = NO_ERROR ->
  let changes := snd (getDeviceCompositionChanges hwc id
                        (Display.anyLayersRequireClientComposition d)) in
  let d' := Display.chooseCompositionStrategy hwc d in
  let layers := Display.getOutputLayersOrderedByZ d' in
  layers = Display.getOutputLayersOrderedByZ (Display.applyChanges changes d) /\
  Output.usesClientComposition (Display.getState d')
    = existsb requiresClientComposition layers /\
  Output.usesDeviceComposition (Display.getState d')
    = negb (forallb requiresClientComposition layers) /\
  (Output.usesClientComposition (Display.getState d') = true <->
     exists l, In l layers /\ requiresClientComposition l = true) /\
  (Output.usesDeviceComposition (Display.getState d') = true <->
     ~ forall l, In l layers -> requiresClientComposition l = true).
Proof.
  intros Hid Hst changes d' layers.
  destruct (getDeviceCompositionChanges hwc id
              (Display.anyLayersRequireClientComposition d)) as [st ch] eqn:Hq.
  simpl in Hst, changes. subst st.
  pose proof (chooseCompositionStrategy_success d id ch Hid Hq) as Heq.
  cbv zeta in Heq.
  assert (Hlayers : layers = Display.getOutputLayersOrderedByZ
                               (Display.applyChanges changes d)).
  { subst layers d'. rewrite Heq, layers_onBase_editState.
    apply applyChanges_layers. reflexivity. }
  assert (Hc : Output.usesClientComposition (Display.getState d')
               = existsb requiresClientComposition layers).
  { subst layers d'. rewrite Heq. reflexivity. }
  assert (Hd : Output.usesDeviceComposition (Display.getState d')
               = negb (forallb requiresClientComposition layers)).
  { subst layers d'. rewrite Heq. reflexivity. }
  repeat split; try assumption.
  - rewrite Hc. intros Hex. apply existsb_exists in Hex. exact Hex.
  - rewrite Hc. intros Hex. apply existsb_exists. exact Hex.
  - rewrite Hd. intros Hn Hall. apply forallb_forall in Hall.
    rewrite Hall in Hn. discriminate.
  - rewrite Hd. intros Hn.
    destruct (forallb requiresClientComposition layers) eqn:Hall; [|reflexivity].
    exfalso. apply Hn. apply forallb_forall. exact Hall.
Qed.

(** C2. Without a hardware-composer id, or when the device-composition
    query reports an error, [chooseCompositionStrategy] leaves the defaults
    [usesClientComposition = true], [usesDeviceComposition = false], and
    applies nothing: the output-layers and [flipClientTarget] are as they
    were. *)
Theorem chooseCompositionStrategy_defaults (d : Display.t L) :
  (Display.mId d = None \/
   exists id, Display.mId d = Some id /\
     fst (getDeviceCompositionChanges hwc id
            (Display.anyLayersRequireClientComposition d)) <> NO_ERROR) ->
  let d' := Display.chooseCompositionStrategy hwc d in
  Output.usesClientComposition (Display.getState d') = true /\
  Output.usesDeviceComposition (Display.getState d') = false /\
  Display.getOutputLayersOrderedByZ d' = Display.getOutputLayersOrderedByZ d /\
  Output.flipClientTarget (Display.getState d')
    = Output.flipClientTarget (Display.getState d) /\
  Display.mId d' = Display.mId d.
Proof.
  intros [Hnone | (id & Hid & Herr)] d'; subst d';
    unfold Display.chooseCompositionStrategy; simpl.
  - rewrite Hnone. repeat split; try reflexivity. simpl. exact Hnone.
  - rewrite Hid.
    change (Display.anyLayersRequireClientComposition
              (Display.onBase Output.chooseCompositionStrategy d))
      with (Display.anyLayersRequireClientComposition d).
    destruct (getDeviceCompositionChanges hwc id
                (Display.anyLayersRequireClientComposition d)) as [st ch].
    simpl in Herr.
    destruct (st =? NO_ERROR) eqn:E.
    + apply Z.eqb_eq in E. contradiction.
    + simpl. repeat split; try reflexivity. simpl. exact Hid.
Qed.

Lemma setColorTransform_base_mId (m : option mat4) (d : Display.t L) :
  Display.mId (Display.onBase (Output.setColorTransform m) d) = Display.mId d.
Proof. reflexivity. Qed.

Lemma setColorTransform_base_calls (m : option mat4) (o : Output.t L) :
  Output.calls (Output.setColorTransform m o) = Output.calls o.
Proof.
  destruct m as [m'|]; simpl; [|reflexivity].
  destruct (mat4_eqb _ _); reflexivity.
Qed.

Lemma disconnect_mId (d : Display.t L) : Display.mId (Display.disconnect d) = None.
Proof. unfold Display.disconnect. destruct (Display.mId d) eqn:E; [reflexivity|exact E]. Qed.

(** C10, as the code has it. [setColorTransform] dereferences the stored
    id unchecked: it is defined exactly when the id is present, and then
    hands the matrix to the hardware composer; it is undefined once
    [disconnect] has run. [presentAndGetFrameFences] guards on the id.
    [setColorMode] does not: it guards on [mIsVirtual], and on a
    non-virtual display without an id it is undefined as soon as the
    colour profile differs from the current one. *)
Theorem setColorTransform_needs_id (d : Display.t L) (m : mat4) :
  (Display.setColorTransform hwc m d = None <-> Display.mId d = None) /\
  (forall id, Display.mId d = Some id ->
     exists d', Display.setColorTransform hwc m d = Some d' /\
       Display.mId d' = Some id /\
       Output.calls (Display.base d') =
         Output.calls (Display.base d) ++ [Hwc_setColorTransform id m] ++
         (if hwcSetColorTransform hwc id m =? NO_ERROR then []
          else [Log_error (hwcSetColorTransform hwc id m)])) /\
  Display.setColorTransform hwc m (Display.disconnect d) = None /\
  (Display.mId d = None ->
     Display.presentAndGetFrameFences hwc env d
     = (Output.presentAndGetFrameFences env (Display.base d), d)) /\
  (forall mode ds ri agnostic, Display.mIsVirtual d = true ->
     Display.setColorMode env mode ds ri agnostic d = Some d) /\
  (forall mode ds ri agnostic,
     Display.mIsVirtual d = false -> Display.mId d = None ->
     Display.setColorMode env mode ds ri agnostic d =
     if (mode =? Output.colorMode (Display.getState d)) &&
        (ds =? Output.dataspace (Display.getState d)) &&
        (ri =? Output.renderIntent (Display.getState d)) &&
        (getTargetDataspace env mode ds agnostic
           =? Output.targetDataspace (Display.getState d))
     then Some d else None).
Proof.
  repeat split.
  - unfold Display.setColorTransform. cbv zeta.
    rewrite setColorTransform_base_mId.
    destruct (Display.mId d); [discriminate|reflexivity].
  - intros Hn. unfold Display.setColorTransform. cbv zeta.
    rewrite setColorTransform_base_mId, Hn. reflexivity.
  - intros id Hid. unfold Display.setColorTransform. cbv zeta.
    rewrite setColorTransform_base_mId, Hid.
    eexists. split; [reflexivity|].
    split; [destruct (hwcSetColorTransform hwc id m =? NO_ERROR); exact Hid|].
    destruct (hwcSetColorTransform hwc id m =? NO_ERROR);
      cbn [Display.base Display.onBase Output.calls Output.call];
      rewrite setColorTransform_base_calls.
    + reflexivity.
    + rewrite <- app_assoc. reflexivity.
  - unfold Display.setColorTransform. cbv zeta.
    rewrite setColorTransform_base_mId, disconnect_mId. reflexivity.
  - intros Hn. unfold Display.presentAndGetFrameFences. cbv zeta.
    rewrite Hn. reflexivity.
  - intros mode ds ri agnostic Hv. unfold Display.setColorMode. cbv zeta.
    rewrite Hv. destruct (_ && _); reflexivity.
  - intros mode ds ri agnostic Hv Hn. unfold Display.setColorMode. cbv zeta.
    rewrite Hv. destruct (_ && _); [reflexivity|].
    change (Display.mId (Display.onBase
              (Output.setColorProfile env mode ds ri agnostic) d))
      with (Display.mId d).
    rewrite Hn. reflexivity.
Qed.

End DisplayFacts.

(** Witness of C1: the sample composer changes layer 1 to CLIENT, so the
    display composes with both the client and the device. *)
Lemma chooseCompositionStrategy_final_flags_witness :
  let d' := Display.chooseCompositionStrategy Samples.hwcOk Samples.display0 in
  Output.usesClientComposition (Display.getState d') = true /\
  Output.usesDeviceComposition (Display.getState d') = true /\
  (exists l, In l (Display.getOutputLayersOrderedByZ d') /\
             requiresClientComposition l = true).
Proof.
  pose proof (chooseCompositionStrategy_final_flags Samples.hwcOk
                Samples.display0 7%N eq_refl eq_refl) as W.
  cbv zeta in W. destruct W as (_ & Hc & Hd & Hex & _).
  cbv zeta. split; [|split].
  - rewrite Hc. vm_compute. reflexivity.
  - rewrite Hd. vm_compute. reflexivity.
  - apply Hex. rewrite Hc. vm_compute. reflexivity.
Defined.

(** Witness of C2, on a display without an id and on one whose composer
    fails the query. *)
Lemma chooseCompositionStrategy_defaults_witness :
  (let d' := Display.chooseCompositionStrategy Samples.hwcOk Samples.displayNoId in
   Output.usesClientComposition (Display.getState d') = true /\
   Output.usesDeviceComposition (Display.getState d') = false /\
   Display.getOutputLayersOrderedByZ d' = [Samples.layerA; Samples.layerB]) /\
  (let d' := Display.chooseCompositionStrategy Samples.hwcFailing Samples.display0 in
   Output.usesClientComposition (Display.getState d') = true /\
   Output.usesDeviceComposition (Display.getState d') = false /\
   Display.getOutputLayersOrderedByZ d' = [Samples.layerA; Samples.layerB]).
Proof.
  split.
  - pose proof (chooseCompositionStrategy_defaults Samples.hwcOk
                  Samples.displayNoId (or_introl eq_refl)) as W.
    cbv zeta in W. destruct W as (Hc & Hd & Hl & _).
    cbv zeta. repeat split; assumption.
  - assert (Herr : exists id, Display.mId Samples.display0 = Some id /\
              fst (getDeviceCompositionChanges Samples.hwcFailing id
                     (Display.anyLayersRequireClientComposition Samples.display0))
              <> NO_ERROR).
    { exists 7%N. split; [reflexivity|]. simpl. unfold NO_ERROR. lia. }
    pose proof (chooseCompositionStrategy_defaults Samples.hwcFailing
                  Samples.display0 (or_intror Herr)) as W.
    cbv zeta in W. destruct W as (Hc & Hd & Hl & _).
    cbv zeta. repeat split; assumption.
Defined.

(** Witness of the corrected C10: on the sample display the matrix reaches
    the composer, and after [disconnect] the call is undefined. *)
Lemma setColorTransform_needs_id_witness :
  (exists d', Display.setColorTransform Samples.hwcOk Samples.identity4 Samples.display0
              = Some d' /\
     Output.calls (Display.base d') = [Hwc_setColorTransform 7%N Samples.identity4]) /\
  Display.setColorMode Samples.env0 1 0 0 0 Samples.displayNoId = None.
Proof.
  pose proof (setColorTransform_needs_id Samples.hwcOk Samples.env0
                Samples.display0 Samples.identity4) as (_ & Hfwd & _).
  pose proof (setColorTransform_needs_id Samples.hwcOk Samples.env0
                Samples.displayNoId Samples.identity4) as (_ & _ & _ & _ & _ & Hmode).
  split.
  - destruct (Hfwd 7%N eq_refl) as (d' & Hd' & _ & Hcalls).
    exists d'. split; [exact Hd'|]. rewrite Hcalls. reflexivity.
  - rewrite (Hmode 1 0 0 0 eq_refl eq_refl). reflexivity.
Defined.

(** C10 as stated fails for [setColorMode]: it does not guard on the id. On
    the sample display, non-virtual, after [disconnect], a change of colour
    mode dereferences the absent id. *)
Lemma setColorMode_guards_on_id_counterexample :
  let d := Display.disconnect Samples.display0 in
  Display.mIsVirtual d = false /\
  Display.mId d = None /\
  Display.setColorMode Samples.env0 1 0 0 0 d = None /\
  ~ (forall (d : Display.t SimpleLayer) mode ds ri agnostic,
       Display.mId d = None ->
       Display.setColorMode Samples.env0 mode ds ri agnostic d <> None).
Proof.
  cbv zeta. repeat split.
  intros Hguard.
  apply (Hguard (Display.disconnect Samples.display0) 1 0 0 0); reflexivity.
Qed.

(** ** Refresh-rate selection *)

Section RefreshRateFacts.
Import RefreshRateConfigs Scheduler.

(** C3. With refresh-rate switching supported, HDR forced to the default
    rate and HDR content on screen, the type is DEFAULT whatever the touch
    state, the display-power timer and the display power state are. *)
Theorem hdr_rule_dominates (s : Scheduler.t) :
  refreshRateSwitchingSupported (mRefreshRateConfigs s) = true ->
  mForceHDRContentToDefaultRefreshRate s = true ->
  isHDRContent (mFeatures s) = true ->
  calculateRefreshRateType s = Some DEFAULT.
Proof.
  intros Hsw Hforce Hhdr. unfold calculateRefreshRateType.
  rewrite Hsw, Hforce, Hhdr. reflexivity.
Qed.

(** C7. With switching supported and no earlier rule applying, an active
    touch gives PERFORMANCE although the idle timer has expired. *)
Theorem touch_dominates_idle (s : Scheduler.t) :
  refreshRateSwitchingSupported (mRefreshRateConfigs s) = true ->
  mForceHDRContentToDefaultRefreshRate s && isHDRContent (mFeatures s) = false ->
  isDisplayPowerStateNormal (mFeatures s) = true ->
  displayPowerTimer (mFeatures s) = Expired ->
  touch (mFeatures s) = Active ->
  idleTimer (mFeatures s) = Expired ->
  calculateRefreshRateType s = Some PERFORMANCE.
Proof.
  intros Hsw Hhdr Hpow Hdpt Htouch Hidle. unfold calculateRefreshRateType.
  rewrite Hsw, Hhdr, Hpow, Hdpt, Htouch. reflexivity.
Qed.

(** C4. Content at 45 fps with the map DEFAULT -> 60 fps, PERFORMANCE ->
    90 fps and no earlier rule applying: the closest rate is the first
    entry (60 fps), 60/45 is further than 0.05 from an integer, 90/45 is
    exactly 2, and the result is PERFORMANCE. *)
Theorem content_45_selects_performance (s : Scheduler.t)
    (rDefault rPerformance : RefreshRate) :
  refreshRateSwitchingSupported (mRefreshRateConfigs s) = true ->
  isHDRContent (mFeatures s) = false ->
  isDisplayPowerStateNormal (mFeatures s) = true ->
  displayPowerTimer (mFeatures s) = Expired ->
  touch (mFeatures s) = Inactive ->
  idleTimer (mFeatures s) = Reset ->
  contentDetection (mFeatures s) = On ->
  contentRefreshRate (mFeatures s) = 45%N ->
  mRefreshRateMap (mRefreshRateConfigs s)
    = {| atDEFAULT := Some rDefault; atPERFORMANCE := Some rPerformance |} ->
  fps rDefault = 60%N ->
  fps rPerformance = 90%N ->
  calculateRefreshRateType s = Some PERFORMANCE /\
  min_element (closer (Float32.of_uint 45))
    (getRefreshRateMap (mRefreshRateConfigs s)) = 0%nat /\
  Float32.gtb (roundingError (Float32.div (Float32.of_uint 60) (Float32.of_uint 45)))
    MARGIN = true /\
  Float32.div (Float32.of_uint 90) (Float32.of_uint 45) = Float32.two /\
  Float32.leb (roundingError Float32.two) MARGIN = true.
Proof.
  intros Hsw Hhdr Hpow Hdpt Htouch Hidle Hcd Hrate Hmap Hd Hp.
  unfold calculateRefreshRateType, getRefreshRateMap, getRefreshRateFromType.
  rewrite Hsw, Hhdr, Hpow, Hdpt, Htouch, Hidle, Hcd, Hrate, Hmap.
  rewrite andb_false_r.
  destruct rDefault as [c1 n1 f1 v1 h1], rPerformance as [c2 n2 f2 v2 h2].
  simpl in Hd, Hp. subst f1 f2.
  repeat split; vm_compute; reflexivity.
Qed.

(** Whenever the rate map has an entry, a refresh-rate type is returned. *)
Lemma calculateRefreshRateType_total (s : Scheduler.t) :
  getRefreshRateMap (mRefreshRateConfigs s) <> [] ->
  exists ty, calculateRefreshRateType s = Some ty.
Proof.
  intros Hne. unfold calculateRefreshRateType.
  destruct (negb _); [eauto|].
  destruct (_ && _); [eauto|].
  destruct (_ || _); [eauto|].
  destruct (TouchState_eqb _ _); [eauto|].
  destruct (TimerState_eqb _ _); [eauto|].
  destruct (ContentDetectionState_eqb _ _); [eauto|].
  unfold getRefreshRateMap, getRefreshRateFromType, entries in *.
  destruct (mRefreshRateMap (mRefreshRateConfigs s)) as [[r1|] [r2|]];
    cbn [atDEFAULT atPERFORMANCE app] in *.
  - unfold min_element, min_element_from.
    destruct (closer _ _ _); cbn; destruct (Float32.gtb _ _); eauto.
  - cbn. destruct (Float32.gtb _ _); eauto.
  - cbn. destruct (Float32.gtb _ _); eauto.
  - contradiction.
Qed.

End RefreshRateFacts.

(** ** Timer transitions *)

Section TimerFacts.
Import RefreshRateConfigs Scheduler.

Lemma RefreshRateType_eqb_eq a b : RefreshRateType_eqb a b = true <-> a = b.
Proof. destruct a, b; simpl; split; congruence. Qed.

Lemma TimerState_eqb_eq a b : TimerState_eqb a b = true <-> a = b.
Proof. destruct a, b; simpl; split; congruence. Qed.

Lemma TouchState_eqb_eq a b : TouchState_eqb a b = true <-> a = b.
Proof. destruct a, b; simpl; split; congruence. Qed.

Lemma TimerState_eqb_neq a b : a <> b -> TimerState_eqb a b = false.
Proof. destruct a, b; simpl; congruence. Qed.

Lemma TouchState_eqb_neq a b : a <> b -> TouchState_eqb a b = false.
Proof. destruct a, b; simpl; congruence. Qed.

(** The handler on any of the three fields, once the stored state differs
    from the new one. *)
Lemma handleTimerStateChanged_changed {T : Type} (fld : FeatureField T)
    (v : T) (onContent : bool) (s : Scheduler.t) :
  sameState fld (readField fld (mFeatures s)) v = false ->
  handleTimerStateChanged fld v onContent s =
  let s1 := editFeatures (writeField fld v) s in
  match calculateRefreshRateType s1 with
  | None => None
  | Some ty =>
      if RefreshRateType_eqb (refreshRateType (mFeatures s1)) ty then Some s1
      else Some (changeRefreshRate ty
                   (if onContent &&
                       ContentDetectionState_eqb
                         (contentDetection (mFeatures s1)) On
                    then ConfigEvent.Changed else ConfigEvent.None)
                   (editFeatures (set_refreshRateType ty) s1))
  end.
Proof. intros Hne. unfold handleTimerStateChanged. rewrite Hne. reflexivity. Qed.

Lemma changeRefreshRate_calls ty ev (s : Scheduler.t) :
  calls (changeRefreshRate ty ev s) =
  calls s ++ (if mChangeRefreshRateCallback s
              then [Callback_changeRefreshRate ty ev] else []).
Proof.
  unfold changeRefreshRate. destruct (mChangeRefreshRateCallback s); simpl;
    [reflexivity | symmetry; apply app_nil_r].
Qed.

Lemma changeRefreshRate_features ty ev (s : Scheduler.t) :
  mFeatures (changeRefreshRate ty ev s) = mFeatures s.
Proof. unfold changeRefreshRate. destruct (mChangeRefreshRateCallback s); reflexivity. Qed.

(** C5. A timer transition whose new state is the stored one does
    nothing. Otherwise the refresh-rate type is recomputed on the updated
    features: if it is the current type, the type stays and no callback
    runs; if it differs, it is stored and the registered callback is
    invoked with it, with event Changed exactly for the touch and
    display-power timers while content detection is On, and None for the
    idle timer. With a non-empty rate map the handler always returns. *)
Theorem timer_transition_callback (k : Timer) (state : TimerState)
    (s : Scheduler.t) :
  let f := mFeatures s in
  let touchOf := if TimerState_eqb state Reset then Active else Inactive in
  let unchanged : Prop :=
    match k with
    | IdleTimer => idleTimer f = state
    | TouchTimer => touch f = touchOf
    | DisplayPowerTimer => displayPowerTimer f = state
    end in
  let s1 :=
    editFeatures
      match k with
      | IdleTimer => set_idleTimer state
      | TouchTimer => set_touch touchOf
      | DisplayPowerTimer => set_displayPowerTimer state
      end s in
  let event :=
    match k with
    | IdleTimer => ConfigEvent.None
    | TouchTimer | DisplayPowerTimer =>
        match contentDetection f with
        | On => ConfigEvent.Changed
        | Off => ConfigEvent.None
        end
    end in
  (unchanged -> timerCallback k state s = Some s) /\
  (~ unchanged ->
   calculateRefreshRateType s1 = Some (refreshRateType f) ->
   exists s', timerCallback k state s = Some s' /\
     refreshRateType (mFeatures s') = refreshRateType f /\
     calls s' = calls s) /\
  (~ unchanged ->
   forall ty, calculateRefreshRateType s1 = Some ty ->
     ty <> refreshRateType f ->
     exists s', timerCallback k state s = Some s' /\
       refreshRateType (mFeatures s') = ty /\
       calls s' = calls s ++
         (if mChangeRefreshRateCallback s
          then [Callback_changeRefreshRate ty event] else [])) /\
  (getRefreshRateMap (mRefreshRateConfigs s) <> [] ->
   exists s', timerCallback k state s = Some s').
Proof.
  intros f touchOf unchanged s1 event.
  assert (Hsame : unchanged -> timerCallback k state s = Some s).
  { subst unchanged. destruct k; simpl; intros Hu;
      unfold idleTimerCallback, touchTimerCallback, displayPowerTimerCallback,
        handleTimerStateChanged; simpl; fold f; fold touchOf; rewrite Hu.
    - rewrite (proj2 (TimerState_eqb_eq state state) eq_refl). reflexivity.
    - rewrite (proj2 (TouchState_eqb_eq touchOf touchOf) eq_refl). reflexivity.
    - rewrite (proj2 (TimerState_eqb_eq state state) eq_refl). reflexivity. }
  assert (Hstep : ~ unchanged ->
    timerCallback k state s =
    match calculateRefreshRateType s1 with
    | None => None
    | Some ty =>
        if RefreshRateType_eqb (refreshRateType f) ty then Some s1
        else Some (changeRefreshRate ty event
                     (editFeatures (set_refreshRateType ty) s1))
    end).
  { subst unchanged s1 event. destruct k; simpl; intros Hu.
    - unfold idleTimerCallback.
      rewrite handleTimerStateChanged_changed.
      + reflexivity.
      + simpl. apply TimerState_eqb_neq. exact Hu.
    - unfold touchTimerCallback. fold touchOf.
      rewrite handleTimerStateChanged_changed.
      + cbv zeta. simpl. fold f.
        destruct (calculateRefreshRateType _); [|reflexivity].
        destruct (contentDetection f); reflexivity.
      + simpl. apply TouchState_eqb_neq. exact Hu.
    - unfold displayPowerTimerCallback.
      rewrite handleTimerStateChanged_changed.
      + cbv zeta. simpl. fold f.
        destruct (calculateRefreshRateType _); [|reflexivity].
        destruct (contentDetection f); reflexivity.
      + simpl. apply TimerState_eqb_neq. exact Hu. }
  assert (Hty1 : refreshRateType (mFeatures s1) = refreshRateType f).
  { subst s1. destruct k; reflexivity. }
  assert (Hcalls1 : calls s1 = calls s) by reflexivity.
  assert (Hcb1 : mChangeRefreshRateCallback s1 = mChangeRefreshRateCallback s)
    by reflexivity.
  split; [exact Hsame|]. split; [|split].
  - intros Hu Hcalc. exists s1. rewrite (Hstep Hu), Hcalc.
    rewrite (proj2 (RefreshRateType_eqb_eq _ _) eq_refl). auto.
  - intros Hu ty Hcalc Hneq. rewrite (Hstep Hu), Hcalc.
    destruct (RefreshRateType_eqb (refreshRateType f) ty) eqn:E.
    + apply RefreshRateType_eqb_eq in E. congruence.
    + eexists. split; [reflexivity|]. split.
      * rewrite changeRefreshRate_features. reflexivity.
      * rewrite changeRefreshRate_calls. reflexivity.
  - intros Hne.
    assert (Hdec : unchanged \/ ~ unchanged).
    { subst unchanged. destruct k.
      - destruct (idleTimer f), state; (left; reflexivity) || (right; discriminate).
      - destruct (touch f), touchOf; (left; reflexivity) || (right; discriminate).
      - destruct (displayPowerTimer f), state;
          (left; reflexivity) || (right; discriminate). }
    destruct Hdec as [Hu | Hu]; [exists s; auto|].
    rewrite (Hstep Hu).
    destruct (calculateRefreshRateType_total s1) as [ty Hty]; [exact Hne|].
    rewrite Hty. destruct (RefreshRateType_eqb _ _); eauto.
Qed.

End TimerFacts.

(** Witness of C3: touch active, display power not normal, HDR content with
    the forcing on. *)
Lemma hdr_rule_dominates_witness :
  Scheduler.calculateRefreshRateType
    (Samples.schedulerWith true Samples.featuresTouchHDR)
  = Some RefreshRateConfigs.DEFAULT.
Proof.
  apply (hdr_rule_dominates (Samples.schedulerWith true Samples.featuresTouchHDR));
    reflexivity.
Defined.

(** Witness of C7: touch active and idle timer expired. *)
Lemma touch_dominates_idle_witness :
  Scheduler.calculateRefreshRateType
    (Samples.schedulerWith false Samples.featuresTouchIdle)
  = Some RefreshRateConfigs.PERFORMANCE.
Proof.
  apply (touch_dominates_idle (Samples.schedulerWith false Samples.featuresTouchIdle));
    reflexivity.
Defined.

(** Witness of C4: the sample scheduler has 45 fps content on the 60/90 map. *)
Lemma content_45_selects_performance_witness :
  Scheduler.calculateRefreshRateType Samples.scheduler0
  = Some RefreshRateConfigs.PERFORMANCE.
Proof.
  apply (content_45_selects_performance Samples.scheduler0
           (Samples.rate 60 16666667 0) (Samples.rate 90 11111111 1));
    reflexivity.
Defined.

(** Witness of C5: the touch timer is reset while 45 fps content is
    detected; the type goes from DEFAULT to PERFORMANCE and the callback
    receives Changed. The idle timer reporting the state it already has
    changes nothing. *)
Lemma timer_transition_callback_witness :
  (exists s', Scheduler.touchTimerCallback Scheduler.Reset Samples.scheduler0 = Some s' /\
     Scheduler.refreshRateType (Scheduler.mFeatures s') = RefreshRateConfigs.PERFORMANCE /\
     Scheduler.calls s' =
       [Scheduler.Callback_changeRefreshRate RefreshRateConfigs.PERFORMANCE
          ConfigEvent.Changed]) /\
  Scheduler.idleTimerCallback Scheduler.Reset Samples.scheduler0
  = Some Samples.scheduler0.
Proof.
  split.
  - pose proof (timer_transition_callback Scheduler.TouchTimer Scheduler.Reset
                  Samples.scheduler0) as W.
    cbv zeta in W. destruct W as (_ & _ & W & _).
    destruct (W ltac:(simpl; discriminate) RefreshRateConfigs.PERFORMANCE
                ltac:(vm_compute; reflexivity) ltac:(simpl; discriminate))
      as (s' & Hs' & Hty & Hcalls).
    exists s'. repeat split; assumption.
  - pose proof (timer_transition_callback Scheduler.IdleTimer Scheduler.Reset
                  Samples.scheduler0) as W.
    cbv zeta in W. destruct W as (W & _).
    exact (W eq_refl).
Defined.

(** ** Hardware vsync *)

Section VsyncFacts.
Import Scheduler.

Lemma resyncRequests_app (l1 l2 : list Call) :
  resyncRequests (l1 ++ l2) = resyncRequests l1 ++ resyncRequests l2.
Proof. unfold resyncRequests. apply flat_map_app. Qed.

Lemma wrap64_small (z : Z) : - 2 ^ 63 <= z < 2 ^ 63 -> wrap64 z = z.
Proof.
  intros Hz. unfold wrap64.
  rewrite Z.mod_small by lia. lia.
Qed.

(** [resyncToHardwareVsync] is recorded exactly once per invocation, and
    leaves the time of the last [resync] alone. *)
Lemma resyncToHardwareVsync_requests (m : bool) (p : nsecs_t) (s : Scheduler.t) :
  resyncRequests (calls (resyncToHardwareVsync m p s))
  = resyncRequests (calls s) ++ [(m, p)] /\
  mLastResyncTime (resyncToHardwareVsync m p s) = mLastResyncTime s.
Proof.
  unfold resyncToHardwareVsync, setVsyncPeriod.
  destruct s as [cfg force f cb en av last conns next log].
  destruct m, (p <=? 0), av, en; cbn;
    repeat rewrite resyncRequests_app; cbn;
    repeat rewrite app_nil_r; split; reflexivity.
Qed.

(** One call of [resync], with clock readings in the non-negative range of
    [nsecs_t]. *)
Lemma resync_once (s : Scheduler.t) (now p : nsecs_t) :
  0 <= mLastResyncTime s < 2 ^ 63 ->
  0 <= now < 2 ^ 63 ->
  resync now p s =
  if now - mLastResyncTime s >? kIgnoreDelay
  then resyncToHardwareVsync false p (set_mLastResyncTime now s)
  else set_mLastResyncTime now s.
Proof.
  intros Hl Hn. unfold resync. rewrite wrap64_small by lia. reflexivity.
Qed.

(** C6. [resync] always records the time of the call. A call at most
    750 ms after the previous one does nothing else; a later call invokes
    [resyncToHardwareVsync(false, currentVsyncPeriod)]. So of two calls
    at most 750 ms apart, the first of which comes more than 750 ms after
    the previous call, exactly the first one resyncs. *)
Theorem resync_debounced (s : Scheduler.t) (t1 t2 p1 p2 : nsecs_t) :
  0 <= mLastResyncTime s < 2 ^ 63 ->
  0 <= t1 < 2 ^ 63 ->
  0 <= t2 < 2 ^ 63 ->
  mLastResyncTime (resync t1 p1 s) = t1 /\
  (t1 - mLastResyncTime s <= ms2ns 750 ->
     resync t1 p1 s = set_mLastResyncTime t1 s /\
     calls (resync t1 p1 s) = calls s) /\
  (t1 - mLastResyncTime s > ms2ns 750 ->
     resync t1 p1 s = resyncToHardwareVsync false p1 (set_mLastResyncTime t1 s) /\
     resyncRequests (calls (resync t1 p1 s))
     = resyncRequests (calls s) ++ [(false, p1)]) /\
  (t1 - mLastResyncTime s > ms2ns 750 ->
   t2 - t1 <= ms2ns 750 ->
     resyncRequests (calls (resync t2 p2 (resync t1 p1 s)))
     = resyncRequests (calls s) ++ [(false, p1)] /\
     mLastResyncTime (resync t2 p2 (resync t1 p1 s)) = t2).
Proof.
  intros Hl H1 H2.
  pose proof (resync_once s t1 p1 Hl H1) as E1.
  assert (Hlast : mLastResyncTime (resync t1 p1 s) = t1).
  { rewrite E1. destruct (_ >? _).
    - rewrite (proj2 (resyncToHardwareVsync_requests _ _ _)). reflexivity.
    - reflexivity. }
  assert (Hlate : t1 - mLastResyncTime s > ms2ns 750 ->
     resync t1 p1 s = resyncToHardwareVsync false p1 (set_mLastResyncTime t1 s) /\
     resyncRequests (calls (resync t1 p1 s))
     = resyncRequests (calls s) ++ [(false, p1)]).
  { intros Hgt. rewrite E1.
    replace (t1 - mLastResyncTime s >? kIgnoreDelay) with true
      by (symmetry; apply Z.gtb_lt; unfold kIgnoreDelay; lia).
    split; [reflexivity|].
    rewrite (proj1 (resyncToHardwareVsync_requests _ _ _)). reflexivity. }
  split; [exact Hlast|]. split; [|split; [exact Hlate|]].
  - intros Hle. rewrite E1.
    replace (t1 - mLastResyncTime s >? kIgnoreDelay) with false.
    + split; reflexivity.
    + symmetry. rewrite Z.gtb_ltb. apply Z.ltb_ge. unfold kIgnoreDelay. lia.
  - intros Hgt Hle.
    assert (Hl' : 0 <= mLastResyncTime (resync t1 p1 s) < 2 ^ 63)
      by (rewrite Hlast; exact H1).
    rewrite (resync_once (resync t1 p1 s) t2 p2 Hl' H2), Hlast.
    replace (t2 - t1 >? kIgnoreDelay) with false.
    + split; [|reflexivity]. apply (proj2 (Hlate Hgt)).
    + symmetry. rewrite Z.gtb_ltb. apply Z.ltb_ge. unfold kIgnoreDelay. lia.
Qed.

End VsyncFacts.

(** Witness of C6: from the sample scheduler, whose last [resync] is at
    time 0, calls at 1 s and 1.5 s record one invocation. *)
Lemma resync_debounced_witness :
  Scheduler.resyncRequests
    (Scheduler.calls
       (Scheduler.resync 1500000000 11111111
          (Scheduler.resync 1000000000 16666667 Samples.scheduler0)))
  = [(false, 16666667)].
Proof.
  pose proof (resync_debounced Samples.scheduler0 1000000000 1500000000
                16666667 11111111) as W.
  destruct W as (_ & _ & _ & W); [simpl; lia | lia | lia |].
  destruct W as [W _]; [simpl; unfold Scheduler.ms2ns; lia
                       | unfold Scheduler.ms2ns; lia |].
  exact W.
Defined.

Section VsyncInvariant.
Import Scheduler.

Lemma enableHardwareVsync_flags (s : Scheduler.t) :
  mHWVsyncAvailable (enableHardwareVsync s) = mHWVsyncAvailable s /\
  mPrimaryHWVsyncEnabled (enableHardwareVsync s)
  = mPrimaryHWVsyncEnabled s || mHWVsyncAvailable s.
Proof.
  unfold enableHardwareVsync.
  destruct (mPrimaryHWVsyncEnabled s) eqn:E1, (mHWVsyncAvailable s) eqn:E2;
    simpl; rewrite ?E1, ?E2; split; reflexivity.
Qed.

Lemma disableHardwareVsync_flags (mu : bool) (s : Scheduler.t) :
  mHWVsyncAvailable (disableHardwareVsync mu s)
  = (if mu then false else mHWVsyncAvailable s) /\
  mPrimaryHWVsyncEnabled (disableHardwareVsync mu s) = false.
Proof.
  unfold disableHardwareVsync.
  destruct (mPrimaryHWVsyncEnabled s) eqn:E1, mu; simpl; rewrite ?E1;
    split; reflexivity.
Qed.

Lemma resyncToHardwareVsync_flags (ma : bool) (p : nsecs_t) (s : Scheduler.t) :
  mHWVsyncAvailable (resyncToHardwareVsync ma p s)
  = ma || mHWVsyncAvailable s /\
  mPrimaryHWVsyncEnabled (resyncToHardwareVsync ma p s)
  = if (ma || mHWVsyncAvailable s) && (0 <? p) then true
    else mPrimaryHWVsyncEnabled s.
Proof.
  unfold resyncToHardwareVsync, setVsyncPeriod.
  replace (0 <? p) with (negb (p <=? 0))
    by (destruct (Z.leb_spec p 0), (Z.ltb_spec 0 p); simpl; lia || reflexivity).
  destruct s as [cfg force f cb en av last conns next log].
  destruct ma, (p <=? 0), av, en; cbn; split; reflexivity.
Qed.

Lemma resync_flags (now p : nsecs_t) (s : Scheduler.t) :
  mHWVsyncAvailable (resync now p s) = mHWVsyncAvailable s /\
  (mHWVsyncAvailable s = false ->
   mPrimaryHWVsyncEnabled (resync now p s) = mPrimaryHWVsyncEnabled s) /\
  (mPrimaryHWVsyncEnabled s = true ->
   mPrimaryHWVsyncEnabled (resync now p s) = true).
Proof.
  unfold resync.
  destruct (wrap64 (now - mLastResyncTime s) >? kIgnoreDelay).
  - destruct (resyncToHardwareVsync_flags false p (set_mLastResyncTime now s))
      as [Ha He].
    rewrite Ha, He. simpl. repeat split.
    + intros Hav. rewrite Hav. reflexivity.
    + intros Hen. rewrite Hen. destruct (_ && _); reflexivity.
  - repeat split; auto.
Qed.

Lemma addResyncSample_flags ts needs flushed (s : Scheduler.t) :
  let s' := snd (addResyncSample ts needs flushed s) in
  mHWVsyncAvailable s' = mHWVsyncAvailable s /\
  mPrimaryHWVsyncEnabled s' = mPrimaryHWVsyncEnabled s && needs.
Proof.
  unfold addResyncSample.
  destruct s as [cfg force f cb en av last conns next log].
  destruct en, needs, av; cbn; split; reflexivity.
Qed.

Lemma addPresentFence_flags fence needs (s : Scheduler.t) :
  let s' := addPresentFence fence needs s in
  mHWVsyncAvailable s' = mHWVsyncAvailable s /\
  mPrimaryHWVsyncEnabled s'
  = needs && (mPrimaryHWVsyncEnabled s || mHWVsyncAvailable s).
Proof.
  unfold addPresentFence.
  destruct s as [cfg force f cb en av last conns next log].
  destruct en, needs, av; cbn; split; reflexivity.
Qed.

(** Every operation keeps "enabled implies available". *)
Lemma runVsyncOp_invariant (s : Scheduler.t) (op : VsyncOp) :
  (mPrimaryHWVsyncEnabled s = true -> mHWVsyncAvailable s = true) ->
  mPrimaryHWVsyncEnabled (runVsyncOp s op) = true ->
  mHWVsyncAvailable (runVsyncOp s op) = true.
Proof.
  intros Hinv. destruct op as [|mu|ma p|now p|ts needs flushed|fence needs]; simpl.
  - destruct (enableHardwareVsync_flags s) as [Ha He]. rewrite Ha, He.
    destruct (mPrimaryHWVsyncEnabled s); simpl; auto.
  - destruct (disableHardwareVsync_flags mu s) as [Ha He]. rewrite He.
    discriminate.
  - destruct (resyncToHardwareVsync_flags ma p s) as [Ha He]. rewrite Ha, He.
    destruct (ma || mHWVsyncAvailable s) eqn:E; simpl; [reflexivity|].
    intros Hen. apply orb_false_elim in E. destruct E as [_ E].
    rewrite (Hinv Hen) in E. discriminate.
  - destruct (resync_flags now p s) as (Ha & Hoff & Hon). rewrite Ha.
    destruct (mHWVsyncAvailable s) eqn:E; [reflexivity|].
    rewrite (Hoff eq_refl). exact Hinv.
  - destruct (addResyncSample_flags ts needs flushed s) as [Ha He].
    rewrite Ha, He. intros Hen. apply andb_prop in Hen. tauto.
  - destruct (addPresentFence_flags fence needs s) as [Ha He].
    rewrite Ha, He. intros Hen. apply andb_prop in Hen.
    destruct Hen as [_ Hen]. apply orb_prop in Hen. tauto.
Qed.

(** While hardware vsync is unavailable, only
    [resyncToHardwareVsync(true, _)] changes that, and nothing enables it. *)
Lemma runVsyncOp_unavailable (s : Scheduler.t) (op : VsyncOp) :
  (forall p, op <> OpResyncToHardwareVsync true p) ->
  mPrimaryHWVsyncEnabled s = false -> mHWVsyncAvailable s = false ->
  mPrimaryHWVsyncEnabled (runVsyncOp s op) = false /\
  mHWVsyncAvailable (runVsyncOp s op) = false.
Proof.
  intros Hop Hen Hav.
  destruct op as [|mu|ma p|now p|ts needs flushed|fence needs]; simpl.
  - destruct (enableHardwareVsync_flags s) as [Ha He].
    rewrite Ha, He, Hen, Hav. auto.
  - destruct (disableHardwareVsync_flags mu s) as [Ha He].
    rewrite Ha, He, Hav. destruct mu; auto.
  - destruct ma; [exfalso; apply (Hop p); reflexivity|].
    destruct (resyncToHardwareVsync_flags false p s) as [Ha He].
    rewrite Ha, He, Hen, Hav. auto.
  - destruct (resync_flags now p s) as (Ha & Hoff & _).
    rewrite Ha, (Hoff Hav), Hen, Hav. auto.
  - destruct (addResyncSample_flags ts needs flushed s) as [Ha He].
    rewrite Ha, He, Hen, Hav. auto.
  - destruct (addPresentFence_flags fence needs s) as [Ha He].
    rewrite Ha, He, Hen, Hav. destruct needs; auto.
Qed.

Lemma runVsyncOps_invariant (ops : list VsyncOp) (s : Scheduler.t) :
  (mPrimaryHWVsyncEnabled s = true -> mHWVsyncAvailable s = true) ->
  mPrimaryHWVsyncEnabled (runVsyncOps ops s) = true ->
  mHWVsyncAvailable (runVsyncOps ops s) = true.
Proof.
  revert s. induction ops as [|op ops IH]; intros s Hinv; simpl.
  - exact Hinv.
  - apply IH. apply runVsyncOp_invariant. exact Hinv.
Qed.

Lemma runVsyncOps_unavailable (ops : list VsyncOp) (s : Scheduler.t) :
  Forall (fun op => forall p, op <> OpResyncToHardwareVsync true p) ops ->
  mPrimaryHWVsyncEnabled s = false -> mHWVsyncAvailable s = false ->
  mPrimaryHWVsyncEnabled (runVsyncOps ops s) = false /\
  mHWVsyncAvailable (runVsyncOps ops s) = false.
Proof.
  revert s. induction ops as [|op ops IH]; intros s Hops Hen Hav; simpl.
  - auto.
  - inversion Hops as [|? ? Hop Hrest]; subst.
    destruct (runVsyncOp_unavailable s op Hop Hen Hav) as [Hen' Hav'].
    apply IH; assumption.
Qed.

(** Hardware vsync stays available as long as no
    [disableHardwareVsync(true)] is run. *)
Lemma runVsyncOp_available (s : Scheduler.t) (op : VsyncOp) :
  op <> OpDisableHardwareVsync true ->
  mHWVsyncAvailable s = true ->
  mHWVsyncAvailable (runVsyncOp s op) = true.
Proof.
  intros Hop Hav.
  destruct op as [|mu|ma p|now p|ts needs flushed|fence needs]; simpl.
  - rewrite (proj1 (enableHardwareVsync_flags s)). exact Hav.
  - rewrite (proj1 (disableHardwareVsync_flags mu s)).
    destruct mu; [exfalso; apply Hop; reflexivity | exact Hav].
  - rewrite (proj1 (resyncToHardwareVsync_flags ma p s)), Hav.
    apply orb_true_r.
  - rewrite (proj1 (resync_flags now p s)). exact Hav.
  - rewrite (proj1 (addResyncSample_flags ts needs flushed s)). exact Hav.
  - rewrite (proj1 (addPresentFence_flags fence needs s)). exact Hav.
Qed.

Lemma runVsyncOps_available (ops : list VsyncOp) (s : Scheduler.t) :
  Forall (fun op => op <> OpDisableHardwareVsync true) ops ->
  mHWVsyncAvailable s = true ->
  mHWVsyncAvailable (runVsyncOps ops s) = true.
Proof.
  revert s. induction ops as [|op ops IH]; intros s Hops Hav; simpl.
  - exact Hav.
  - inversion Hops as [|? ? Hop Hrest]; subst.
    apply IH; [assumption|]. apply runVsyncOp_available; assumption.
Qed.

(** What an [enableHardwareVsync], or an [addPresentFence] whose fence asks
    for hardware vsync, does to a scheduler with hardware vsync available
    and disabled: one [beginResync] on DispSync and one
    [setVsyncEnabled(true)] on the event control thread. *)
Lemma enable_when_available (s : Scheduler.t) :
  mHWVsyncAvailable s = true -> mPrimaryHWVsyncEnabled s = false ->
  calls (enableHardwareVsync s)
  = (calls s ++ [DispSync_beginResync;
                 EventControlThread_setVsyncEnabled true])%list /\
  forall fence,
    calls (addPresentFence fence true s)
    = (calls s ++ [DispSync_addPresentFence fence; DispSync_beginResync;
                   EventControlThread_setVsyncEnabled true])%list.
Proof.
  intros Hav Hen. unfold addPresentFence, enableHardwareVsync.
  destruct s as [cfg force f cb en av last conns next log].
  simpl in Hav, Hen. subst. cbn.
  split; [|intros fence]; rewrite <- !app_assoc; reflexivity.
Qed.

(** C9, as the code has it. Under every sequence of the six operations,
    hardware vsync enabled implies hardware vsync available. After
    [disableHardwareVsync(true)] it stays disabled and unavailable until
    [resyncToHardwareVsync] is called with [makeAvailable = true]; that
    call makes it available whatever the period, and enables it exactly
    when the period is positive. From then on, as long as no
    [disableHardwareVsync(true)] is run, hardware vsync stays available and
    an [enableHardwareVsync], or an [addPresentFence] whose fence asks for
    hardware vsync, leaves it enabled. When the period was not positive,
    such a call made right after the resync is the one that enables it: it
    calls [beginResync] and [setVsyncEnabled(true)] and sets the flag,
    while an [addPresentFence] whose fence does not ask for hardware vsync
    leaves it disabled. *)
Theorem hwvsync_enabled_implies_available (s : Scheduler.t) (ops : list VsyncOp) :
  ((mPrimaryHWVsyncEnabled s = true -> mHWVsyncAvailable s = true) ->
   mPrimaryHWVsyncEnabled (runVsyncOps ops s) = true ->
   mHWVsyncAvailable (runVsyncOps ops s) = true) /\
  (Forall (fun op => forall p, op <> OpResyncToHardwareVsync true p) ops ->
   mPrimaryHWVsyncEnabled (runVsyncOps ops (disableHardwareVsync true s)) = false /\
   mHWVsyncAvailable (runVsyncOps ops (disableHardwareVsync true s)) = false) /\
  (forall p,
     mHWVsyncAvailable
       (resyncToHardwareVsync true p (disableHardwareVsync true s)) = true /\
     mPrimaryHWVsyncEnabled
       (resyncToHardwareVsync true p (disableHardwareVsync true s)) = (0 <? p)) /\
  (forall p,
     Forall (fun op => op <> OpDisableHardwareVsync true) ops ->
     let s' := runVsyncOps ops
                 (resyncToHardwareVsync true p (disableHardwareVsync true s)) in
     mHWVsyncAvailable s' = true /\
     mPrimaryHWVsyncEnabled (enableHardwareVsync s') = true /\
     (forall fence,
        mPrimaryHWVsyncEnabled (addPresentFence fence true s') = true)) /\
  (forall p,
     p <= 0 ->
     let s1 := resyncToHardwareVsync true p (disableHardwareVsync true s) in
     mPrimaryHWVsyncEnabled s1 = false /\
     mPrimaryHWVsyncEnabled (enableHardwareVsync s1) = true /\
     calls (enableHardwareVsync s1)
     = (calls s1 ++ [DispSync_beginResync;
                     EventControlThread_setVsyncEnabled true])%list /\
     (forall fence,
        mPrimaryHWVsyncEnabled (addPresentFence fence true s1) = true /\
        calls (addPresentFence fence true s1)
        = (calls s1 ++ [DispSync_addPresentFence fence; DispSync_beginResync;
                        EventControlThread_setVsyncEnabled true])%list /\
        mPrimaryHWVsyncEnabled (addPresentFence fence false s1) = false)).
Proof.
  assert (Hresync : forall p,
     mHWVsyncAvailable
       (resyncToHardwareVsync true p (disableHardwareVsync true s)) = true /\
     mPrimaryHWVsyncEnabled
       (resyncToHardwareVsync true p (disableHardwareVsync true s)) = (0 <? p)).
  { intros p.
    destruct (resyncToHardwareVsync_flags true p (disableHardwareVsync true s))
      as [Ha He].
    destruct (disableHardwareVsync_flags true s) as [_ He0].
    rewrite Ha, He, He0. simpl. destruct (0 <? p); auto. }
  split; [apply runVsyncOps_invariant|]. split; [|split; [exact Hresync|split]].
  - intros Hops.
    destruct (disableHardwareVsync_flags true s) as [Ha He].
    apply runVsyncOps_unavailable; assumption.
  - intros p Hops s'.
    assert (Hav : mHWVsyncAvailable s' = true)
      by (apply runVsyncOps_available; [assumption | apply Hresync]).
    split; [exact Hav|]. split.
    + rewrite (proj2 (enableHardwareVsync_flags s')), Hav. apply orb_true_r.
    + intros fence.
      rewrite (proj2 (addPresentFence_flags fence true s')), Hav.
      simpl. apply orb_true_r.
  - intros p Hp s1.
    destruct (Hresync p) as [Hav Hen]. fold s1 in Hav, Hen.
    assert (Hoff : mPrimaryHWVsyncEnabled s1 = false).
    { rewrite Hen. apply Z.ltb_ge. exact Hp. }
    destruct (enable_when_available s1 Hav Hoff) as [Hlog Hfence].
    split; [exact Hoff|]. split.
    { rewrite (proj2 (enableHardwareVsync_flags s1)), Hav. apply orb_true_r. }
    split; [exact Hlog|].
    intros fence. split.
    { rewrite (proj2 (addPresentFence_flags fence true s1)), Hav.
      simpl. apply orb_true_r. }
    split; [apply Hfence|].
    rewrite (proj2 (addPresentFence_flags fence false s1)). reflexivity.
Qed.

End VsyncInvariant.

(** Witness of C9 on the sample scheduler: a run that enables hardware
    vsync keeps it available; after [disableHardwareVsync(true)] a run
    without [resyncToHardwareVsync(true, _)] leaves it disabled; after a
    [resyncToHardwareVsync(true, 16666667)] and a [disableHardwareVsync(false)]
    an [enableHardwareVsync] enables it again; and after a
    [resyncToHardwareVsync(true, 0)] it is disabled until an
    [addPresentFence] whose fence asks for hardware vsync enables it. *)
Lemma hwvsync_enabled_implies_available_witness :
  Scheduler.mHWVsyncAvailable
    (Scheduler.runVsyncOps
       [Scheduler.OpResyncToHardwareVsync true 16666667;
        Scheduler.OpAddPresentFence 1 true] Samples.scheduler0) = true /\
  Scheduler.mPrimaryHWVsyncEnabled
    (Scheduler.runVsyncOps
       [Scheduler.OpEnableHardwareVsync;
        Scheduler.OpResync 1000000000 16666667;
        Scheduler.OpAddPresentFence 1 true;
        Scheduler.OpResyncToHardwareVsync false 16666667]
       (Scheduler.disableHardwareVsync true Samples.scheduler0)) = false /\
  Scheduler.mPrimaryHWVsyncEnabled
    (Scheduler.enableHardwareVsync
       (Scheduler.runVsyncOps
          [Scheduler.OpResync 1000000000 16666667;
           Scheduler.OpDisableHardwareVsync false]
          (Scheduler.resyncToHardwareVsync true 16666667
             (Scheduler.disableHardwareVsync true Samples.scheduler0)))) = true /\
  Scheduler.mPrimaryHWVsyncEnabled
    (Scheduler.resyncToHardwareVsync true 0
       (Scheduler.disableHardwareVsync true Samples.scheduler0)) = false /\
  Scheduler.mPrimaryHWVsyncEnabled
    (Scheduler.addPresentFence 1
       true
       (Scheduler.resyncToHardwareVsync true 0
          (Scheduler.disableHardwareVsync true Samples.scheduler0))) = true.
Proof.
  split; [|split; [|split]].
  - apply (proj1 (hwvsync_enabled_implies_available Samples.scheduler0
                    [Scheduler.OpResyncToHardwareVsync true 16666667;
                     Scheduler.OpAddPresentFence 1 true])).
    + simpl. discriminate.
    + vm_compute. reflexivity.
  - apply (proj1 (proj2 (hwvsync_enabled_implies_available Samples.scheduler0
                    [Scheduler.OpEnableHardwareVsync;
                     Scheduler.OpResync 1000000000 16666667;
                     Scheduler.OpAddPresentFence 1 true;
                     Scheduler.OpResyncToHardwareVsync false 16666667]))).
    repeat constructor; intros p; discriminate.
  - pose proof (hwvsync_enabled_implies_available Samples.scheduler0
                  [Scheduler.OpResync 1000000000 16666667;
                   Scheduler.OpDisableHardwareVsync false]) as W.
    destruct W as (_ & _ & _ & W & _).
    destruct (W 16666667) as (_ & W' & _); [|exact W'].
    repeat constructor; discriminate.
  - pose proof (hwvsync_enabled_implies_available Samples.scheduler0 []) as W.
    destruct W as (_ & _ & _ & _ & W).
    destruct (W 0) as (Woff & _ & _ & Wfence); [lia|].
    split; [exact Woff|]. exact (proj1 (Wfence 1%N)).
Defined.

(** C9 as stated fails: a [resyncToHardwareVsync(true, 0)] makes hardware
    vsync available without enabling it, and the [enableHardwareVsync] that
    follows enables it, although no [resyncToHardwareVsync] with
    [makeAvailable = true] and a positive period has been called. *)
Lemma reenabled_without_positive_period_counterexample :
  let ops := [Scheduler.OpResyncToHardwareVsync true 0;
              Scheduler.OpEnableHardwareVsync] in
  Forall (fun op => forall p, 0 < p ->
            op <> Scheduler.OpResyncToHardwareVsync true p) ops /\
  Scheduler.mPrimaryHWVsyncEnabled
    (Scheduler.runVsyncOps ops
       (Scheduler.disableHardwareVsync true Samples.scheduler0)) = true.
Proof.
  cbv zeta. split.
  - repeat constructor; intros p Hp; [|discriminate].
    intros Heq. inversion Heq. lia.
  - vm_compute. reflexivity.
Qed.

(** ** Connection registry *)

Section RegistryFacts.
Import Scheduler.

Lemma withValidHandle_invalid {R : Type} handle (dflt : R) k (s : Scheduler.t) :
  mConnections s !! handle = None ->
  withValidHandle handle dflt k s = (dflt, call (Log_invalidHandle handle) s).
Proof. intros Hn. unfold withValidHandle. rewrite Hn. reflexivity. Qed.

Lemma withValidHandle_valid {R : Type} handle (dflt : R) k (s : Scheduler.t) c :
  mConnections s !! handle = Some c ->
  withValidHandle handle dflt k s = k c.
Proof. intros Hc. unfold withValidHandle. rewrite Hc. reflexivity. Qed.

(** C8, as the code has it. On a handle that is not in the connection map
    every handle-taking operation logs the handle, returns its typed
    default and leaves the map alone. On a known handle the map is left
    alone as well; [createDisplayEventConnection], [onHotplugReceived],
    [onScreenAcquired], [onScreenReleased], [onConfigChanged], [dump] and
    [setPhaseOffset] call the handle's event thread, while
    [getEventThread] and [getEventConnection] call nothing and return the
    stored thread and the stored connection. *)
Theorem handle_operations (handle : N) (op : HandleOp) (s : Scheduler.t) :
  let r := runHandleOp handle op s in
  (mConnections s !! handle = None ->
     fst r = match op with
             | OpCreateDisplayEventConnection _ _ | OpGetEventConnection =>
                 ResConnection None
             | OpGetEventThread => ResThread None
             | OpDump result _ => ResDump result
             | _ => ResVoid
             end /\
     mConnections (snd r) = mConnections s /\
     calls (snd r) = calls s ++ [Log_invalidHandle handle]) /\
  (forall c, mConnections s !! handle = Some c ->
     mConnections (snd r) = mConnections s /\
     match op with
     | OpCreateDisplayEventConnection cc created =>
         fst r = ResConnection (Some created) /\
         calls (snd r) = calls s ++
           [EventThread_call (thread c) (ET_createEventConnection cc)]
     | OpGetEventThread =>
         fst r = ResThread (Some (thread c)) /\ snd r = s
     | OpGetEventConnection =>
         fst r = ResConnection (Some (connection c)) /\ snd r = s
     | OpOnHotplugReceived d connected =>
         fst r = ResVoid /\
         calls (snd r) = calls s ++
           [EventThread_call (thread c) (ET_onHotplugReceived d connected)]
     | OpOnScreenAcquired =>
         fst r = ResVoid /\
         calls (snd r) = calls s ++ [EventThread_call (thread c) ET_onScreenAcquired]
     | OpOnScreenReleased =>
         fst r = ResVoid /\
         calls (snd r) = calls s ++ [EventThread_call (thread c) ET_onScreenReleased]
     | OpOnConfigChanged d configId =>
         fst r = ResVoid /\
         calls (snd r) = calls s ++
           [EventThread_call (thread c) (ET_onConfigChanged d configId)]
     | OpDump result written =>
         fst r = ResDump (result ++ written)%string /\
         calls (snd r) = calls s ++ [EventThread_call (thread c) ET_dump]
     | OpSetPhaseOffset p =>
         fst r = ResVoid /\
         calls (snd r) = calls s ++
           [EventThread_call (thread c) (ET_setPhaseOffset p)]
     end).
Proof.
  cbv zeta. split.
  - intros Hn.
    destruct op; simpl;
      unfold createDisplayEventConnection, getEventThread, getEventConnection,
        onHotplugReceived, onScreenAcquired, onScreenReleased, onConfigChanged,
        dump, setPhaseOffset;
      rewrite (withValidHandle_invalid _ _ _ _ Hn); simpl; auto.
  - intros c Hc.
    destruct op; simpl;
      unfold createDisplayEventConnection, getEventThread, getEventConnection,
        onHotplugReceived, onScreenAcquired, onScreenReleased, onConfigChanged,
        dump, setPhaseOffset;
      rewrite (withValidHandle_valid _ _ _ _ _ Hc); simpl; auto.
Qed.

End RegistryFacts.

(** Witness of C8 on the sample scheduler with one connection: handle 0 is
    known and [setPhaseOffset] reaches thread 3; handle 9 is unknown and
    [getEventThread] returns null. *)
Lemma handle_operations_witness :
  Scheduler.calls (snd (Scheduler.setPhaseOffset 0 1000 Samples.schedulerConnected))
  = Scheduler.calls Samples.schedulerConnected ++
    [Scheduler.EventThread_call 3%positive (Scheduler.ET_setPhaseOffset 1000)] /\
  fst (Scheduler.getEventThread 9 Samples.schedulerConnected) = None.
Proof.
  split.
  - pose proof (handle_operations 0 (Scheduler.OpSetPhaseOffset 1000)
                  Samples.schedulerConnected) as W.
    cbv zeta in W. destruct W as [_ W].
    destruct (W {| Scheduler.connection := 5%positive;
                   Scheduler.thread := 3%positive |}) as (_ & _ & Hcalls).
    + vm_compute. reflexivity.
    + exact Hcalls.
  - pose proof (handle_operations 9 Scheduler.OpGetEventThread
                  Samples.schedulerConnected) as W.
    cbv zeta in W. destruct W as [W _].
    destruct W as (Hres & _).
    + vm_compute. reflexivity.
    + simpl in Hres. congruence.
Defined.

(** C8 as stated fails for the accessors: on the known handle 0
    [getEventConnection] and [getEventThread] hand back what the map stores
    and make no call on the event thread. *)
Lemma accessors_forwarded_counterexample :
  let s := Samples.schedulerConnected in
  Scheduler.mConnections s !! 0%N
    = Some {| Scheduler.connection := 5%positive; Scheduler.thread := 3%positive |} /\
  Scheduler.getEventConnection 0 s = (Some 5%positive, s) /\
  Scheduler.getEventThread 0 s = (Some 3%positive, s) /\
  ~ (exists c, Scheduler.calls (snd (Scheduler.getEventConnection 0 s))
               = Scheduler.calls s ++ [Scheduler.EventThread_call 3%positive c]) /\
  ~ (exists c, Scheduler.calls (snd (Scheduler.getEventThread 0 s))
               = Scheduler.calls s ++ [Scheduler.EventThread_call 3%positive c]).
Proof.
  cbv zeta.
  assert (H0 : Scheduler.mConnections Samples.schedulerConnected !! 0%N
               = Some {| Scheduler.connection := 5%positive;
                         Scheduler.thread := 3%positive |})
    by (vm_compute; reflexivity).
  assert (Hc : Scheduler.getEventConnection 0 Samples.schedulerConnected
               = (Some 5%positive, Samples.schedulerConnected)).
  { unfold Scheduler.getEventConnection, Scheduler.withValidHandle.
    rewrite H0. reflexivity. }
  assert (Ht : Scheduler.getEventThread 0 Samples.schedulerConnected
               = (Some 3%positive, Samples.schedulerConnected)).
  { unfold Scheduler.getEventThread, Scheduler.withValidHandle.
    rewrite H0. reflexivity. }
  repeat split; try assumption.
  - rewrite Hc. simpl. intros [c Hcalls].
    vm_compute in Hcalls. discriminate.
  - rewrite Ht. simpl. intros [c Hcalls].
    vm_compute in Hcalls. discriminate.
Qed.

(** ** Feature events: timers and content updates together *)

Section FeatureEventFacts.
Import RefreshRateConfigs Scheduler.

Lemma calculateRefreshRateType_set_refreshRateType ty (s : Scheduler.t) :
  calculateRefreshRateType (editFeatures (set_refreshRateType ty) s)
  = calculateRefreshRateType s.
Proof. reflexivity. Qed.

Lemma calculateRefreshRateType_changeRefreshRate ty ev (s : Scheduler.t) :
  calculateRefreshRateType (changeRefreshRate ty ev s) = calculateRefreshRateType s.
Proof. unfold changeRefreshRate. destruct (mChangeRefreshRateCallback s); reflexivity. Qed.

Lemma callbackTypes_app (l1 l2 : list Call) :
  callbackTypes (l1 ++ l2) = callbackTypes l1 ++ callbackTypes l2.
Proof. unfold callbackTypes. apply flat_map_app. Qed.

(** The tail shared by the timer handler and the content update: recompute
    the type and report it if it differs from the stored one. *)
Lemma recompute_shape (s1 s' : Scheduler.t) (ev : ConfigEvent.t) :
  match calculateRefreshRateType s1 with
  | None => None
  | Some ty =>
      if RefreshRateType_eqb (refreshRateType (mFeatures s1)) ty then Some s1
      else Some (changeRefreshRate ty ev (editFeatures (set_refreshRateType ty) s1))
  end = Some s' ->
  (s' = s1 /\ calculateRefreshRateType s1 = Some (refreshRateType (mFeatures s1))) \/
  (exists ty, ty <> refreshRateType (mFeatures s1) /\
     calculateRefreshRateType s1 = Some ty /\
     s' = changeRefreshRate ty ev (editFeatures (set_refreshRateType ty) s1)).
Proof.
  destruct (calculateRefreshRateType s1) as [ty|]; [|discriminate].
  destruct (RefreshRateType_eqb (refreshRateType (mFeatures s1)) ty) eqn:E;
    intros Heq; inversion Heq; subst.
  - left. split; [reflexivity|]. apply RefreshRateType_eqb_eq in E. congruence.
  - right. exists ty. repeat split.
    intros ->. rewrite (proj2 (RefreshRateType_eqb_eq _ _) eq_refl) in E. discriminate.
Qed.

(** Every feature event either leaves the scheduler alone, or updates the
    features without touching the stored type and then runs the shared
    tail; content updates report with event Changed. *)
Lemma runFeatureEvent_split (s s' : Scheduler.t) (e : FeatureEvent) :
  runFeatureEvent s e = Some s' ->
  s' = s \/
  exists g ev,
    (forall f, refreshRateType (g f) = refreshRateType f) /\
    ((forall f, contentDetection (g f) = contentDetection f /\
                contentRefreshRate (g f) = contentRefreshRate f) \/
     (forall f, contentDetection (g f) = On <-> (0 < contentRefreshRate (g f))%N)) /\
    (match e with EvContent _ _ => ev = ConfigEvent.Changed | _ => True end) /\
    match calculateRefreshRateType (editFeatures g s) with
    | None => None
    | Some ty =>
        if RefreshRateType_eqb (refreshRateType (mFeatures (editFeatures g s))) ty
        then Some (editFeatures g s)
        else Some (changeRefreshRate ty ev
                     (editFeatures (set_refreshRateType ty) (editFeatures g s)))
    end = Some s'.
Proof.
  destruct e as [k state | rate hdr]; simpl.
  - destruct k; simpl;
      unfold idleTimerCallback, touchTimerCallback, displayPowerTimerCallback,
        handleTimerStateChanged;
      match goal with
      | |- context [sameState ?fld ?a ?b] => destruct (sameState fld a b)
      end;
      intros Heq;
      try (left; inversion Heq; reflexivity);
      right.
    + exists (set_idleTimer state), ConfigEvent.None.
      split; [reflexivity|]. split; [left; split; reflexivity|].
      split; [exact I|]. exact Heq.
    + eexists (set_touch _), _.
      split; [reflexivity|]. split; [left; split; reflexivity|].
      split; [exact I|]. exact Heq.
    + eexists (set_displayPowerTimer state), _.
      split; [reflexivity|]. split; [left; split; reflexivity|].
      split; [exact I|]. exact Heq.
  - unfold updateFpsBasedOnContent.
    destruct (Float32.to_uint32 (Float32.round rate)) as [r|]; [|discriminate].
    destruct (_ && _); intros Heq.
    + left. inversion Heq. reflexivity.
    + right. eexists (set_content r hdr _), ConfigEvent.Changed.
      split; [reflexivity|]. split; [|split; [reflexivity|exact Heq]].
      right. intros f. simpl. destruct (0 <? r)%N eqn:E.
      * apply N.ltb_lt in E. tauto.
      * apply N.ltb_ge in E. split; [discriminate|lia].
Qed.

(** What a feature event can do to the stored type and to the log. *)
Lemma runFeatureEvent_effect (s s' : Scheduler.t) (e : FeatureEvent) :
  runFeatureEvent s e = Some s' ->
  mRefreshRateConfigs s' = mRefreshRateConfigs s /\
  mForceHDRContentToDefaultRefreshRate s' = mForceHDRContentToDefaultRefreshRate s /\
  mChangeRefreshRateCallback s' = mChangeRefreshRateCallback s /\
  (s' = s \/
   calculateRefreshRateType s' = Some (refreshRateType (mFeatures s'))) /\
  ((refreshRateType (mFeatures s') = refreshRateType (mFeatures s) /\
    calls s' = calls s) \/
   (refreshRateType (mFeatures s') <> refreshRateType (mFeatures s) /\
    calculateRefreshRateType s' = Some (refreshRateType (mFeatures s')) /\
    exists ev,
      (match e with EvContent _ _ => ev = ConfigEvent.Changed | _ => True end) /\
      calls s' = calls s ++
        (if mChangeRefreshRateCallback s
         then [Callback_changeRefreshRate (refreshRateType (mFeatures s')) ev]
         else []))).
Proof.
  intros Hrun. apply runFeatureEvent_split in Hrun.
  destruct Hrun as [-> | (g & ev & Hg & _ & Hev & Htail)].
  - repeat split; auto.
  - apply recompute_shape in Htail.
    destruct Htail as [[-> Hcalc] | (ty & Hne & Hcalc & ->)].
    + repeat split; auto. left. split; [|reflexivity]. simpl. apply Hg.
    + rewrite calculateRefreshRateType_changeRefreshRate,
        calculateRefreshRateType_set_refreshRateType.
      rewrite changeRefreshRate_features, changeRefreshRate_calls.
      unfold changeRefreshRate.
      destruct (mChangeRefreshRateCallback s) eqn:Ecb; simpl; rewrite ?Ecb;
        simpl in Hne; rewrite Hg in Hne;
        (repeat split; auto;
         right; repeat split; auto; exists ev; split; [exact Hev|reflexivity]).
Qed.

Lemma runFeatureEvent_content (s s' : Scheduler.t) (e : FeatureEvent) :
  runFeatureEvent s e = Some s' ->
  (contentDetection (mFeatures s') = contentDetection (mFeatures s) /\
   contentRefreshRate (mFeatures s') = contentRefreshRate (mFeatures s)) \/
  (contentDetection (mFeatures s') = On <->
   (0 < contentRefreshRate (mFeatures s'))%N).
Proof.
  intros Hrun. apply runFeatureEvent_split in Hrun.
  destruct Hrun as [-> | (g & ev & _ & Hc & _ & Htail)]; [left; auto|].
  apply recompute_shape in Htail.
  destruct Htail as [[-> _] | (ty & _ & _ & ->)];
    rewrite ?changeRefreshRate_features; simpl;
    (destruct Hc as [Hc | Hc]; [left; apply Hc | right; apply Hc]).
Qed.

(** X1. Across any sequence of timer and content events the stored
    refresh-rate type stays what [calculateRefreshRateType] computes from
    the current features, and a single event that changes the scheduler at
    all leaves it so. *)
Theorem stored_type_stays_current (es : list FeatureEvent) (s s' : Scheduler.t) :
  runFeatureEvents es s = Some s' ->
  (calculateRefreshRateType s = Some (refreshRateType (mFeatures s)) ->
   calculateRefreshRateType s' = Some (refreshRateType (mFeatures s'))) /\
  (forall e s1, runFeatureEvent s e = Some s1 -> s1 <> s ->
     calculateRefreshRateType s1 = Some (refreshRateType (mFeatures s1))).
Proof.
  intros Hrun. split.
  - revert s Hrun. induction es as [|e es IH]; simpl; intros s Hrun Hcur.
    + inversion Hrun; subst. exact Hcur.
    + destruct (runFeatureEvent s e) as [s1|] eqn:E; [|discriminate].
      apply (IH s1 Hrun).
      destruct (runFeatureEvent_effect s s1 e E) as (_ & _ & _ & [-> | H1] & _);
        assumption.
  - intros e s1 E Hne.
    destruct (runFeatureEvent_effect s s1 e E) as (_ & _ & _ & [-> | H1] & _);
      [contradiction | assumption].
Qed.

(** X2. With a callback registered, the types handed to the change
    callback over any sequence of timer and content events form a chain
    that starts from the stored type, never repeats a type twice in a row,
    and ends at the type stored afterwards. *)
Theorem callback_types_never_repeat (es : list FeatureEvent) (s s' : Scheduler.t) :
  mChangeRefreshRateCallback s = true ->
  runFeatureEvents es s = Some s' ->
  exists reported,
    callbackTypes (calls s') = callbackTypes (calls s) ++ reported /\
    adjacentDistinct (refreshRateType (mFeatures s) :: reported) /\
    last (refreshRateType (mFeatures s) :: reported)
    = Some (refreshRateType (mFeatures s')).
Proof.
  revert s. induction es as [|e es IH]; simpl; intros s Hcb Hrun.
  - inversion Hrun; subst. exists []. rewrite app_nil_r. simpl. auto.
  - destruct (runFeatureEvent s e) as [s1|] eqn:E; [|discriminate].
    destruct (runFeatureEvent_effect s s1 e E) as (_ & _ & Hcb1 & _ & Heff).
    rewrite Hcb in Hcb1.
    destruct (IH s1 Hcb1 Hrun) as (rep & Hlog & Hadj & Hlast).
    destruct Heff as [[Hty Hcalls] | (Hne & _ & ev & _ & Hcalls)].
    + exists rep. rewrite Hlog, Hcalls, <- Hty. auto.
    + exists (refreshRateType (mFeatures s1) :: rep).
      rewrite Hcb in Hcalls. rewrite Hlog, Hcalls.
      rewrite callbackTypes_app. simpl.
      rewrite <- app_assoc. simpl. split; [reflexivity|]. split.
      * split; [congruence | exact Hadj].
      * exact Hlast.
Qed.

(** X3. When refresh-rate switching is unsupported and the stored type is
    DEFAULT, no sequence of timer and content events changes the stored
    type or invokes the change callback. *)
Theorem unsupported_switching_never_reports (es : list FeatureEvent)
    (s s' : Scheduler.t) :
  refreshRateSwitchingSupported (mRefreshRateConfigs s) = false ->
  refreshRateType (mFeatures s) = DEFAULT ->
  runFeatureEvents es s = Some s' ->
  refreshRateType (mFeatures s') = DEFAULT /\ calls s' = calls s.
Proof.
  revert s. induction es as [|e es IH]; simpl; intros s Hsw Hty Hrun.
  - inversion Hrun; subst. auto.
  - destruct (runFeatureEvent s e) as [s1|] eqn:E; [|discriminate].
    destruct (runFeatureEvent_effect s s1 e E) as (Hcfg & _ & _ & _ & Heff).
    assert (Hsw1 : refreshRateSwitchingSupported (mRefreshRateConfigs s1) = false)
      by (rewrite Hcfg; exact Hsw).
    destruct Heff as [[Hty1 Hcalls] | (Hne & Hcalc & _)].
    + rewrite Hty in Hty1. destruct (IH s1 Hsw1 Hty1 Hrun) as [H1 H2].
      split; [exact H1 | congruence].
    + exfalso. apply Hne. unfold calculateRefreshRateType in Hcalc.
      rewrite Hsw1 in Hcalc. simpl in Hcalc. congruence.
Qed.

(** X4. Content detection is On exactly when the content refresh rate is
    positive: every sequence of timer and content events keeps this, and a
    content update that changes the features establishes it. *)
Theorem content_detection_tracks_rate (es : list FeatureEvent) (s s' : Scheduler.t) :
  runFeatureEvents es s = Some s' ->
  ((contentDetection (mFeatures s) = On <-> (0 < contentRefreshRate (mFeatures s))%N) ->
   (contentDetection (mFeatures s') = On <-> (0 < contentRefreshRate (mFeatures s'))%N)) /\
  (forall refreshRate isHDR s1,
     updateFpsBasedOnContent refreshRate isHDR s = Some s1 -> s1 <> s ->
     (contentDetection (mFeatures s1) = On <->
      (0 < contentRefreshRate (mFeatures s1))%N)).
Proof.
  intros Hrun. split.
  - revert s Hrun. induction es as [|e es IH]; simpl; intros s Hrun Hinv.
    + inversion Hrun; subst. exact Hinv.
    + destruct (runFeatureEvent s e) as [s1|] eqn:E; [|discriminate].
      apply (IH s1 Hrun).
      destruct (runFeatureEvent_content s s1 e E) as [[Hd Hr] | H1];
        [rewrite Hd, Hr; exact Hinv | exact H1].
  - intros rate hdr s1 E Hne. unfold updateFpsBasedOnContent in E.
    destruct (Float32.to_uint32 (Float32.round rate)) as [r|]; [|discriminate].
    destruct (_ && _); [inversion E; subst; contradiction|].
    apply recompute_shape in E.
    assert (Hg : (if (0 <? r)%N then On else Off) = On <-> (0 < r)%N).
    { destruct (0 <? r)%N eqn:E0.
      - apply N.ltb_lt in E0. tauto.
      - apply N.ltb_ge in E0. split; [discriminate|lia]. }
    destruct E as [[-> _] | (ty & _ & _ & ->)];
      rewrite ?changeRefreshRate_features; simpl; exact Hg.
Qed.

End FeatureEventFacts.

(** Witness of X1: from a scheduler whose stored type is current, the
    sample events end in a scheduler whose stored type is current. *)
Lemma stored_type_stays_current_witness :
  match Scheduler.runFeatureEvents Samples.events0 Samples.schedulerTouch with
  | Some s' =>
      Scheduler.calculateRefreshRateType s'
      = Some (Scheduler.refreshRateType (Scheduler.mFeatures s'))
  | None => False
  end.
Proof.
  destruct (Scheduler.runFeatureEvents Samples.events0 Samples.schedulerTouch)
    as [s'|] eqn:E.
  - apply (proj1 (stored_type_stays_current Samples.events0
                    Samples.schedulerTouch s' E)).
    vm_compute. reflexivity.
  - vm_compute in E. discriminate.
Defined.

(** Witness of X2: the types reported over the sample events. *)
Lemma callback_types_never_repeat_witness :
  match Scheduler.runFeatureEvents Samples.events0 Samples.schedulerTouch with
  | Some s' =>
      exists reported,
        Scheduler.callbackTypes (Scheduler.calls s')
        = Scheduler.callbackTypes (Scheduler.calls Samples.schedulerTouch)
          ++ reported /\
        adjacentDistinct
          (Scheduler.refreshRateType (Scheduler.mFeatures Samples.schedulerTouch)
           :: reported) /\
        last (Scheduler.refreshRateType (Scheduler.mFeatures Samples.schedulerTouch)
              :: reported)
        = Some (Scheduler.refreshRateType (Scheduler.mFeatures s'))
  | None => False
  end.
Proof.
  destruct (Scheduler.runFeatureEvents Samples.events0 Samples.schedulerTouch)
    as [s'|] eqn:E.
  - apply (callback_types_never_repeat Samples.events0 Samples.schedulerTouch s');
      [reflexivity | exact E].
  - vm_compute in E. discriminate.
Defined.

(** Witness of X3: on the device without switching the sample events
    report nothing. *)
Lemma unsupported_switching_never_reports_witness :
  match Scheduler.runFeatureEvents Samples.events0 Samples.schedulerFixed with
  | Some s' =>
      Scheduler.refreshRateType (Scheduler.mFeatures s') = RefreshRateConfigs.DEFAULT /\
      Scheduler.calls s' = Scheduler.calls Samples.schedulerFixed
  | None => False
  end.
Proof.
  destruct (Scheduler.runFeatureEvents Samples.events0 Samples.schedulerFixed)
    as [s'|] eqn:E.
  - apply (unsupported_switching_never_reports Samples.events0
             Samples.schedulerFixed s'); [reflexivity | reflexivity | exact E].
  - vm_compute in E. discriminate.
Defined.

(** Witness of X4: the sample scheduler has content detection On at
    45 fps; after the sample events it is On with a positive rate. *)
Lemma content_detection_tracks_rate_witness :
  match Scheduler.runFeatureEvents Samples.events0 Samples.scheduler0 with
  | Some s' =>
      Scheduler.contentDetection (Scheduler.mFeatures s') = Scheduler.On <->
      (0 < Scheduler.contentRefreshRate (Scheduler.mFeatures s'))%N
  | None => False
  end.
Proof.
  destruct (Scheduler.runFeatureEvents Samples.events0 Samples.scheduler0)
    as [s'|] eqn:E.
  - apply (proj1 (content_detection_tracks_rate Samples.events0
                    Samples.scheduler0 s' E)).
    simpl. split; reflexivity.
  - vm_compute in E. discriminate.
Defined.

Section FeatureEventTotality.
Import RefreshRateConfigs Scheduler.

Lemma runFeatureEvent_total (s : Scheduler.t) (e : FeatureEvent) :
  getRefreshRateMap (mRefreshRateConfigs s) <> [] ->
  match e with
  | EvContent r _ => Float32.to_uint32 (Float32.round r) <> None
  | EvTimer _ _ => True
  end ->
  exists s', runFeatureEvent s e = Some s'.
Proof.
  intros Hmap He.
  assert (Htail : forall g ev,
    exists s',
      match calculateRefreshRateType (editFeatures g s) with
      | None => None
      | Some ty =>
          if RefreshRateType_eqb (refreshRateType (mFeatures (editFeatures g s))) ty
          then Some (editFeatures g s)
          else Some (changeRefreshRate ty ev
                       (editFeatures (set_refreshRateType ty) (editFeatures g s)))
      end = Some s').
  { intros g ev.
    destruct (calculateRefreshRateType_total (editFeatures g s) Hmap) as [ty Hty].
    rewrite Hty. destruct (RefreshRateType_eqb _ _); eauto. }
  destruct e as [k state | rate hdr]; simpl.
  - destruct k; simpl;
      unfold idleTimerCallback, touchTimerCallback, displayPowerTimerCallback,
        handleTimerStateChanged;
      match goal with
      | |- context [sameState ?fld ?a ?b] => destruct (sameState fld a b)
      end; eauto.
    + exact (Htail (set_idleTimer state) ConfigEvent.None).
    + exact (Htail (set_touch (if TimerState_eqb state Reset then Active else Inactive))
               (if true && ContentDetectionState_eqb (contentDetection (mFeatures s)) On
                then ConfigEvent.Changed else ConfigEvent.None)).
    + exact (Htail (set_displayPowerTimer state)
               (if true && ContentDetectionState_eqb (contentDetection (mFeatures s)) On
                then ConfigEvent.Changed else ConfigEvent.None)).
  - unfold updateFpsBasedOnContent.
    destruct (Float32.to_uint32 (Float32.round rate)) as [r|]; [|contradiction].
    destruct (_ && _); [eauto|].
    exact (Htail (set_content r hdr (if (0 <? r)%N then On else Off))
             ConfigEvent.Changed).
Qed.

(** X5. With at least one entry in the rate map, every sequence of timer
    and content events runs to completion, provided each content estimate
    rounds to a value that fits [uint32_t]: the end of the map is never
    dereferenced. *)
Theorem feature_events_complete (es : list FeatureEvent) (s : Scheduler.t) :
  getRefreshRateMap (mRefreshRateConfigs s) <> [] ->
  Forall (fun e => match e with
                   | EvContent r _ => Float32.to_uint32 (Float32.round r) <> None
                   | EvTimer _ _ => True
                   end) es ->
  exists s', runFeatureEvents es s = Some s'.
Proof.
  revert s. induction es as [|e es IH]; simpl; intros s Hmap Hes; [eauto|].
  inversion Hes as [|? ? He Hrest]; subst.
  destruct (runFeatureEvent_total s e Hmap He) as [s1 E]. rewrite E.
  apply IH; [|exact Hrest].
  destruct (runFeatureEvent_effect s s1 e E) as (Hcfg & _). rewrite Hcfg. exact Hmap.
Qed.

(** X6. A content update is idempotent: applying the same estimate again
    right after a completed update changes nothing and reports nothing. *)
Theorem content_update_idempotent (refreshRate : Float32.float) (isHDR : bool)
    (s s' : Scheduler.t) :
  updateFpsBasedOnContent refreshRate isHDR s = Some s' ->
  updateFpsBasedOnContent refreshRate isHDR s' = Some s'.
Proof.
  unfold updateFpsBasedOnContent.
  destruct (Float32.to_uint32 (Float32.round refreshRate)) as [r|]; [|discriminate].
  destruct ((contentRefreshRate (mFeatures s) =? r)%N &&
            Bool.eqb (isHDRContent (mFeatures s)) isHDR) eqn:E0; intros E.
  - inversion E; subst. rewrite E0. reflexivity.
  - apply recompute_shape in E.
    assert (Hsame : forall s2 : Scheduler.t,
              contentRefreshRate (mFeatures s2) = r ->
              isHDRContent (mFeatures s2) = isHDR ->
              (if (contentRefreshRate (mFeatures s2) =? r)%N &&
                  Bool.eqb (isHDRContent (mFeatures s2)) isHDR
               then Some s2
               else match calculateRefreshRateType
                            (editFeatures
                               (set_content r isHDR
                                  (if (0 <? r)%N then On else Off)) s2) with
                    | None => None
                    | Some ty =>
                        if RefreshRateType_eqb
                             (refreshRateType
                                (mFeatures
                                   (editFeatures
                                      (set_content r isHDR
                                         (if (0 <? r)%N then On else Off)) s2))) ty
                        then Some (editFeatures
                                     (set_content r isHDR
                                        (if (0 <? r)%N then On else Off)) s2)
                        else Some (changeRefreshRate ty ConfigEvent.Changed
                                     (editFeatures (set_refreshRateType ty)
                                        (editFeatures
                                           (set_content r isHDR
                                              (if (0 <? r)%N then On else Off)) s2)))
                    end) = Some s2).
    { intros s2 Hr Hh. rewrite Hr, Hh, N.eqb_refl, eqb_reflx. reflexivity. }
    destruct E as [[-> _] | (ty & _ & _ & ->)]; apply Hsame;
      rewrite ?changeRefreshRate_features; reflexivity.
Qed.

End FeatureEventTotality.

(** Witness of X5: the sample events run to completion on the sample
    scheduler. *)
Lemma feature_events_complete_witness :
  exists s', Scheduler.runFeatureEvents Samples.events0 Samples.scheduler0 = Some s'.
Proof.
  apply (feature_events_complete Samples.events0 Samples.scheduler0).
  - vm_compute. discriminate.
  - repeat constructor; vm_compute; discriminate.
Defined.

(** Witness of X6: a 60 fps estimate applied twice to the sample
    scheduler. *)
Lemma content_update_idempotent_witness :
  match Scheduler.updateFpsBasedOnContent (Float32.of_uint 60) false
          Samples.scheduler0 with
  | Some s' =>
      Scheduler.updateFpsBasedOnContent (Float32.of_uint 60) false s' = Some s'
  | None => False
  end.
Proof.
  destruct (Scheduler.updateFpsBasedOnContent (Float32.of_uint 60) false
              Samples.scheduler0) as [s'|] eqn:E.
  - exact (content_update_idempotent (Float32.of_uint 60) false
             Samples.scheduler0 s' E).
  - vm_compute in E. discriminate.
Defined.

(** ** Hardware vsync requests *)

Section VsyncRequestFacts.
Import RefreshRateConfigs Scheduler.

Lemma vsyncRequests_app (l1 l2 : list Call) :
  vsyncRequests (l1 ++ l2) = vsyncRequests l1 ++ vsyncRequests l2.
Proof. unfold vsyncRequests. apply flat_map_app. Qed.

Lemma resyncBrackets_app (l1 l2 : list Call) :
  resyncBrackets (l1 ++ l2) = resyncBrackets l1 ++ resyncBrackets l2.
Proof. unfold resyncBrackets. apply flat_map_app. Qed.

Ltac log_simpl :=
  cbn; repeat rewrite vsyncRequests_app; repeat rewrite resyncBrackets_app;
  cbn; repeat rewrite app_nil_r; repeat rewrite <- app_assoc; cbn.

Lemma enableHardwareVsync_requests (s : Scheduler.t) :
  let s' := enableHardwareVsync s in
  let flip := if Bool.eqb (mPrimaryHWVsyncEnabled s) (mPrimaryHWVsyncEnabled s')
              then [] else [mPrimaryHWVsyncEnabled s'] in
  vsyncRequests (calls s') = vsyncRequests (calls s) ++ flip /\
  resyncBrackets (calls s') = resyncBrackets (calls s) ++ flip.
Proof.
  destruct s as [cfg force f cb en av last conns next log].
  unfold enableHardwareVsync. destruct en, av; log_simpl; auto.
Qed.

Lemma disableHardwareVsync_requests (mu : bool) (s : Scheduler.t) :
  let s' := disableHardwareVsync mu s in
  let flip := if Bool.eqb (mPrimaryHWVsyncEnabled s) (mPrimaryHWVsyncEnabled s')
              then [] else [mPrimaryHWVsyncEnabled s'] in
  vsyncRequests (calls s') = vsyncRequests (calls s) ++ flip /\
  resyncBrackets (calls s') = resyncBrackets (calls s) ++ flip.
Proof.
  destruct s as [cfg force f cb en av last conns next log].
  unfold disableHardwareVsync. destruct en, mu; log_simpl; auto.
Qed.

Lemma resyncToHardwareVsync_toggles (ma : bool) (p : nsecs_t) (s : Scheduler.t) :
  let s' := resyncToHardwareVsync ma p s in
  let flip := if Bool.eqb (mPrimaryHWVsyncEnabled s) (mPrimaryHWVsyncEnabled s')
              then [] else [mPrimaryHWVsyncEnabled s'] in
  vsyncRequests (calls s') = vsyncRequests (calls s) ++ flip /\
  resyncBrackets (calls s') = resyncBrackets (calls s) ++ flip.
Proof.
  destruct s as [cfg force f cb en av last conns next log].
  unfold resyncToHardwareVsync, setVsyncPeriod.
  destruct ma, (p <=? 0), av, en; log_simpl; auto.
Qed.

(** Each of the six operations tells the event-control thread, and brackets
    a DispSync resync, exactly when it flips the enabled flag. *)
Lemma runVsyncOp_requests (s : Scheduler.t) (op : VsyncOp) :
  let s' := runVsyncOp s op in
  let flip := if Bool.eqb (mPrimaryHWVsyncEnabled s) (mPrimaryHWVsyncEnabled s')
              then [] else [mPrimaryHWVsyncEnabled s'] in
  vsyncRequests (calls s') = vsyncRequests (calls s) ++ flip /\
  resyncBrackets (calls s') = resyncBrackets (calls s) ++ flip.
Proof.
  destruct op as [|mu|ma p|now p|ts needs flushed|fence needs]; simpl.
  - apply enableHardwareVsync_requests.
  - apply disableHardwareVsync_requests.
  - apply resyncToHardwareVsync_toggles.
  - unfold resync. destruct (wrap64 _ >? _).
    + apply (resyncToHardwareVsync_toggles false p (set_mLastResyncTime now s)).
    + simpl. rewrite eqb_reflx, !app_nil_r. auto.
  - destruct s as [cfg force f cb en av last conns next log].
    unfold addResyncSample, enableHardwareVsync, disableHardwareVsync.
    destruct en, needs, av; log_simpl; auto.
  - destruct s as [cfg force f cb en av last conns next log].
    unfold addPresentFence, enableHardwareVsync, disableHardwareVsync.
    destruct en, needs, av; log_simpl; auto.
Qed.

(** X7. Over any sequence of the hardware-vsync operations, the values
    passed to [EventControlThread::setVsyncEnabled] form a chain that starts
    from the enabled flag, alternates, and ends at the flag's final value;
    DispSync's [beginResync]/[endResync] calls follow the same chain. So the
    thread is told exactly when the flag flips, never twice the same. *)
Theorem vsync_requests_mirror_flag (ops : list VsyncOp) (s : Scheduler.t) :
  exists flips,
    vsyncRequests (calls (runVsyncOps ops s)) = vsyncRequests (calls s) ++ flips /\
    resyncBrackets (calls (runVsyncOps ops s)) = resyncBrackets (calls s) ++ flips /\
    adjacentDistinct (mPrimaryHWVsyncEnabled s :: flips) /\
    last (mPrimaryHWVsyncEnabled s :: flips)
    = Some (mPrimaryHWVsyncEnabled (runVsyncOps ops s)).
Proof.
  revert s. induction ops as [|op ops IH]; intros s; simpl.
  - exists []. rewrite !app_nil_r. simpl. auto.
  - destruct (IH (runVsyncOp s op)) as (fl & Hv & Hb & Hadj & Hlast).
    destruct (runVsyncOp_requests s op) as [Hv1 Hb1]. cbv zeta in Hv1, Hb1.
    unfold runVsyncOps in *. rewrite Hv, Hb, Hv1, Hb1.
    destruct (Bool.eqb (mPrimaryHWVsyncEnabled s)
                (mPrimaryHWVsyncEnabled (runVsyncOp s op))) eqn:E.
    + apply eqb_prop in E. exists fl. rewrite !app_nil_r, E. auto.
    + apply eqb_false_iff in E.
      exists (mPrimaryHWVsyncEnabled (runVsyncOp s op) :: fl).
      rewrite <- !app_assoc. simpl. repeat split; auto.
Qed.

(** X8. The kernel idle timer callback only acts on hardware vsync: it
    leaves the feature state and the connections alone and never invokes
    the change callback; it keeps "enabled implies available"; in
    PERFORMANCE mode a reset makes hardware vsync available and, with a
    positive period, enabled; outside PERFORMANCE mode an expiry disables
    it and keeps its availability. *)
Theorem kernelIdleTimerCallback_effect (state : TimerState)
    (current : RefreshRateType) (period : nsecs_t) (s : Scheduler.t) :
  let s' := kernelIdleTimerCallback state current period s in
  mFeatures s' = mFeatures s /\
  mConnections s' = mConnections s /\
  callbackTypes (calls s') = callbackTypes (calls s) /\
  ((mPrimaryHWVsyncEnabled s = true -> mHWVsyncAvailable s = true) ->
   mPrimaryHWVsyncEnabled s' = true -> mHWVsyncAvailable s' = true) /\
  (state = Reset -> current = PERFORMANCE ->
   mHWVsyncAvailable s' = true /\
   mPrimaryHWVsyncEnabled s' = (0 <? period) || mPrimaryHWVsyncEnabled s) /\
  (state = Expired -> current <> PERFORMANCE ->
   mPrimaryHWVsyncEnabled s' = false /\
   mHWVsyncAvailable s' = mHWVsyncAvailable s) /\
  ((state = Reset /\ current <> PERFORMANCE) \/
   (state = Expired /\ current = PERFORMANCE) -> s' = s).
Proof.
  cbv zeta. unfold kernelIdleTimerCallback.
  destruct s as [cfg force f cb en av last conns next log].
  unfold resyncToHardwareVsync, setVsyncPeriod, disableHardwareVsync.
  replace (0 <? period) with (negb (period <=? 0))
    by (destruct (Z.leb_spec period 0), (Z.ltb_spec 0 period); simpl; lia || reflexivity).
  destruct state, current, (period <=? 0), en, av; cbn;
    repeat rewrite callbackTypes_app; cbn; repeat rewrite app_nil_r;
    repeat split; try reflexivity; try congruence;
    try (intros [[? ?]|[? ?]]; congruence); auto.
Qed.

End VsyncRequestFacts.

(** Witness of X8: in PERFORMANCE mode a reset of the kernel idle timer
    enables hardware vsync on the sample scheduler, and outside PERFORMANCE
    mode an expiry disables it again and keeps it available. *)
Lemma kernelIdleTimerCallback_effect_witness :
  let s1 := Scheduler.kernelIdleTimerCallback Scheduler.Reset
              RefreshRateConfigs.PERFORMANCE 11111111 Samples.scheduler0 in
  let s2 := Scheduler.kernelIdleTimerCallback Scheduler.Expired
              RefreshRateConfigs.DEFAULT 16666667 s1 in
  (Scheduler.mHWVsyncAvailable s1 = true /\
   Scheduler.mPrimaryHWVsyncEnabled s1 = true) /\
  (Scheduler.mPrimaryHWVsyncEnabled s2 = false /\
   Scheduler.mHWVsyncAvailable s2 = Scheduler.mHWVsyncAvailable s1) /\
  (Scheduler.mPrimaryHWVsyncEnabled s2 = true -> Scheduler.mHWVsyncAvailable s2 = true).
Proof.
  cbv zeta. split; [|split].
  - apply (proj1 (proj2 (proj2 (proj2 (proj2
             (kernelIdleTimerCallback_effect Scheduler.Reset
                RefreshRateConfigs.PERFORMANCE 11111111 Samples.scheduler0))))));
      reflexivity.
  - apply (proj1 (proj2 (proj2 (proj2 (proj2 (proj2
             (kernelIdleTimerCallback_effect Scheduler.Expired
                RefreshRateConfigs.DEFAULT 16666667
                (Scheduler.kernelIdleTimerCallback Scheduler.Reset
                   RefreshRateConfigs.PERFORMANCE 11111111
                   Samples.scheduler0))))))));
      [reflexivity | discriminate].
  - apply (proj1 (proj2 (proj2 (proj2
             (kernelIdleTimerCallback_effect Scheduler.Expired
                RefreshRateConfigs.DEFAULT 16666667
                (Scheduler.kernelIdleTimerCallback Scheduler.Reset
                   RefreshRateConfigs.PERFORMANCE 11111111
                   Samples.scheduler0)))))).
    vm_compute. reflexivity.
Defined.

(** ** Choosing a rate for detected content *)

Section ContentChoiceFacts.
Import RefreshRateConfigs Scheduler.

Lemma SFltb_asym (x y : spec_float) : SFltb x y = true -> SFltb y x = false.
Proof.
  unfold SFltb, SFcompare.
  destruct x as [sx|sx| |sx mx ex], y as [sy|sy| |sy my ey];
    try destruct sx; try destruct sy; simpl; try congruence.
  - rewrite (Z.compare_antisym ex ey).
    destruct (ex ?= ey)%Z eqn:E; simpl; try congruence.
    pose proof (Pos.compare_antisym mx my) as HA. unfold Pos.compare in HA.
    rewrite HA. destruct (Pos.compare_cont Eq mx my); simpl; congruence.
  - rewrite (Z.compare_antisym ex ey).
    destruct (ex ?= ey)%Z eqn:E; simpl; try congruence.
    pose proof (Pos.compare_antisym mx my) as HA. unfold Pos.compare in HA.
    rewrite HA. destruct (Pos.compare_cont Eq mx my); simpl; congruence.
Qed.

Lemma closer_asym rate e1 e2 : closer rate e1 e2 = true -> closer rate e2 e1 = false.
Proof. unfold closer, Float32.ltb. apply SFltb_asym. Qed.

Lemma closer_irrefl rate e : closer rate e e = false.
Proof.
  destruct (closer rate e e) eqn:E; [|reflexivity].
  pose proof (closer_asym _ _ _ E). congruence.
Qed.

Lemma entries_lookup_find (mp : RefreshRateMap) (i : nat) ty r :
  entries mp !! i = Some (ty, r) -> find mp ty = Some r.
Proof.
  unfold entries, find. destruct mp as [[r1|] [r2|]]; simpl;
    destruct i as [|[|i]]; simpl; intros Heq; inversion Heq; subst; reflexivity.
Qed.

Lemma entries_length (mp : RefreshRateMap) : (length (entries mp) <= 2)%nat.
Proof. unfold entries. destruct mp as [[r1|] [r2|]]; simpl; lia. Qed.

(** The loop returns the type of the first entry within the margin, or the
    type it was given when there is none. *)
Lemma scan_first_match rate rest curr :
  (scan rate rest curr = curr /\
   Forall (fun e => Float32.leb (roundingError
              (Float32.div (Float32.of_uint (fps (snd e))) rate)) MARGIN = false) rest) \/
  (exists before e after,
     rest = before ++ e :: after /\
     Forall (fun e' => Float32.leb (roundingError
              (Float32.div (Float32.of_uint (fps (snd e'))) rate)) MARGIN = false) before /\
     Float32.leb (roundingError
       (Float32.div (Float32.of_uint (fps (snd e))) rate)) MARGIN = true /\
     scan rate rest curr = fst e).
Proof.
  induction rest as [|e rest IH]; simpl.
  - left. split; [reflexivity | constructor].
  - destruct (Float32.leb _ MARGIN) eqn:E.
    + right. exists [], e, rest. repeat split; auto.
    + destruct IH as [[Hs Hall] | (before & e' & after & Hrest & Hall & He' & Hs)].
      * left. split; [exact Hs | constructor; assumption].
      * right. exists (e :: before), e', after.
        repeat split; auto; rewrite Hrest; reflexivity.
Qed.

(** X9. When the choice falls to the detected content rate, the result is
    the type of an entry of the rate map: the closest entry when its ratio
    to the content rate is within the margin of an integer; otherwise the
    first entry at or after the closest whose ratio is within the margin;
    and the closest again when there is none. Entries before the closest
    are never chosen. *)
Theorem content_choice_from_map (s : Scheduler.t) (ty : RefreshRateType) :
  refreshRateSwitchingSupported (mRefreshRateConfigs s) = true ->
  mForceHDRContentToDefaultRefreshRate s && isHDRContent (mFeatures s) = false ->
  isDisplayPowerStateNormal (mFeatures s) = true ->
  displayPowerTimer (mFeatures s) = Expired ->
  touch (mFeatures s) = Inactive ->
  idleTimer (mFeatures s) = Reset ->
  contentDetection (mFeatures s) = On ->
  calculateRefreshRateType s = Some ty ->
  let rate := Float32.of_uint (contentRefreshRate (mFeatures s)) in
  let rateMap := getRefreshRateMap (mRefreshRateConfigs s) in
  let i := min_element (closer rate) rateMap in
  let off (e : RefreshRateType * RefreshRate) :=
    Float32.leb (roundingError
      (Float32.div (Float32.of_uint (fps (snd e))) rate)) MARGIN = false in
  exists closest,
    rateMap !! i = Some closest /\
    ((Float32.gtb (roundingError
        (Float32.div (Float32.of_uint (fps (snd closest))) rate)) MARGIN = false /\
      ty = fst closest) \/
     (Float32.gtb (roundingError
        (Float32.div (Float32.of_uint (fps (snd closest))) rate)) MARGIN = true /\
      ((ty = fst closest /\ Forall off (drop i rateMap)) \/
       (exists before e after,
          drop i rateMap = before ++ e :: after /\
          Forall off before /\ ~ off e /\ ty = fst e)))).
Proof.
  intros Hsw Hhdr Hpow Hdpt Htouch Hidle Hcd Hcalc rate rateMap i off.
  unfold calculateRefreshRateType in Hcalc.
  rewrite Hsw, Hhdr, Hpow, Hdpt, Htouch, Hidle, Hcd in Hcalc. simpl in Hcalc.
  fold rate rateMap i in Hcalc.
  destruct (rateMap !! i) as [[tc rc]|] eqn:Ei; [|discriminate].
  exists (tc, rc). split; [reflexivity|]. simpl in Hcalc |- *.
  unfold getRefreshRateFromType in Hcalc.
  rewrite (entries_lookup_find _ _ _ _ Ei) in Hcalc.
  destruct (Float32.gtb _ MARGIN) eqn:Eg; inversion Hcalc; subst.
  - right. split; [reflexivity|].
    destruct (scan_first_match rate (drop i rateMap) tc)
      as [[Hs Hall] | (before & e & after & Hd & Hall & He & Hs)].
    + left. split; assumption.
    + right. exists before, e, after. repeat split; try assumption.
      unfold off. rewrite He. discriminate.
  - left. split; reflexivity.
Qed.

(** X10. The entry [calculateRefreshRateType] starts from is a closest
    one: no entry of the rate map is strictly closer to the content rate,
    and when both entries are equally close it is the first, DEFAULT. *)
Theorem closest_entry_is_minimal (mp : RefreshRateMap) (rate : Float32.float) :
  let i := min_element (closer rate) (entries mp) in
  (entries mp <> [] -> exists closest, entries mp !! i = Some closest) /\
  (forall closest e j,
     entries mp !! i = Some closest -> entries mp !! j = Some e ->
     closer rate e closest = false) /\
  (forall e0 e1,
     entries mp = [e0; e1] -> closer rate e1 e0 = false -> i = 0%nat).
Proof.
  cbv zeta. unfold entries.
  destruct mp as [[r1|] [r2|]]; simpl; unfold min_element; simpl.
  - destruct (closer rate (PERFORMANCE, r2) (DEFAULT, r1)) eqn:E;
      (split; [eauto|split]).
    + intros c e j Hc He. inversion Hc; subst.
      destruct j as [|[|j]]; simpl in He; inversion He; subst.
      * apply closer_asym. exact E.
      * apply closer_irrefl.
    + intros e0 e1 Heq Hc. inversion Heq; subst. congruence.
    + intros c e j Hc He. inversion Hc; subst.
      destruct j as [|[|j]]; simpl in He; inversion He; subst.
      * apply closer_irrefl.
      * exact E.
    + reflexivity.
  - split; [eauto|split]; [|discriminate].
    intros c e j Hc He. inversion Hc; subst.
    destruct j as [|j]; simpl in He; inversion He; subst.
    apply closer_irrefl.
  - split; [eauto|split]; [|discriminate].
    intros c e j Hc He. inversion Hc; subst.
    destruct j as [|j]; simpl in He; inversion He; subst.
    apply closer_irrefl.
  - split; [contradiction|split]; discriminate.
Qed.

End ContentChoiceFacts.

(** Witness of X9: on the sample scheduler, with content at 45 fps, the
    closest entry is the first one, 60 fps; its ratio 60/45 is off the
    margin, and the choice is an entry at or after it. *)
Lemma content_choice_from_map_witness :
  let s := Samples.scheduler0 in
  let ty := RefreshRateConfigs.PERFORMANCE in
  let rate := Float32.of_uint (Scheduler.contentRefreshRate (Scheduler.mFeatures s)) in
  let rateMap := RefreshRateConfigs.getRefreshRateMap (Scheduler.mRefreshRateConfigs s) in
  let i := min_element (Scheduler.closer rate) rateMap in
  let off (e : RefreshRateConfigs.RefreshRateType * RefreshRateConfigs.RefreshRate) :=
    Float32.leb (Scheduler.roundingError
      (Float32.div (Float32.of_uint (RefreshRateConfigs.fps (snd e))) rate))
      Scheduler.MARGIN = false in
  exists closest,
    rateMap !! i = Some closest /\
    ((Float32.gtb (Scheduler.roundingError
        (Float32.div (Float32.of_uint (RefreshRateConfigs.fps (snd closest))) rate))
        Scheduler.MARGIN = false /\
      ty = fst closest) \/
     (Float32.gtb (Scheduler.roundingError
        (Float32.div (Float32.of_uint (RefreshRateConfigs.fps (snd closest))) rate))
        Scheduler.MARGIN = true /\
      ((ty = fst closest /\ Forall off (drop i rateMap)) \/
       (exists before e after,
          drop i rateMap = before ++ e :: after /\
          Forall off before /\ ~ off e /\ ty = fst e)))).
Proof.
  apply (content_choice_from_map Samples.scheduler0 RefreshRateConfigs.PERFORMANCE);
    reflexivity.
Defined.

(** Witness of X10: content at 75 fps is as far from 60 fps as from
    90 fps, and the search starts from the first entry, 60 fps. *)
Lemma closest_entry_is_minimal_witness :
  min_element (Scheduler.closer (Float32.of_uint 75))
    (RefreshRateConfigs.entries
       (RefreshRateConfigs.mRefreshRateMap Samples.configs6090)) = 0%nat.
Proof.
  apply (proj2 (proj2 (closest_entry_is_minimal
                         (RefreshRateConfigs.mRefreshRateMap Samples.configs6090)
                         (Float32.of_uint 75)))
           (RefreshRateConfigs.DEFAULT, Samples.rate 60 16666667 0)
           (RefreshRateConfigs.PERFORMANCE, Samples.rate 90 11111111 1)).
  - reflexivity.
  - vm_compute. reflexivity.
Defined.

(** ** Creating connections *)

Section CreateConnectionFacts.
Import Scheduler.

Lemma eventThreadCalls_app (l1 l2 : list Call) :
  eventThreadCalls (l1 ++ l2) = eventThreadCalls l1 ++ eventThreadCalls l2.
Proof. unfold eventThreadCalls. apply flat_map_app. Qed.

(** X11. While every handle in the connection map is below the next handle
    id and the id does not wrap, [createConnection] returns a handle that
    was not in use, registers the new thread and its connection under it
    (so [getEventThread] and [getEventConnection] find them), leaves every
    other handle's entry as it was, calls [createEventConnection] once on
    the new thread, and keeps all handles below the next id; a second
    [createConnection] returns a different handle. *)
Theorem createConnection_registers (eventThread : EventThreadPtr)
    (created : EventThreadConnectionPtr) (s : Scheduler.t) :
  (forall h c, mConnections s !! h = Some c -> (h < mNextConnectionHandleId s)%N) ->
  (mNextConnectionHandleId s + 1 < 2 ^ 64)%N ->
  let handle := fst (createConnection eventThread created s) in
  let s' := snd (createConnection eventThread created s) in
  handle = mNextConnectionHandleId s /\
  mConnections s !! handle = None /\
  getEventThread handle s' = (Some eventThread, s') /\
  getEventConnection handle s' = (Some created, s') /\
  (forall h, h <> handle -> mConnections s' !! h = mConnections s !! h) /\
  (forall h c, mConnections s' !! h = Some c -> (h < mNextConnectionHandleId s')%N) /\
  eventThreadCalls (calls s') =
    eventThreadCalls (calls s) ++
    [(eventThread, ET_createEventConnection eConfigChangedSuppress)] /\
  (forall th2 c2, fst (createConnection th2 c2 s') <> handle).
Proof.
  intros Hinv Hwrap handle s'.
  assert (Hfresh : mConnections s !! mNextConnectionHandleId s = None).
  { destruct (mConnections s !! mNextConnectionHandleId s) as [c|] eqn:E;
      [|reflexivity].
    apply Hinv in E. lia. }
  assert (Hconns : mConnections s' =
            <[mNextConnectionHandleId s :=
                {| connection := created; thread := eventThread |}]> (mConnections s)).
  { subst s'. unfold createConnection. simpl. rewrite Hfresh. reflexivity. }
  assert (Hnext : mNextConnectionHandleId s' = (mNextConnectionHandleId s + 1)%N).
  { subst s'. unfold createConnection. simpl. apply N.mod_small. exact Hwrap. }
  assert (Hlook : mConnections s' !! handle
                  = Some {| connection := created; thread := eventThread |}).
  { rewrite Hconns. apply lookup_insert_eq. }
  split; [reflexivity|]. split; [exact Hfresh|].
  split; [unfold getEventThread, withValidHandle; rewrite Hlook; reflexivity|].
  split; [unfold getEventConnection, withValidHandle; rewrite Hlook; reflexivity|].
  split; [|split; [|split]].
  - intros h Hne. rewrite Hconns. apply lookup_insert_ne. auto.
  - intros h c Hc. rewrite Hnext. rewrite Hconns in Hc.
    destruct (decide (h = mNextConnectionHandleId s)) as [->|Hne]; [lia|].
    rewrite lookup_insert_ne in Hc by auto. apply Hinv in Hc. lia.
  - subst s'. unfold createConnection. simpl.
    rewrite eventThreadCalls_app. reflexivity.
  - intros th2 c2.
    change (fst (createConnection th2 c2 s')) with (mNextConnectionHandleId s').
    rewrite Hnext. subst handle. simpl. lia.
Qed.

End CreateConnectionFacts.

(** Witness of X11: a second connection on the sample scheduler gets
    handle 1, is found under it, and leaves handle 0 as it was. *)
Lemma createConnection_registers_witness :
  let r := Scheduler.createConnection 4%positive 6%positive
             Samples.schedulerConnected in
  fst r = 1%N /\
  Scheduler.getEventThread 1 (snd r) = (Some 4%positive, snd r) /\
  Scheduler.getEventConnection 1 (snd r) = (Some 6%positive, snd r) /\
  Scheduler.mConnections (snd r) !! 0%N
  = Scheduler.mConnections Samples.schedulerConnected !! 0%N /\
  fst (Scheduler.createConnection 8%positive 9%positive (snd r)) <> 1%N.
Proof.
  cbv zeta.
  pose proof (createConnection_registers 4%positive 6%positive
                Samples.schedulerConnected) as W.
  destruct W as (Wh & _ & Wt & Wc & Wother & _ & _ & Wnext).
  - intros h c Hc. destruct (decide (h = 0%N)) as [->|Hne]; [reflexivity|].
    assert (Hm : Scheduler.mConnections Samples.schedulerConnected
                 = <[0%N := {| Scheduler.connection := 5%positive;
                               Scheduler.thread := 3%positive |}]> ∅)
      by reflexivity.
    rewrite Hm, lookup_insert_ne in Hc by congruence.
    rewrite lookup_empty in Hc. discriminate.
  - vm_compute. reflexivity.
  - change (fst (Scheduler.createConnection 4%positive 6%positive
                   Samples.schedulerConnected)) with 1%N in *.
    split; [reflexivity|]. split; [exact Wt|]. split; [exact Wc|].
    split; [apply Wother; discriminate | apply Wnext].
Defined.

(** ** More on the display *)

Section DisplayMoreFacts.
Context {L : Type} `{OutputLayerOps L}.
Variable hwc : HWComposer.
Variable env : Collaborators.

(** X12. [disconnect] tells the hardware composer once and is idempotent;
    it touches neither the composition state nor the layers; afterwards
    the guarded operations make no call on the hardware composer:
    [chooseCompositionStrategy] and [presentAndGetFrameFences] add nothing
    to the log and [getSkipColorTransform] is false. *)
Theorem disconnect_once (d : Display.t L) :
  let d' := Display.disconnect d in
  Display.disconnect d' = d' /\
  Display.mId d' = None /\
  Output.calls (Display.base d') =
    Output.calls (Display.base d) ++
    match Display.mId d with
    | Some id => [Hwc_disconnectDisplay id]
    | None => []
    end /\
  Display.getState d' = Display.getState d /\
  Display.getOutputLayersOrderedByZ d' = Display.getOutputLayersOrderedByZ d /\
  Output.calls (Display.base (Display.chooseCompositionStrategy hwc d'))
  = Output.calls (Display.base d') /\
  snd (Display.presentAndGetFrameFences hwc env d') = d' /\
  Display.getSkipColorTransform hwc d' = false.
Proof.
  cbv zeta. unfold Display.disconnect.
  destruct d as [b v [id|]]; simpl.
  - repeat split.
  - rewrite app_nil_r. repeat split.
Qed.

Lemma applyChanges_length changes (d : Display.t L) :
  length (Display.getOutputLayersOrderedByZ (Display.applyChanges changes d))
  = length (Display.getOutputLayersOrderedByZ d).
Proof.
  destruct changes as [c|]; simpl; [|reflexivity].
  unfold Display.applyLayerRequestsToLayers, Display.applyDisplayRequests,
    Display.applyChangedTypesToLayers.
  unfold Display.getOutputLayersOrderedByZ, Output.getOutputLayersOrderedByZ.
  destruct (bool_decide (changedTypes c = ∅)); simpl;
    rewrite ?length_map; reflexivity.
Qed.

(** The three outcomes of [chooseCompositionStrategy]. *)
Lemma chooseCompositionStrategy_cases (d : Display.t L) :
  let d' := Display.chooseCompositionStrategy hwc d in
  (Display.mId d = None /\
   d' = Display.onBase Output.chooseCompositionStrategy d) \/
  (exists id st ch,
     Display.mId d = Some id /\
     getDeviceCompositionChanges hwc id (Display.anyLayersRequireClientComposition d)
       = (st, ch) /\
     st <> NO_ERROR /\
     d' = Display.onBase (Output.call (Log_error st))
            (Display.onBase (Output.call (Hwc_getDeviceCompositionChanges id
                 (Display.anyLayersRequireClientComposition d)))
               (Display.onBase Output.chooseCompositionStrategy d))) \/
  (exists id ch,
     Display.mId d = Some id /\
     getDeviceCompositionChanges hwc id (Display.anyLayersRequireClientComposition d)
       = (NO_ERROR, ch) /\
     let d2 := Display.applyChanges ch
                 (Display.onBase (Output.call (Hwc_getDeviceCompositionChanges id
                      (Display.anyLayersRequireClientComposition d)))
                    (Display.onBase Output.chooseCompositionStrategy d)) in
     d' = Display.onBase (Output.editState (Output.set_uses
            (Display.anyLayersRequireClientComposition d2)
            (negb (Display.allLayersRequireClientComposition d2)))) d2).
Proof.
  cbv zeta. unfold Display.chooseCompositionStrategy. simpl.
  destruct (Display.mId d) as [id|] eqn:Hid; [|left; auto]. right.
  change (Display.anyLayersRequireClientComposition
            (Display.onBase Output.chooseCompositionStrategy d))
    with (Display.anyLayersRequireClientComposition d).
  destruct (getDeviceCompositionChanges hwc id
              (Display.anyLayersRequireClientComposition d)) as [st ch] eqn:Hq.
  destruct (st =? NO_ERROR) eqn:E; simpl.
  - apply Z.eqb_eq in E. subst st. right. exists id, ch. auto.
  - apply Z.eqb_neq in E. left. exists id, st, ch. auto.
Qed.

(** X13. [chooseCompositionStrategy] never adds, removes or reorders
    output-layers and keeps the display's id. It ends with neither client
    nor device composition exactly when the display has an id, the query
    succeeded and there is no output-layer; and it selects device
    composition only after a successful query. *)
Theorem chooseCompositionStrategy_outcomes (d : Display.t L) :
  let d' := Display.chooseCompositionStrategy hwc d in
  let queryOk :=
    exists id, Display.mId d = Some id /\
      fst (getDeviceCompositionChanges hwc id
             (Display.anyLayersRequireClientComposition d)) = NO_ERROR in
  length (Display.getOutputLayersOrderedByZ d')
  = length (Display.getOutputLayersOrderedByZ d) /\
  Display.mId d' = Display.mId d /\
  Display.mIsVirtual d' = Display.mIsVirtual d /\
  ((Output.usesClientComposition (Display.getState d') = false /\
    Output.usesDeviceComposition (Display.getState d') = false) <->
   (queryOk /\ Display.getOutputLayersOrderedByZ d = [])) /\
  (Output.usesDeviceComposition (Display.getState d') = true -> queryOk).
Proof.
  intros d' queryOk.
  destruct (chooseCompositionStrategy_cases d)
    as [[Hid Hd'] | [(id & st & ch & Hid & Hq & Hst & Hd') | (id & ch & Hid & Hq & Hd')]];
    fold d' in Hd'; cbv zeta in Hd'; rewrite Hd'; simpl.
  - do 3 (split; [reflexivity|]). split; [split|discriminate].
    + intros [Hc _]. discriminate.
    + intros [(id & Hid' & _) _]. congruence.
  - do 3 (split; [reflexivity|]). split; [split|discriminate].
    + intros [Hc _]. discriminate.
    + intros [(id' & Hid' & Hok) _].
      rewrite Hid in Hid'. inversion Hid'; subst id'. rewrite Hq in Hok.
      simpl in Hok. contradiction.
  - assert (Hok : queryOk) by (exists id; rewrite Hq; auto).
    assert (Hlen := applyChanges_length ch
              (Display.onBase (Output.call (Hwc_getDeviceCompositionChanges id
                   (Display.anyLayersRequireClientComposition d)))
                 (Display.onBase Output.chooseCompositionStrategy d))).
    rewrite layers_onBase_call in Hlen.
    change (Display.getOutputLayersOrderedByZ
              (Display.onBase Output.chooseCompositionStrategy d))
      with (Display.getOutputLayersOrderedByZ d) in Hlen.
    rewrite layers_onBase_editState.
    split; [exact Hlen|]. split; [rewrite applyChanges_mId; reflexivity|].
    split.
    { destruct ch as [c|]; simpl; [|reflexivity].
      unfold Display.applyChangedTypesToLayers.
      destruct (bool_decide (changedTypes c = ∅)); reflexivity. }
    split; [|auto].
    unfold Display.anyLayersRequireClientComposition,
      Display.allLayersRequireClientComposition.
    set (ls := Display.getOutputLayersOrderedByZ _) in *.
    split.
    + intros [Hany Hall]. split; [exact Hok|].
      apply negb_false_iff in Hall.
      destruct ls as [|l ls']; [|exfalso].
      * simpl in Hlen. symmetry in Hlen. apply length_zero_iff_nil in Hlen. exact Hlen.
      * simpl in Hany, Hall. apply orb_false_elim in Hany.
        apply andb_prop in Hall. destruct Hany, Hall. congruence.
    + intros [_ Hnil]. rewrite Hnil in Hlen. simpl in Hlen.
      apply length_zero_iff_nil in Hlen. rewrite Hlen. simpl. auto.
Qed.

End DisplayMoreFacts.

(** Witness of X13: on the sample display the composer's answer leaves a
    device layer, so the query succeeded; without output-layers a
    successful query ends with neither kind of composition. *)
Lemma chooseCompositionStrategy_outcomes_witness :
  (exists id, Display.mId Samples.display0 = Some id /\
     fst (getDeviceCompositionChanges Samples.hwcOk id
            (Display.anyLayersRequireClientComposition Samples.display0))
     = NO_ERROR) /\
  (Output.usesClientComposition
     (Display.getState
        (Display.chooseCompositionStrategy Samples.hwcOk Samples.displayEmpty))
   = false /\
   Output.usesDeviceComposition
     (Display.getState
        (Display.chooseCompositionStrategy Samples.hwcOk Samples.displayEmpty))
   = false).
Proof.
  split.
  - apply (proj2 (proj2 (proj2 (proj2
             (chooseCompositionStrategy_outcomes Samples.hwcOk Samples.display0))))).
    vm_compute. reflexivity.
  - apply (proj2 (proj1 (proj2 (proj2 (proj2
             (chooseCompositionStrategy_outcomes Samples.hwcOk
                Samples.displayEmpty)))))).
    split; [|reflexivity].
    exists 7%N. split; reflexivity.
Defined.

Section DisplayRequestFacts.
Context {L : Type} `{OutputLayerOps L}.
Variable hwc : HWComposer.
Variable env : Collaborators.

Lemma flip_bit_odd (requests : Z) :
  negb (Z.land (requests mod 2 ^ 32) DisplayRequest_FlipClientTarget =? 0)
  = Z.odd requests.
Proof.
  unfold DisplayRequest_FlipClientTarget.
  rewrite <- (Z.land_ones requests 32) by lia.
  rewrite <- Z.land_assoc.
  change (Z.land (Z.ones 32) 1) with (Z.ones 1).
  rewrite Z.land_ones by lia. change (2 ^ 1) with 2.
  rewrite Zmod_odd. destruct (Z.odd requests); reflexivity.
Qed.

Lemma applyChanges_flip changes (d : Display.t L) :
  Output.flipClientTarget (Display.getState (Display.applyChanges changes d))
  = match changes with
    | Some c => Z.odd (displayRequests c)
    | None => Output.flipClientTarget (Display.getState d)
    end.
Proof.
  destruct changes as [c|]; simpl; [|reflexivity].
  unfold Display.applyChangedTypesToLayers.
  destruct (bool_decide (changedTypes c = ∅)); simpl; apply flip_bit_odd.
Qed.

(** X14. After a successful query, [flipClientTarget] is bit 0 of the
    display requests the composer returned, whatever the other bits are
    (WriteClientTargetToOutput is ignored); when the composer returns no
    changes it keeps its value. *)
Theorem flipClientTarget_is_bit0 (d : Display.t L) (id : DisplayId)
    (changes : option DeviceRequestedChanges) :
  Display.mId d = Some id ->
  getDeviceCompositionChanges hwc id (Display.anyLayersRequireClientComposition d)
    = (NO_ERROR, changes) ->
  Output.flipClientTarget (Display.getState (Display.chooseCompositionStrategy hwc d))
  = match changes with
    | Some c => Z.testbit (displayRequests c) 0
    | None => Output.flipClientTarget (Display.getState d)
    end.
Proof.
  intros Hid Hq.
  rewrite (chooseCompositionStrategy_success hwc d id changes Hid Hq).
  cbv zeta.
  change (Output.flipClientTarget (Display.getState (Display.onBase
            (Output.editState (Output.set_uses ?a ?b)) ?x)))
    with (Output.flipClientTarget (Display.getState x)).
  rewrite applyChanges_flip. destruct changes as [c|]; [|reflexivity].
  symmetry. apply Z.bit0_odd.
Qed.

Lemma Zeqb_sym (a b : Z) : (a =? b) = (b =? a).
Proof. destruct (Z.eqb_spec a b), (Z.eqb_spec b a); congruence. Qed.

Lemma setColorProfile_changed (mode : ColorMode) (ds : Dataspace)
    (ri : RenderIntent) (agnostic : Dataspace) (o : Output.t L) :
  (mode =? Output.colorMode (Output.mState o)) &&
  (ds =? Output.dataspace (Output.mState o)) &&
  (ri =? Output.renderIntent (Output.mState o)) &&
  (getTargetDataspace env mode ds agnostic
     =? Output.targetDataspace (Output.mState o)) = false ->
  Output.setColorProfile env mode ds ri agnostic o =
  Output.dirtyEntireOutput
    (Output.call (RenderSurface_setBufferDataspace ds)
       (Output.editState
          (Output.set_colorProfile mode ds ri
             (getTargetDataspace env mode ds agnostic)) o)).
Proof.
  intros Hne. unfold Output.setColorProfile. cbv zeta.
  rewrite (Zeqb_sym (Output.colorMode _) mode),
    (Zeqb_sym (Output.dataspace _) ds),
    (Zeqb_sym (Output.renderIntent _) ri),
    (Zeqb_sym (Output.targetDataspace _) _), Hne.
  reflexivity.
Qed.

(** X15. [setColorMode] is idempotent: repeating a completed call with the
    same arguments changes nothing and makes no further call. The first
    call on a virtual display changes nothing; on a non-virtual display
    whose colour profile differs it stores the profile, dirties the whole
    output and makes exactly the calls [setBufferDataspace] and
    [setActiveColorMode]. *)
Theorem setColorMode_idempotent (mode : ColorMode) (ds : Dataspace)
    (ri : RenderIntent) (agnostic : Dataspace) (d d' : Display.t L) :
  Display.setColorMode env mode ds ri agnostic d = Some d' ->
  Display.setColorMode env mode ds ri agnostic d' = Some d' /\
  (Display.mIsVirtual d = true -> d' = d) /\
  (d' <> d ->
   exists id, Display.mId d = Some id /\
     Output.colorMode (Display.getState d') = mode /\
     Output.dataspace (Display.getState d') = ds /\
     Output.renderIntent (Display.getState d') = ri /\
     Output.targetDataspace (Display.getState d')
       = getTargetDataspace env mode ds agnostic /\
     Output.dirtyRegion (Display.getState d')
       = [Output.bounds (Display.getState d)] /\
     Output.calls (Display.base d') =
       Output.calls (Display.base d) ++
       [RenderSurface_setBufferDataspace ds; Hwc_setActiveColorMode id mode ri]).
Proof.
  unfold Display.setColorMode. cbv zeta.
  destruct ((mode =? Output.colorMode (Display.getState d)) &&
            (ds =? Output.dataspace (Display.getState d)) &&
            (ri =? Output.renderIntent (Display.getState d)) &&
            (getTargetDataspace env mode ds agnostic
               =? Output.targetDataspace (Display.getState d))) eqn:Esame.
  - intros Heq. inversion Heq; subst d'. rewrite Esame.
    repeat split; auto. intros Hne. contradiction.
  - destruct (Display.mIsVirtual d) eqn:Ev.
    + intros Heq. inversion Heq; subst d'. rewrite Esame, Ev.
      repeat split; auto. intros Hne. contradiction.
    + change (Display.mId (Display.onBase
                (Output.setColorProfile env mode ds ri agnostic) d))
        with (Display.mId d).
      destruct (Display.mId d) as [id|] eqn:Hid; [|discriminate].
      intros Heq. inversion Heq; subst d'. clear Heq.
      unfold Display.onBase. cbn [Display.base Display.mIsVirtual Display.mId].
      rewrite (setColorProfile_changed mode ds ri agnostic (Display.base d) Esame).
      simpl. rewrite !Z.eqb_refl. simpl.
      split; [reflexivity|]. split; [discriminate|].
      intros _. exists id. rewrite <- app_assoc. repeat split.
Qed.

Lemma SFeqb_refl (x : spec_float) : x <> S754_nan -> SFeqb x x = true.
Proof.
  unfold SFeqb, SFcompare. destruct x as [s|s| |s m e]; intros Hn;
    try destruct s; try reflexivity; try contradiction;
    rewrite Z.compare_refl;
    pose proof (Pos.compare_refl m) as HR; unfold Pos.compare in HR;
    rewrite HR; reflexivity.
Qed.

Lemma mat4_eqb_refl (m : mat4) : Forall (fun x => x <> S754_nan) m -> mat4_eqb m m = true.
Proof.
  induction 1 as [|x m Hx _ IH]; simpl; [reflexivity|].
  unfold Float32.eqb. rewrite (SFeqb_refl x Hx). exact IH.
Qed.

Lemma mat4_eqb_nan (a m : mat4) : In S754_nan m -> mat4_eqb a m = false.
Proof.
  revert a. induction m as [|y m IH]; intros a Hin; [contradiction|].
  destruct a as [|x a]; [reflexivity|]. simpl.
  destruct Hin as [-> | Hin].
  - unfold Float32.eqb, SFeqb, SFcompare. destruct x; reflexivity.
  - rewrite (IH a Hin). apply andb_false_r.
Qed.

(** X16. [Output::setColorTransform] with a matrix free of NaN is
    idempotent, and a call that changes the stored matrix dirties the whole
    output. A matrix with a NaN entry never compares equal, so every call
    with it stores it and dirties the whole output again. *)
Theorem setColorTransform_idempotent (m : mat4) (o : Output.t L) :
  let o' := Output.setColorTransform (Some m) o in
  (Forall (fun x => x <> S754_nan) m ->
   Output.setColorTransform (Some m) o' = o') /\
  (o' <> o ->
   Output.colorTransformMatrix (Output.mState o') = m /\
   Output.dirtyRegion (Output.mState o') = [Output.bounds (Output.mState o)]) /\
  (In S754_nan m ->
   Output.colorTransformMatrix (Output.mState o') = m /\
   Output.dirtyRegion (Output.mState o') = [Output.bounds (Output.mState o)]) /\
  Output.setColorTransform None o = o.
Proof.
  cbv zeta. unfold Output.setColorTransform.
  destruct (mat4_eqb (Output.colorTransformMatrix (Output.mState o)) m) eqn:E.
  - split; [intros _; rewrite E; reflexivity|].
    split; [intros Hne; contradiction|].
    split; [|reflexivity].
    intros Hnan. rewrite (mat4_eqb_nan _ _ Hnan) in E. discriminate.
  - split.
    + intros Hfree. simpl. rewrite (mat4_eqb_refl m Hfree). reflexivity.
    + repeat split.
Qed.

End DisplayRequestFacts.

(** Witness of X14: the sample composer returns display requests 1, and
    the flag is set. *)
Lemma flipClientTarget_is_bit0_witness :
  Output.flipClientTarget
    (Display.getState
       (Display.chooseCompositionStrategy Samples.hwcOk Samples.display0))
  = Z.testbit 1 0.
Proof.
  apply (flipClientTarget_is_bit0 Samples.hwcOk Samples.display0 7%N
           (snd (getDeviceCompositionChanges Samples.hwcOk 7%N
                   (Display.anyLayersRequireClientComposition Samples.display0))));
    reflexivity.
Defined.

(** Witness of X15: colour mode 9 with data space 5 and render intent 1
    set twice on the sample display. *)
Lemma setColorMode_idempotent_witness :
  match Display.setColorMode Samples.env0 9 5 1 0 Samples.display0 with
  | Some d' => Display.setColorMode Samples.env0 9 5 1 0 d' = Some d'
  | None => False
  end.
Proof.
  destruct (Display.setColorMode Samples.env0 9 5 1 0 Samples.display0)
    as [d'|] eqn:E.
  - exact (proj1 (setColorMode_idempotent Samples.env0 9 5 1 0
                    Samples.display0 d' E)).
  - vm_compute in E. discriminate.
Defined.

(** Witness of X16: the identity matrix set twice on the sample output. *)
Lemma setColorTransform_idempotent_witness :
  let o' := Output.setColorTransform (Some Samples.identity4)
              (Display.base Samples.display0) in
  Output.setColorTransform (Some Samples.identity4) o' = o'.
Proof.
  cbv zeta.
  apply (proj1 (setColorTransform_idempotent Samples.identity4
                  (Display.base Samples.display0))).
  repeat constructor; discriminate.
Defined.

Section FrameFenceFacts.
Context {L : Type} `{OutputLayerOps L}.
Variable hwc : HWComposer.
Variable env : Collaborators.

(** The loop of [presentAndGetFrameFences] over a list of layers, from any
    fence map and display: it asks for the release fence of each layer that
    has a hardware-composer layer, in order, and adds a fence only for a
    handle the map does not hold yet. *)
Lemma layerFences_loop (id : DisplayId) (ls : list L)
    (acc : gmap HwcLayerPtr Fence) (d : Display.t L) :
  let step (a : gmap HwcLayerPtr Fence * Display.t L) (layer : L) :=
    match getHwcLayer layer with
    | None => a
    | Some hwcLayer =>
        (match fst a !! hwcLayer with
         | Some _ => fst a
         | None => <[hwcLayer := getLayerReleaseFence hwc id hwcLayer]> (fst a)
         end,
         Display.onBase (Output.call (Hwc_getLayerReleaseFence id hwcLayer)) (snd a))
    end in
  let r := fold_left step ls (acc, d) in
  (forall h, fst r !! h =
     match acc !! h with
     | Some f => Some f
     | None => if bool_decide (h ∈ omap getHwcLayer ls)
               then Some (getLayerReleaseFence hwc id h) else None
     end) /\
  Display.getState (snd r) = Display.getState d /\
  Display.getOutputLayersOrderedByZ (snd r) = Display.getOutputLayersOrderedByZ d /\
  Display.mId (snd r) = Display.mId d /\
  Display.mIsVirtual (snd r) = Display.mIsVirtual d /\
  Output.calls (Display.base (snd r)) =
    Output.calls (Display.base d) ++
    map (Hwc_getLayerReleaseFence id) (omap getHwcLayer ls).
Proof.
  cbv zeta. revert acc d. induction ls as [|layer ls IH]; intros acc d.
  - simpl. split.
    + intros h. destruct (acc !! h); reflexivity.
    + rewrite app_nil_r. repeat split.
  - cbn [fold_left].
    change (omap getHwcLayer (layer :: ls))
      with (match getHwcLayer layer with
            | Some y => y :: omap getHwcLayer ls
            | None => omap getHwcLayer ls
            end).
    destruct (getHwcLayer layer) as [hl|] eqn:Eh; cbn [fst snd].
    + match goal with
      | |- context [fold_left ?f ls (?a, ?dd)] =>
          destruct (IH a dd) as (Hm & Hs & Hl & Hi & Hv & Hc)
      end.
      split; [|rewrite Hs, Hl, Hi, Hv, Hc; cbn; rewrite <- app_assoc;
               repeat split].
      intros h. rewrite Hm. clear Hm.
      destruct (acc !! hl) as [f0|] eqn:Ea.
      * destruct (acc !! h) as [f|] eqn:Eah; [reflexivity|].
        assert (Hne : h <> hl) by congruence.
        destruct (bool_decide (h ∈ omap getHwcLayer ls)) eqn:Eb.
        -- apply bool_decide_eq_true_1 in Eb.
           rewrite bool_decide_eq_true_2; [reflexivity | right; exact Eb].
        -- apply bool_decide_eq_false_1 in Eb.
           rewrite bool_decide_eq_false_2; [reflexivity|].
           intros Hin. apply elem_of_cons in Hin. tauto.
      * destruct (decide (h = hl)) as [->|Hne].
        -- rewrite lookup_insert_eq, Ea.
           rewrite bool_decide_eq_true_2; [reflexivity | left].
        -- rewrite lookup_insert_ne by auto.
           destruct (acc !! h) as [f|]; [reflexivity|].
           destruct (bool_decide (h ∈ omap getHwcLayer ls)) eqn:Eb.
           ++ apply bool_decide_eq_true_1 in Eb.
              rewrite bool_decide_eq_true_2; [reflexivity | right; exact Eb].
           ++ apply bool_decide_eq_false_1 in Eb.
              rewrite bool_decide_eq_false_2; [reflexivity|].
              intros Hin. apply elem_of_cons in Hin. tauto.
    + apply IH.
Qed.

(** What [presentAndGetFrameFences] returns and does on a display with an
    id. *)
Lemma presentAndGetFrameFences_shape (d : Display.t L) (id : DisplayId) :
  Display.mId d = Some id ->
  let fences := fst (Display.presentAndGetFrameFences hwc env d) in
  let d' := snd (Display.presentAndGetFrameFences hwc env d) in
  let hwcLayers := omap getHwcLayer (Display.getOutputLayersOrderedByZ d) in
  Output.presentFence fences = getPresentFence hwc id /\
  Output.clientTargetAcquireFence fences =
    (if Output.usesClientComposition (Display.getState d)
     then getClientTargetAcquireFence env else NO_FENCE) /\
  (forall h, Output.layerFences fences !! h =
     if bool_decide (h ∈ hwcLayers)
     then Some (getLayerReleaseFence hwc id h) else None) /\
  Display.getState d' = Display.getState d /\
  Display.getOutputLayersOrderedByZ d' = Display.getOutputLayersOrderedByZ d /\
  Display.mId d' = Display.mId d /\
  Output.calls (Display.base d') =
    Output.calls (Display.base d) ++
    [Hwc_presentAndGetReleaseFences id; Hwc_getPresentFence id] ++
    map (Hwc_getLayerReleaseFence id) hwcLayers ++
    [Hwc_clearReleaseFences id].
Proof.
  intros Hid. cbv zeta. unfold Display.presentAndGetFrameFences. cbv zeta.
  rewrite Hid.
  match goal with
  | |- context [fold_left ?f ?ls (?a, ?dd)] =>
      pose proof (layerFences_loop id ls a dd) as Hloop;
      cbv zeta in Hloop;
      destruct (fold_left f ls (a, dd)) as [fm d3] eqn:Efold
  end.
  simpl in Hloop. destruct Hloop as (Hm & Hs & Hl & Hi & Hv & Hc).
  simpl. split; [reflexivity|]. split; [reflexivity|].
  split; [intros h; rewrite Hm, lookup_empty; reflexivity|].
  split; [exact Hs|]. split; [exact Hl|]. split; [rewrite Hi; exact Hid|].
  rewrite Hc. rewrite <- !app_assoc. reflexivity.
Qed.

(** X17. On a display with an id, [presentAndGetFrameFences] returns the
    composer's present fence, the client-target acquire fence only when
    client composition is in use, and a release fence for exactly the
    hardware-composer layers of the output-layers, each the one the
    composer reports. It changes nothing of the display but the log, where
    the fence queries are bracketed by [presentAndGetReleaseFences] and
    [clearReleaseFences]. *)
Theorem presentAndGetFrameFences_fences (d : Display.t L) (id : DisplayId) :
  Display.mId d = Some id ->
  let fences := fst (Display.presentAndGetFrameFences hwc env d) in
  let d' := snd (Display.presentAndGetFrameFences hwc env d) in
  let hwcLayers := omap getHwcLayer (Display.getOutputLayersOrderedByZ d) in
  Output.presentFence fences = getPresentFence hwc id /\
  Output.clientTargetAcquireFence fences =
    (if Output.usesClientComposition (Display.getState d)
     then getClientTargetAcquireFence env else NO_FENCE) /\
  (forall h, Output.layerFences fences !! h =
     if bool_decide (h ∈ hwcLayers)
     then Some (getLayerReleaseFence hwc id h) else None) /\
  Display.getState d' = Display.getState d /\
  Display.getOutputLayersOrderedByZ d' = Display.getOutputLayersOrderedByZ d /\
  Display.mId d' = Display.mId d /\
  Output.calls (Display.base d') =
    Output.calls (Display.base d) ++
    [Hwc_presentAndGetReleaseFences id; Hwc_getPresentFence id] ++
    map (Hwc_getLayerReleaseFence id) hwcLayers ++
    [Hwc_clearReleaseFences id].
Proof. exact (presentAndGetFrameFences_shape d id). Qed.

End FrameFenceFacts.

(** Witness of X17: the sample display of the frame phases has
    hardware-composer layers 1 and 2 and a layer without one; the composer
    reports present fence 1 and, for each layer, its own handle. *)
Lemma presentAndGetFrameFences_fences_witness :
  let r := Display.presentAndGetFrameFences Samples.hwcFences Samples.envFence
             Samples.displayFrame in
  Output.presentFence (fst r) = Some 1%N /\
  Output.clientTargetAcquireFence (fst r) = Some 100%N /\
  Output.layerFences (fst r) !! 2%positive = Some (Some 2%N) /\
  Output.layerFences (fst r) !! 3%positive = None /\
  Output.calls (Display.base (snd r))
  = [Hwc_presentAndGetReleaseFences 7%N; Hwc_getPresentFence 7%N;
     Hwc_getLayerReleaseFence 7%N 1%positive;
     Hwc_getLayerReleaseFence 7%N 2%positive;
     Hwc_clearReleaseFences 7%N].
Proof.
  cbv zeta.
  pose proof (presentAndGetFrameFences_fences Samples.hwcFences Samples.envFence
                Samples.displayFrame 7%N eq_refl) as W.
  cbv zeta in W. destruct W as (Wp & Wc & Wl & _ & _ & _ & Wlog).
  split; [exact Wp|]. split; [exact Wc|].
  split; [exact (Wl 2%positive)|]. split; [exact (Wl 3%positive)|].
  exact Wlog.
Defined.

(** ** Per-frame phases of the output *)

Section FrameFacts.
Context {L R LS : Type} `{OutputLayerOps L} `{RegionOps R} `{OutputLayerView L R}.

(** X18. [setCompositionEnabled] is idempotent: a second call with the
    same value changes nothing, so the dirty region is what the first call
    left. A call that changes the flag dirties the whole output. *)
Theorem setCompositionEnabled_idempotent (enabled : bool) (o : Output.t L) :
  let o' := Frame.setCompositionEnabled enabled o in
  Frame.setCompositionEnabled enabled o' = o' /\
  Output.isEnabled (Output.mState o') = enabled /\
  (Output.isEnabled (Output.mState o) = enabled -> o' = o) /\
  (Output.isEnabled (Output.mState o) <> enabled ->
   Output.dirtyRegion (Output.mState o') = [Output.bounds (Output.mState o)]).
Proof.
  cbv zeta. unfold Frame.setCompositionEnabled.
  destruct (Bool.eqb (Output.isEnabled (Output.mState o)) enabled) eqn:E.
  - rewrite E. apply eqb_prop in E. repeat split; auto. intros Hne. contradiction.
  - simpl. rewrite eqb_reflx. apply eqb_false_iff in E.
    repeat split; auto. intros Heq. contradiction.
Qed.

(** X19. Frames without output-layers recompose at most once: only if the
    last composition had visible layers, and then on the first frame with a
    non-empty dirty region, after which [lastCompositionHadVisibleLayers]
    is false. In any frame, an empty dirty region means no recomposition,
    and [lastCompositionHadVisibleLayers] turns true only on a frame that
    recomposes with output-layers. *)
Theorem black_frame_once (frames : list (bool * list L)) (last : bool) :
  (Forall (fun fr => snd fr = []) frames ->
   (count_occ Bool.bool_dec (fst (Frame.beginFrames frames last)) true
      <= if last then 1 else 0)%nat /\
   snd (Frame.beginFrames frames last)
   = last && forallb (fun fr => fst fr) frames) /\
  (forall dirtyRegionEmpty (layers : list L),
     let r := Frame.beginFrame dirtyRegionEmpty layers last in
     (dirtyRegionEmpty = true -> r = (false, last)) /\
     (snd r = true -> last = true \/ (fst r = true /\ layers <> [])) /\
     (fst r = true -> snd r = negb (match layers with [] => true | _ => false end))).
Proof.
  split.
  - revert last. induction frames as [|[de ls] frames IH]; intros last Hall.
    + simpl. rewrite andb_true_r. split; [destruct last; lia | reflexivity].
    + inversion Hall as [|? ? Hls Hrest]; subst. simpl in Hls. subst ls.
      cbn [Frame.beginFrames fst snd].
      unfold Frame.beginFrame. cbn [fst snd forallb].
      destruct de, last; cbn [negb andb];
        match goal with
        | |- context [Frame.beginFrames frames ?l] =>
            destruct (IH l Hrest) as [Hc Hs]
        end;
        cbn [count_occ]; rewrite Hs;
        destruct (Bool.bool_dec _ _) as [E|E]; try discriminate E;
        try (exfalso; apply E; reflexivity);
        split; try reflexivity; cbn in Hc |- *; lia.
  - intros de ls. cbv zeta. unfold Frame.beginFrame.
    destruct de, last, ls as [|l ls']; cbn;
      (split; [intros Hd; try reflexivity; discriminate Hd | split]);
      intros Hh; try discriminate Hh; try reflexivity;
      try (left; reflexivity);
      try (right; split; [reflexivity | discriminate]).
Qed.

Lemma getBestDataspace_snoc (layers : list L) (l : L) (c0 : bool) :
  Frame.getBestDataspace (layers ++ [l]) c0
  = Frame.bestDataspaceStep (Frame.getBestDataspace layers c0) l.
Proof. unfold Frame.getBestDataspace. rewrite fold_left_app. reflexivity. Qed.

(** X20. [getBestDataspace] returns V0_SRGB, DISPLAY_P3 or DISPLAY_BT2020,
    and an HDR data space that is BT2020_PQ when some layer is PQ,
    BT2020_HLG when some layer is HLG and none is PQ, and UNKNOWN when no
    layer is either. *)
Theorem getBestDataspace_range (layers : list L) (c0 : bool) :
  let best := fst (fst (Frame.getBestDataspace layers c0)) in
  let hdr := snd (fst (Frame.getBestDataspace layers c0)) in
  let isPQ l := layerDataspace l = ui.BT2020_PQ \/ layerDataspace l = ui.BT2020_ITU_PQ in
  let isHLG l := layerDataspace l = ui.BT2020_HLG \/ layerDataspace l = ui.BT2020_ITU_HLG in
  (best = ui.V0_SRGB \/ best = ui.DISPLAY_P3 \/ best = ui.DISPLAY_BT2020) /\
  (hdr = ui.UNKNOWN \/ hdr = ui.BT2020_HLG \/ hdr = ui.BT2020_PQ) /\
  (hdr = ui.BT2020_PQ <-> exists l, In l layers /\ isPQ l) /\
  (hdr = ui.BT2020_HLG <->
     (exists l, In l layers /\ isHLG l) /\ ~ exists l, In l layers /\ isPQ l) /\
  (hdr = ui.UNKNOWN <->
     ~ (exists l, In l layers /\ isPQ l) /\ ~ (exists l, In l layers /\ isHLG l)).
Proof.
  cbv zeta. induction layers as [|l layers IH] using rev_ind.
  - simpl. split; [auto|]. split; [auto|]. split; [|split].
    + split; [discriminate | intros (l & [] & _)].
    + split; [discriminate | intros [(l & [] & _) _]].
    + split; [|reflexivity]. intros _. split; intros (l & [] & _).
  - rewrite getBestDataspace_snoc.
    destruct (Frame.getBestDataspace layers c0) as [[best hdr] c].
    simpl in IH. destruct IH as (Hb & Hr & Hpq & Hhlg & Hun).
    assert (Hex : forall P : L -> Prop,
              (exists x, In x (layers ++ [l]) /\ P x) <->
              ((exists x, In x layers /\ P x) \/ P l)).
    { intros P. split.
      - intros (x & Hin & Hx). apply in_app_or in Hin.
        destruct Hin as [Hin | [-> | []]]; eauto.
      - intros [(x & Hin & Hx) | Hl].
        + exists x. split; [apply in_or_app; auto | exact Hx].
        + exists l. split; [apply in_or_app; right; left; reflexivity | exact Hl]. }
    rewrite !Hex. clear Hex.
    set (A := exists x, In x layers /\ _) in *.
    set (B := exists x, In x layers /\ _) in *.
    clearbody A B.
    unfold Frame.bestDataspaceStep.
    destruct (layerDataspace l) eqn:El; cbn [fst snd];
      (split; [tauto|]);
      destruct Hr as [-> | [-> | ->]];
      repeat split; intros;
      try tauto; try discriminate; try congruence;
      intuition (try discriminate; try congruence).
Qed.

End FrameFacts.

(** Witness of X18: enabling the enabled sample output changes nothing;
    disabling it dirties the whole output. *)
Lemma setCompositionEnabled_idempotent_witness :
  Frame.setCompositionEnabled true (Display.base Samples.display0)
  = Display.base Samples.display0 /\
  Output.dirtyRegion
    (Output.mState
       (Frame.setCompositionEnabled false (Display.base Samples.display0)))
  = [Output.bounds (Output.mState (Display.base Samples.display0))].
Proof.
  split.
  - apply (proj1 (proj2 (proj2 (setCompositionEnabled_idempotent true
                                  (Display.base Samples.display0))))).
    reflexivity.
  - apply (proj2 (proj2 (proj2 (setCompositionEnabled_idempotent false
                                  (Display.base Samples.display0))))).
    simpl. discriminate.
Defined.

(** Witness of X19: three dirty frames without output-layers after a
    composition with visible layers recompose at most once. *)
Lemma black_frame_once_witness :
  let frames : list (bool * list SimpleLayer) :=
    [(false, []); (false, []); (false, [])] in
  (count_occ Bool.bool_dec (fst (Frame.beginFrames frames true)) true <= 1)%nat /\
  snd (Frame.beginFrames frames true) = false.
Proof.
  cbv zeta.
  apply (proj1 (black_frame_once
                  ([(false, []); (false, []); (false, [])]
                   : list (bool * list SimpleLayer)) true)).
  repeat constructor.
Defined.

(** Witness of X20: an sRGB layer under an HLG layer gives the HDR data
    space BT2020_HLG. *)
Lemma getBestDataspace_range_witness :
  snd (fst (Frame.getBestDataspace [Samples.frameSrgb; Samples.frameHlg] false))
  = ui.BT2020_HLG.
Proof.
  apply (proj2 (proj1 (proj2 (proj2 (proj2
           (getBestDataspace_range [Samples.frameSrgb; Samples.frameHlg] false)))))).
  split.
  - exists Samples.frameHlg. split; [right; left; reflexivity | left; reflexivity].
  - intros (l & [<-|[<-|[]]] & [Hl|Hl]); discriminate Hl.
Defined.

Section FrameMoreFacts.
Context {L R LS : Type} `{OutputLayerOps L} `{RegionOps R} `{OutputLayerView L R}.

Lemma bestDataspace_unlisted_steps (after : list L)
    (acc : ui.Dataspace * ui.Dataspace * bool) :
  Forall (fun l => match layerDataspace l with
                   | ui.UNKNOWN | ui.V0_SRGB | ui.Other _ => True
                   | _ => False
                   end) after ->
  fold_left Frame.bestDataspaceStep after acc = acc.
Proof.
  revert acc. induction after as [|l after IH]; intros acc Hall; [reflexivity|].
  inversion Hall as [|? ? Hl Hrest]; subst. simpl. rewrite <- (IH acc Hrest) at 2.
  f_equal. unfold Frame.bestDataspaceStep. destruct acc as [[b h] c].
  destruct (layerDataspace l); try contradiction; reflexivity.
Qed.

(** X21. The data space [getBestDataspace] returns is decided by the
    topmost output-layer (the last in z-order) whose data space is
    wide-gamut or HDR, alone: it is DISPLAY_BT2020 when that layer is
    scRGB or BT2020 without transfer function, DISPLAY_P3 when it is
    DISPLAY_P3, PQ or HLG, whatever the layers below it are; without such a
    layer it is V0_SRGB. *)
Theorem getBestDataspace_topmost_decides (before after : list L) (l : L)
    (c0 : bool) :
  let unlisted (x : L) :=
    match layerDataspace x with
    | ui.UNKNOWN | ui.V0_SRGB | ui.Other _ => True
    | _ => False
    end in
  Forall unlisted after ->
  (~ unlisted l ->
   fst (fst (Frame.getBestDataspace (before ++ l :: after) c0)) =
   match layerDataspace l with
   | ui.V0_SCRGB | ui.V0_SCRGB_LINEAR | ui.BT2020 | ui.BT2020_ITU
   | ui.BT2020_LINEAR | ui.DISPLAY_BT2020 => ui.DISPLAY_BT2020
   | _ => ui.DISPLAY_P3
   end) /\
  fst (fst (Frame.getBestDataspace after c0)) = ui.V0_SRGB.
Proof.
  intros unlisted Hafter. split.
  - intros Hl. unfold Frame.getBestDataspace.
    rewrite fold_left_app. simpl.
    rewrite (bestDataspace_unlisted_steps after _ Hafter).
    destruct (fold_left Frame.bestDataspaceStep before _) as [[b h] c].
    unfold Frame.bestDataspaceStep. subst unlisted. simpl in Hl.
    destruct (layerDataspace l); try reflexivity; exfalso; apply Hl; exact I.
  - unfold Frame.getBestDataspace.
    rewrite (bestDataspace_unlisted_steps after _ Hafter). reflexivity.
Qed.

(** The loop of [generateClientCompositionRequests] from any state: it
    only appends requests, at most one per layer, and leaves the clear
    region alone when no layer needs client composition. *)
Lemma requestLoop_invariants (fe : @Frame.FrontEnd L R LS) (viewport : R)
    (nf sec prot : bool) (layers : list L) (st : @Frame.RequestLoop R LS) :
  let st' := fold_left (Frame.requestStep fe viewport nf sec prot) layers st in
  (exists added,
     Frame.clientCompositionLayers st' = Frame.clientCompositionLayers st ++ added /\
     (length added <= length layers)%nat /\
     ((forall l, In l layers ->
         requiresClientComposition l = false /\
         layerClearClientTarget l && layerIsOpaque l = false) ->
      added = [])) /\
  ((forall l, In l layers -> requiresClientComposition l = false) ->
   Frame.outClearRegion st' = Frame.outClearRegion st).
Proof.
  cbv zeta. revert st. induction layers as [|l layers IH]; intros st.
  - simpl. split; [|auto]. exists []. rewrite app_nil_r. auto.
  - cbn [fold_left].
    destruct (IH (Frame.requestStep fe viewport nf sec prot st l))
      as [(added & Hadd & Hlen & Hnone) Hclear].
    assert (Hstep :
      exists a1,
        Frame.clientCompositionLayers (Frame.requestStep fe viewport nf sec prot st l)
        = Frame.clientCompositionLayers st ++ a1 /\
        (length a1 <= 1)%nat /\
        (requiresClientComposition l = false ->
         (layerClearClientTarget l && layerIsOpaque l = false -> a1 = []) /\
         Frame.outClearRegion (Frame.requestStep fe viewport nf sec prot st l)
         = Frame.outClearRegion st)).
    { unfold Frame.requestStep.
      destruct (region_isEmpty _).
      - exists []. simpl. rewrite app_nil_r. auto.
      - destruct (requiresClientComposition l) eqn:Ec; cbn [orb].
        + destruct (Frame.prepareClientComposition fe l _) as [[settings|] region];
            simpl.
          * eexists [_]. simpl. repeat split; auto; discriminate.
          * exists []. rewrite app_nil_r. simpl. repeat split; auto; discriminate.
        + destruct (layerClearClientTarget l && layerIsOpaque l) eqn:Eo; cbn [andb].
          * destruct (negb (Frame.firstLayer st)).
            -- destruct (Frame.prepareClientComposition fe l _)
                 as [[settings|] region]; simpl.
               ++ eexists [_]. simpl. repeat split; auto; discriminate.
               ++ exists []. rewrite app_nil_r. simpl. repeat split; auto.
            -- exists []. simpl. rewrite app_nil_r. repeat split; auto.
          * exists []. simpl. rewrite app_nil_r. repeat split; auto. }
    destruct Hstep as (a1 & Ha1 & Hlen1 & Hno1).
    split.
    + exists (a1 ++ added). rewrite Hadd, Ha1, <- app_assoc.
      split; [reflexivity|]. split; [rewrite length_app; simpl; lia|].
      intros Hall.
      destruct (Hall l (or_introl eq_refl)) as [Hc Ho].
      rewrite (proj1 (Hno1 Hc) Ho).
      rewrite Hnone; [reflexivity|]. intros l' Hin. apply Hall. right. exact Hin.
    + intros Hall. rewrite Hclear by (intros l' Hin; apply Hall; right; exact Hin).
      apply (Hno1 (Hall l (or_introl eq_refl))).
Qed.

(** X22. [generateClientCompositionRequests] produces at most one request
    per output-layer. The first output-layer never gets a clear request:
    unless it requires client composition it is skipped, whatever its
    clear-client-target flag. When no layer requires client composition
    the clear region comes back unchanged, and if in addition no opaque
    layer asks to clear the client target, there is no request at all. *)
Theorem clientCompositionRequests_rules (fe : @Frame.FrontEnd L R LS)
    (viewport : R) (nf sec prot : bool) (emptyRegion : R)
    (layers : list L) (clearRegion0 : R) :
  let r := Frame.generateClientCompositionRequests fe viewport nf sec prot
             emptyRegion layers clearRegion0 in
  (length (fst r) <= length layers)%nat /\
  (forall l0 rest, layers = l0 :: rest ->
     requiresClientComposition l0 = false ->
     let st := fold_left (Frame.requestStep fe viewport nf sec prot) rest
                 {| Frame.clientCompositionLayers := [];
                    Frame.firstLayer := false;
                    Frame.outClearRegion := clearRegion0;
                    Frame.dummyRegion := emptyRegion |} in
     r = (Frame.clientCompositionLayers st, Frame.outClearRegion st)) /\
  ((forall l, In l layers -> requiresClientComposition l = false) ->
   snd r = clearRegion0) /\
  ((forall l, In l layers ->
      requiresClientComposition l = false /\
      layerClearClientTarget l && layerIsOpaque l = false) ->
   fst r = []).
Proof.
  cbv zeta. unfold Frame.generateClientCompositionRequests. cbn [fst snd].
  match goal with
  | |- context [fold_left ?f layers ?st0] =>
      destruct (requestLoop_invariants fe viewport nf sec prot layers st0)
        as [(added & Hadd & Hlen & Hnone) Hclear]
  end.
  cbn [Frame.clientCompositionLayers Frame.outClearRegion app] in Hadd, Hclear.
  split; [rewrite Hadd; exact Hlen|]. split; [|split].
  - intros l0 rest -> Hc. cbn [fold_left]. f_equal.
    + f_equal. unfold Frame.requestStep. rewrite Hc.
      destruct (region_isEmpty _); [reflexivity|].
      cbn. rewrite andb_false_r. reflexivity.
    + f_equal. unfold Frame.requestStep. rewrite Hc.
      destruct (region_isEmpty _); [reflexivity|].
      cbn. rewrite andb_false_r. reflexivity.
  - exact Hclear.
  - intros Hall. rewrite Hadd. apply Hnone. exact Hall.
Qed.

End FrameMoreFacts.

(** Witness of X21: a BT2020 layer above an HLG layer and below an sRGB
    layer decides: the data space is DISPLAY_BT2020. *)
Lemma getBestDataspace_topmost_decides_witness :
  fst (fst (Frame.getBestDataspace
              [Samples.frameHlg; Samples.frameBt2020; Samples.frameSrgb] false))
  = ui.DISPLAY_BT2020.
Proof.
  pose proof (getBestDataspace_topmost_decides [Samples.frameHlg]
                [Samples.frameSrgb] Samples.frameBt2020 false) as W.
  cbv zeta in W. destruct W as [W _]; [repeat constructor|].
  apply W. simpl. tauto.
Defined.

(** Witness of X22: two device layers, the first of which is asked to
    clear the client target, give no request and leave the clear region
    alone. *)
Lemma clientCompositionRequests_rules_witness :
  let viewport : Region := [{| left := 0; top := 0; right := 100; bottom := 100 |}] in
  Frame.generateClientCompositionRequests Samples.frontEnd0 viewport
    false false false [] [Samples.frameClear; Samples.frameSrgb] viewport
  = ([], viewport) /\
  fst (Frame.generateClientCompositionRequests Samples.frontEnd0 viewport
         false false false [] [Samples.frameSrgb; Samples.frameSrgb] viewport)
  = [].
Proof.
  cbv zeta. split.
  - pose proof (proj1 (proj2 (clientCompositionRequests_rules Samples.frontEnd0
             [{| left := 0; top := 0; right := 100; bottom := 100 |}]
             false false false [] [Samples.frameClear; Samples.frameSrgb]
             [{| left := 0; top := 0; right := 100; bottom := 100 |}]))
             Samples.frameClear [Samples.frameSrgb] eq_refl eq_refl) as W.
    cbv zeta in W. rewrite W. reflexivity.
  - apply (proj2 (proj2 (proj2 (clientCompositionRequests_rules Samples.frontEnd0
             [{| left := 0; top := 0; right := 100; bottom := 100 |}]
             false false false [] [Samples.frameSrgb; Samples.frameSrgb]
             [{| left := 0; top := 0; right := 100; bottom := 100 |}])))).
    intros l [<-|[<-|[]]]; split; reflexivity.
Defined.

Section PostFramebufferFacts.
Context {L R : Type} `{OutputLayerOps L} `{OutputLayerView L R}.
Variable hwc : HWComposer.
Variable env : Collaborators.

(** X23. [postFramebuffer] does nothing on a disabled output. On an
    enabled one it clears the dirty region, flips the surface, and after
    the present notifies every output-layer once, in z-order: a layer with
    a hardware-composer layer on a display with an id gets the release
    fence the composer reports for it, any other layer gets NO_FENCE, in
    both cases merged with the client-target acquire fence when client
    composition is in use. Every released layer that still promotes gets
    the present fence, and the released layers are cleared. *)
Theorem postFramebuffer_fences (mergeFence : Fence -> Fence -> Fence)
    (releasedLayers : list (option positive)) (d : Display.t L) :
  let r := Frame.postFramebuffer hwc env mergeFence releasedLayers d in
  let fenceOf (layer : L) :=
    match Display.mId d, getHwcLayer layer with
    | Some id, Some hwcLayer => getLayerReleaseFence hwc id hwcLayer
    | _, _ => NO_FENCE
    end in
  let presentFence :=
    match Display.mId d with
    | Some id => getPresentFence hwc id
    | None => NO_FENCE
    end in
  (Output.isEnabled (Display.getState d) = false -> r = ([], releasedLayers, d)) /\
  (Output.isEnabled (Display.getState d) = true ->
   snd (fst r) = [] /\
   Output.dirtyRegion (Display.getState (snd r)) = [] /\
   Display.getOutputLayersOrderedByZ (snd r) = Display.getOutputLayersOrderedByZ d /\
   fst (fst r) =
     [Frame.RenderSurface_flip; Frame.RenderSurface_onPresentDisplayCompleted] ++
     map (fun layer =>
            Frame.LayerFE_onLayerDisplayed (layerFrontEnd layer)
              (if Output.usesClientComposition (Display.getState d)
               then mergeFence (fenceOf layer) (getClientTargetAcquireFence env)
               else fenceOf layer))
         (Display.getOutputLayersOrderedByZ d) ++
     flat_map (fun weakLayer =>
                 match weakLayer with
                 | Some layer => [Frame.LayerFE_onLayerDisplayed layer presentFence]
                 | None => []
                 end) releasedLayers).
Proof.
  cbv zeta. unfold Frame.postFramebuffer.
  split; [intros Hen; rewrite Hen; reflexivity|].
  intros Hen. rewrite Hen. cbn [negb fst snd].
  set (d1 := Display.onBase (Output.editState (Output.set_dirtyRegion [])) d).
  destruct (Display.mId d) as [id|] eqn:Hid.
  - destruct (presentAndGetFrameFences_shape hwc env d1 id Hid)
      as (Hpf & Hcf & Hlf & Hst & Hls & _ & _).
    cbv zeta in Hlf.
    split; [reflexivity|]. split; [rewrite Hst; reflexivity|].
    split; [rewrite Hls; reflexivity|].
    rewrite Hls, Hst, Hpf, Hcf.
    change (Display.getOutputLayersOrderedByZ d1)
      with (Display.getOutputLayersOrderedByZ d) in *.
    change (Output.usesClientComposition (Display.getState d1))
      with (Output.usesClientComposition (Display.getState d)).
    f_equal. f_equal. apply map_ext_in. intros layer Hin. f_equal.
    assert (Hf : match getHwcLayer layer with
                 | Some hwcLayer =>
                     match Output.layerFences
                             (fst (Display.presentAndGetFrameFences hwc env d1))
                           !! hwcLayer with
                     | Some f => f
                     | None => NO_FENCE
                     end
                 | None => NO_FENCE
                 end
                 = match getHwcLayer layer with
                   | Some hwcLayer => getLayerReleaseFence hwc id hwcLayer
                   | None => NO_FENCE
                   end).
    { destruct (getHwcLayer layer) as [h|] eqn:Eh; [|reflexivity].
      rewrite Hlf. rewrite bool_decide_eq_true_2; [reflexivity|].
      apply (list_elem_of_omap getHwcLayer). exists layer.
      split; [apply list_elem_of_In; exact Hin | exact Eh]. }
    rewrite Hf.
    destruct (Output.usesClientComposition (Display.getState d)); reflexivity.
  - unfold Display.presentAndGetFrameFences.
    change (Display.mId d1) with (Display.mId d). rewrite Hid.
    cbn [fst snd]. split; [reflexivity|]. split; [reflexivity|].
    split; [reflexivity|].
    change (Display.getOutputLayersOrderedByZ d1)
      with (Display.getOutputLayersOrderedByZ d).
    change (Output.usesClientComposition (Display.getState d1))
      with (Output.usesClientComposition (Display.getState d)).
    f_equal. f_equal. apply map_ext_in. intros layer Hin. f_equal.
    cbn [Output.presentAndGetFrameFences Output.layerFences
         Output.clientTargetAcquireFence].
    change (Output.usesClientComposition (Output.mState (Display.base d1)))
      with (Output.usesClientComposition (Display.getState d)).
    destruct (getHwcLayer layer) as [h|]; rewrite ?lookup_empty;
      destruct (Output.usesClientComposition (Display.getState d)); reflexivity.
Qed.

End PostFramebufferFacts.

(** Witness of X23: the sample display of the frame phases, enabled and
    with client composition in use, with two released layers that still
    promote: each output-layer gets its release fence merged with the
    client-target acquire fence 100, the released layers the present
    fence 1. *)
Lemma postFramebuffer_fences_witness :
  let r := Frame.postFramebuffer Samples.hwcFences Samples.envFence
             Samples.mergeFence0 [Some 20%positive; None; Some 21%positive]
             Samples.displayFrame in
  snd (fst r) = [] /\
  Output.dirtyRegion (Display.getState (snd r)) = [] /\
  fst (fst r)
  = [Frame.RenderSurface_flip; Frame.RenderSurface_onPresentDisplayCompleted;
     Frame.LayerFE_onLayerDisplayed 11%positive (Some 101%N);
     Frame.LayerFE_onLayerDisplayed 12%positive (Some 102%N);
     Frame.LayerFE_onLayerDisplayed 15%positive (Some 100%N);
     Frame.LayerFE_onLayerDisplayed 20%positive (Some 1%N);
     Frame.LayerFE_onLayerDisplayed 21%positive (Some 1%N)].
Proof.
  cbv zeta.
  pose proof (proj2 (postFramebuffer_fences Samples.hwcFences Samples.envFence
                       Samples.mergeFence0
                       [Some 20%positive; None; Some 21%positive]
                       Samples.displayFrame) eq_refl) as W.
  cbv zeta in W. destruct W as (Wr & Wd & _ & We).
  split; [exact Wr|]. split; [exact Wd|]. exact We.
Defined.
